(** * easybuild.tools.docs: documentation and catalog generation

    A shallow embedding of [easybuild/tools/docs.py]: the dispatch entry
    point [generate_doc], the easyconfig parameter catalog
    ([avail_easyconfig_params] and its renderers), the software catalog
    ([list_software_md], [list_software_rst], [list_software_txt]) and the
    easyblock overview ([get_easyblock_classes],
    [gen_easyblock_doc_section_md], [gen_easyblock_doc_section_rst]).

    Python dictionaries are stdpp [gmap]s where only the key/value content
    matters and association lists where the insertion order is observable
    ([OrderedDict], iteration over a [dict]).  Exceptions are values of
    [exn]; a call that can raise returns a [result].  The one module-level
    object the parameter catalog could mutate, [DEFAULT_CONFIG], lives in
    an explicit heap.  Strings are byte strings: case conversion, [len]
    and [ord] are those of the ASCII fragment. *)

From Stdlib Require Import String Ascii List Bool Arith ZArith Lia.
From Stdlib Require Import OrderedTypeEx Sorting.Sorted Sorting.Permutation.
From stdpp Require Import base option list strings gmap fin_maps fin_sets pretty sorting.

Local Open Scope string_scope.
Local Open Scope list_scope.
Local Open Scope nat_scope.

(** * Part I: the program *)

(** ** Exceptions and results *)

(** The Python exception classes raised on the modelled paths. *)
Inductive exn : Type :=
  | KeyError (key : string)
  | NotImplementedError (msg : string)
  | RuntimeError (args : list string)
  | TypeError (msg : string)
  | IndexError (msg : string)
  | ValueError (msg : string).

Global Instance exn_eq_dec : EqDecision exn.
Proof. solve_decision. Defined.

Definition result (A : Type) : Type := (exn + A)%type.

Definition Raise {A} (e : exn) : result A := inl e.
Definition Return {A} (x : A) : result A := inr x.

Definition rbind {A B} (m : result A) (k : A → result B) : result B :=
  match m with
  | inl e => inl e
  | inr x => k x
  end.

Notation "'try!' x ':=' m 'in' k" := (rbind m (λ x, k))
  (at level 10, x name, m at level 100, k at level 200, only parsing).

(** A loop whose body can raise: the first exception ends it. *)
Fixpoint rfold {A B} (f : B → A → result B) (acc : B) (l : list A) : result B :=
  match l with
  | [] => Return acc
  | x :: l' => try! acc' := f acc x in rfold f acc' l'
  end.

Definition is_error {A} (r : result A) : bool :=
  match r with inl _ => true | inr _ => false end.

(** ** Python string operations (ASCII fragment) *)

Module PyStr.

Definition upper_ascii (c : ascii) : ascii :=
  let n := nat_of_ascii c in
  if (97 <=? n) && (n <=? 122) then ascii_of_nat (n - 32) else c.

Definition lower_ascii (c : ascii) : ascii :=
  let n := nat_of_ascii c in
  if (65 <=? n) && (n <=? 90) then ascii_of_nat (n + 32) else c.

(** [s.upper()] *)
Fixpoint upper (s : string) : string :=
  match s with
  | EmptyString => EmptyString
  | String c s' => String (upper_ascii c) (upper s')
  end.

(** [s.lower()] *)
Fixpoint lower (s : string) : string :=
  match s with
  | EmptyString => EmptyString
  | String c s' => String (lower_ascii c) (lower s')
  end.

(** [sep.join(l)] *)
Fixpoint join (sep : string) (l : list string) : string :=
  match l with
  | [] => ""
  | [x] => x
  | x :: l' => x +:+ sep +:+ join sep l'
  end.

(** [c * n] *)
Fixpoint repeat (c : string) (n : nat) : string :=
  match n with
  | O => ""
  | S n' => c +:+ repeat c n'
  end.

(** [s.startswith(p)] *)
Definition startswith (s p : string) : bool := String.prefix p s.

(** The characters removed by [str.strip()] and [str.lstrip()] when
    called without argument. *)
Definition is_space (c : ascii) : bool :=
  let n := nat_of_ascii c in
  ((9 <=? n) && (n <=? 13)) || ((28 <=? n) && (n <=? 32)).

(** [s.lstrip()] *)
Fixpoint lstrip (s : string) : string :=
  match s with
  | EmptyString => EmptyString
  | String c s' => if is_space c then lstrip s' else s
  end.

(** [s.lstrip(' ')] *)
Fixpoint lstrip_space (s : string) : string :=
  match s with
  | EmptyString => EmptyString
  | String c s' => if Ascii.eqb c " " then lstrip_space s' else s
  end.

(** [s.strip()] *)
Definition strip (s : string) : string :=
  String.rev (lstrip (String.rev (lstrip s))).

(** [s.split('\n')]; the piece being read is kept reversed in [cur]. *)
Fixpoint split_nl_go (cur : string) (s : string) : list string :=
  match s with
  | EmptyString => [String.rev cur]
  | String c s' =>
      if Ascii.eqb c "010" then String.rev cur :: split_nl_go "" s'
      else split_nl_go (String c cur) s'
  end.

Definition split_nl (s : string) : list string := split_nl_go "" s.

(** [s.splitlines()], for lines ended by ['\n']: as [split('\n')], but a
    final line break opens no further line and the empty string has none. *)
Definition splitlines (s : string) : list string :=
  match s with
  | EmptyString => []
  | _ =>
      let ls := split_nl s in
      match last ls with
      | Some EmptyString => removelast ls
      | _ => ls
      end
  end.

(** [s.replace(a, b)] for a one-character [a] *)
Fixpoint replace_char (a : ascii) (b : string) (s : string) : string :=
  match s with
  | EmptyString => EmptyString
  | String c s' =>
      if Ascii.eqb c a then b +:+ replace_char a b s'
      else String c (replace_char a b s')
  end.

(** ['{0:<{nw}}'.format(s, nw=nw)]: left-justified in a field of width [nw] *)
Definition ljust (s : string) (nw : nat) : string :=
  s +:+ repeat " " (nw - String.length s).

(** The truth value of a string: it is not empty. *)
Definition truthy (s : string) : bool :=
  match s with EmptyString => false | _ => true end.

(** [sum(ord(letter) for letter in s)] *)
Fixpoint ord_sum (s : string) : nat :=
  match s with
  | EmptyString => 0
  | String c s' => nat_of_ascii c + ord_sum s'
  end.

(** [s[0]], which raises [IndexError] on the empty string. *)
Definition first_char (s : string) : result string :=
  match s with
  | EmptyString => Raise (IndexError "string index out of range")
  | String c _ => Return (String c EmptyString)
  end.

(** [s[1:]] *)
Definition tail (s : string) : string :=
  match s with
  | EmptyString => EmptyString
  | String _ s' => s'
  end.

(** [s.endswith(c)] for a one-character [c] *)
Fixpoint ends_with_char (c : ascii) (s : string) : bool :=
  match s with
  | EmptyString => false
  | String a EmptyString => Ascii.eqb a c
  | String _ s' => ends_with_char c s'
  end.

(** How often the character [c] occurs in [s]: [s.count(c)]. *)
Fixpoint count_char (c : ascii) (s : string) : nat :=
  match s with
  | EmptyString => 0
  | String a s' => (if Ascii.eqb a c then 1 else 0) + count_char c s'
  end.

(** [s] without its prefix [p], if it starts with [p]. *)
Fixpoint strip_prefix (p s : string) : option string :=
  match p with
  | EmptyString => Some s
  | String a p' =>
      match s with
      | EmptyString => None
      | String b s' => if Ascii.eqb a b then strip_prefix p' s' else None
      end
  end.

End PyStr.

Definition nl : string := String "010" EmptyString.

(** [string.ascii_lowercase], as the list of its one-character strings. *)
Definition ascii_lowercase : list string :=
  ["a"; "b"; "c"; "d"; "e"; "f"; "g"; "h"; "i"; "j"; "k"; "l"; "m";
   "n"; "o"; "p"; "q"; "r"; "s"; "t"; "u"; "v"; "w"; "x"; "y"; "z"].

(** [max(l)] of a non-empty list of lengths (0 stands in for the empty
    list, on which the code never calls it). *)
Definition max_len (l : list nat) : nat := foldr Nat.max 0 l.

(** ** [sorted] and [nub] *)

Section Sorting.
Context {A : Type} (lt : A → A → bool).

(** [sorted] is stable and compares with [<] only: an element is placed
    before the first element it is smaller than, behind everything already
    placed that is not greater. *)
Fixpoint sorted_insert (x : A) (l : list A) : list A :=
  match l with
  | [] => [x]
  | y :: l' => if lt x y then x :: y :: l' else y :: sorted_insert x l'
  end.

Definition py_sorted (l : list A) : list A :=
  foldl (λ acc x, sorted_insert x acc) [] l.

(** Ascending order: no later element is smaller than an earlier one. *)
Definition ascending : relation A := λ a b, lt b a = false.

End Sorting.

Section Nub.
Context {A : Type} `{EqDecision A}.

(** Modelled from the spec: [nub] of [easybuild.tools.utilities] is not
    among the sources at hand; the spec calls its result "deduplicated".
    It is taken to keep the first occurrence of every item, in the order
    of its argument; [seen] is the set of items met so far. *)
Fixpoint nub_go (seen : list A) (l : list A) : list A :=
  match l with
  | [] => []
  | x :: l' =>
      if decide (x ∈ seen) then nub_go seen l' else x :: nub_go (x :: seen) l'
  end.

Definition nub (l : list A) : list A := nub_go [] l.

End Nub.

(** ** Comparing tuples *)

(** Two comparisons in a row: the second one decides where the first one
    finds its arguments equal. *)
Definition lex_pair {A B} (cmp : A → A → comparison) (cmp' : B → B → comparison)
    (x y : A * B) : comparison :=
  match cmp x.1 y.1 with
  | Eq => cmp' x.2 y.2
  | c => c
  end.

(** ** Insertion-ordered dictionaries ([OrderedDict], [dict]) *)

Section OrderedDict.
Context {V : Type}.

(** [od[k]] *)
Fixpoint od_lookup (k : string) (od : list (string * V)) : option V :=
  match od with
  | [] => None
  | kv :: od' => if decide (kv.1 = k) then Some kv.2 else od_lookup k od'
  end.

(** [od[k] = v]: an existing key keeps its place, a new one goes last. *)
Fixpoint od_set (k : string) (v : V) (od : list (string * V)) : list (string * V) :=
  match od with
  | [] => [(k, v)]
  | kv :: od' =>
      if decide (kv.1 = k) then (k, v) :: od' else kv :: od_set k v od'
  end.

(** [od[k]] changed in place by [f] *)
Definition od_alter (f : V → V) (k : string) (od : list (string * V)) : list (string * V) :=
  (λ kv, if decide (kv.1 = k) then (kv.1, f kv.2) else kv) <$> od.

(** [del od[k]] *)
Definition od_del (k : string) (od : list (string * V)) : list (string * V) :=
  filter (λ kv, kv.1 ≠ k) od.

End OrderedDict.

(** ** Data model *)

(** The values that serve as parameter defaults. *)
Inductive pyval : Type :=
  | PyNone
  | PyBool (b : bool)
  | PyInt (z : Z)
  | PyStr (s : string)
  | PyObj (repr : string).

(** A parameter category: the [(rank, name)] tuples that
    [sorted_categories()] returns and that a [DEFAULT_CONFIG] entry holds
    as its third component. *)
Definition category : Type := (Z * string)%type.

(** A schema entry [[default, description, category]]. *)
Definition param_entry : Type := (pyval * string * category)%type.

(** A class object is identified by [(__module__, __name__)]. *)
Definition class_ref : Type := (string * string)%type.

(** What the code reads of a class object: [__module__], [__name__],
    [__bases__], [inspect.getmro], [__doc__], the [__doc__] of every entry
    of its own [__dict__], and the dictionary [extra_options()] returns. *)
Record pyclass : Type := PyClass {
  cls_module : string;
  cls_name : string;
  cls_bases : list class_ref;
  cls_mro : list class_ref;
  cls_doc : option string;
  cls_dict : gmap string (option string);
  cls_extra_options : gmap string param_entry;
}.

Definition cls_ref (c : pyclass) : class_ref := (cls_module c, cls_name c).

(** A module as [inspect.getmembers(mod, inspect.isclass)] shows it: its
    [__name__] and its class-valued attributes, sorted by attribute name. *)
Record pymodule : Type := PyModule {
  mod_name : string;
  mod_classes : list (string * pyclass);
}.

(** [EasyBlock], imported from [easybuild.framework.easyblock]. *)
Definition EasyBlock : class_ref := ("easybuild.framework.easyblock", "EasyBlock").

(** An entry of the [software] dictionary that [list_software] builds. *)
Record sw_entry : Type := SwEntry {
  sw_toolchain : string;
  sw_description : string;
  sw_homepage : string;
  sw_version : string;
  sw_versionsuffix : string;
}.

Global Instance sw_entry_eq_dec : EqDecision sw_entry.
Proof. solve_decision. Defined.

(** The grouped parameters: an [OrderedDict] from group name to a
    dictionary from rendered parameter name to [(description, default)]. *)
Definition grouped_dict : Type := list (string * gmap string (string * pyval)).

(** The objects handed to a renderer through [generate_doc]. *)
Inductive pyarg : Type :=
  | AStr (s : string)
  | ABool (b : bool)
  | AGrouped (g : grouped_dict)
  | AAlt (a : gmap string string)
  | ASoftware (sw : list (string * list sw_entry))
  | AOther.

(** Locations of dictionary objects. *)
Abbreviation loc := nat.

(** The heap of schema dictionaries. *)
Abbreviation heap := (gmap nat (gmap string param_entry)).

(** ** What the module imports

    Constants, helpers and registries of other modules, none of them among
    the sources at hand, and the host the code runs on. *)
Class Externals : Type := {
  (** [str(quote_str(v))], with [quote_str] of [easybuild.tools.utilities] *)
  str_quote_str : pyval → string;
  (** [mk_md_table] and [mk_rst_table] of [easybuild.tools.utilities] *)
  mk_md_table : list string → list (list string) → list string;
  mk_rst_table : list string → list (list string) → list string;
  (** [HIDDEN] and the value of [sorted_categories()] of
      [easybuild.framework.easyconfig.default] *)
  HIDDEN : string;
  sorted_categories : list category;
  (** the location of the [DEFAULT_CONFIG] dictionary of the same module *)
  DEFAULT_CONFIG : loc;
  (** the items of [ALTERNATIVE_EASYCONFIG_PARAMETERS], in iteration order *)
  ALTERNATIVE_EASYCONFIG_PARAMETERS : list (string * string);
  (** [get_easyblock_class(easyblock, error_on_missing_easyblock=False)] *)
  get_easyblock_class : option string → option pyclass;
  (** how [LooseVersion(v1)] compares with [LooseVersion(v2)]:
      [==] is [Eq], [<] is [Lt] *)
  version_cmp : string → string → comparison;
  (** [import_available_modules(package_name)] *)
  import_available_modules : string → list pymodule;
  (** [None.__doc__] of the running interpreter *)
  None_doc : option string;
  (** [os.path.exists] and [read_file] *)
  path_exists : string → bool;
  read_file : string → string;
  (** a call of a name of this module whose body is not modelled *)
  extern_call : string → list pyarg → result string;
}.

Section Docs.
Context `{!Externals}.

(** ** Titles and tables *)

Definition md_title_and_table (title : option string) (table_titles : list string)
    (table_values : list (list string)) (title_level : nat) : list string :=
  match title with
  | Some t => [PyStr.repeat "#" title_level +:+ " " +:+ t; ""]
  | None => []
  end ++ mk_md_table table_titles table_values.

Definition rst_title_and_table (title : option string) (table_titles : list string)
    (table_values : list (list string)) : list string :=
  match title with
  | Some t => [t; PyStr.repeat "-" (String.length t); ""]
  | None => []
  end ++ mk_rst_table table_titles table_values.

(** ** Renderers of the parameter catalog *)

(** [sorted(d.items())]: the keys of a dictionary are distinct, so the
    comparison of two items is decided by their keys. *)
Definition sorted_items {V} (d : gmap string V) : list (string * V) :=
  py_sorted (λ a b, String.ltb a.1 b.1) (map_to_list d).

(** [sorted(d.keys())] *)
Definition sorted_keys {V} (d : gmap string V) : list string :=
  py_sorted String.ltb ((map_to_list d).*1).

Definition params_table_titles : list string :=
  ["**Parameter name**"; "**Description**"; "**Default value**"; "**Alternative name**"].

(** The body of the loop over the groups in [avail_easyconfig_params_md];
    [grpname[0]] raises on an empty group name. *)
Definition avail_easyconfig_params_md_group (alternative_params : gmap string string)
    (grp : string * gmap string (string * pyval)) : result (list string) :=
  let grpname := grp.1 in
  try! c := PyStr.first_char grpname in
  let title := PyStr.upper c +:+ PyStr.tail grpname +:+ " parameters" in
  let keys := sorted_keys grp.2 in
  let values := omap (λ key, grp.2 !! key) keys in
  let table_values :=
    [ (λ name, "`" +:+ name +:+ "`") <$> keys;
      (λ x : string * pyval,
         PyStr.replace_char ">" "&gt;" (PyStr.replace_char "<" "&lt;" x.1)) <$> values;
      (λ x : string * pyval, "`" +:+ str_quote_str x.2 +:+ "`") <$> values;
      (λ name, match alternative_params !! name with
               | Some a => "`" +:+ a +:+ "`"
               | None => ""
               end) <$> keys ] in
  Return (md_title_and_table (Some title) params_table_titles table_values 2 ++ [""]).

Definition avail_easyconfig_params_md (title : string) (grouped_params : grouped_dict)
    (alternative_params : gmap string string) : result string :=
  try! doc := rfold (λ doc grp,
                try! ls := avail_easyconfig_params_md_group alternative_params grp in
                Return (doc ++ ls))
              ["# " +:+ title; ""] grouped_params in
  Return (PyStr.join nl doc).

Definition avail_easyconfig_params_rst_group (alternative_params : gmap string string)
    (grp : string * gmap string (string * pyval)) : list string :=
  let title := grp.1 +:+ " parameters" in
  let keys := sorted_keys grp.2 in
  let values := omap (λ key, grp.2 !! key) keys in
  let table_values :=
    [ (λ name, "``" +:+ name +:+ "``") <$> keys;
      (λ x : string * pyval, x.1) <$> values;
      (λ x : string * pyval, str_quote_str x.2) <$> values;
      (λ name, match alternative_params !! name with
               | Some a => "``" +:+ a +:+ "``"
               | None => ""
               end) <$> keys ] in
  rst_title_and_table (Some title) params_table_titles table_values ++ [""].

Definition avail_easyconfig_params_rst (title : string) (grouped_params : grouped_dict)
    (alternative_params : gmap string string) : result string :=
  let doc := foldl (λ doc grp, doc ++ avail_easyconfig_params_rst_group alternative_params grp)
               [title; PyStr.repeat "=" (String.length title); ""] grouped_params in
  Return (PyStr.join nl doc).

Definition avail_easyconfig_params_json (args : list pyarg) : result string :=
  Raise (NotImplementedError "JSON output format not supported for avail_easyconfig_params_json").

(** One line of the plain-text catalog. *)
Definition avail_easyconfig_params_txt_line (alternative_params : gmap string string)
    (nw : nat) (item : string * (string * pyval)) : string :=
  let name := item.1 in
  let line := PyStr.join " " [PyStr.ljust name nw +:+ "  "; item.2.1;
                              "[default: " +:+ str_quote_str item.2.2 +:+ "]"] in
  match alternative_params !! name with
  | Some alternative =>
      if PyStr.truthy alternative then line +:+ " {alternative: " +:+ alternative +:+ "}"
      else line
  | None => line
  end.

(** The body of the loop over the groups in [avail_easyconfig_params_txt];
    [max] of no key at all is an error. *)
Definition avail_easyconfig_params_txt_group (alternative_params : gmap string string)
    (grp : string * gmap string (string * pyval)) : result (list string) :=
  let head := PyStr.upper grp.1 in
  if decide (grp.2 = ∅) then Raise (ValueError "max() arg is an empty sequence") else
  let nw := max_len (String.length <$> (map_to_list grp.2).*1) in
  Return ([head; PyStr.repeat "-" (String.length head)]
          ++ (avail_easyconfig_params_txt_line alternative_params nw <$> sorted_items grp.2)
          ++ [""]).

Definition avail_easyconfig_params_txt (title : string) (grouped_params : grouped_dict)
    (alternative_params : gmap string string) : result string :=
  try! doc := rfold (λ doc grp,
                try! ls := avail_easyconfig_params_txt_group alternative_params grp in
                Return (doc ++ ls))
              [title +:+ ":"; ""] grouped_params in
  Return (PyStr.join nl doc).

(** ** The software catalog *)

(** A loop that collects one result per item. *)
Definition rmap {A B} (f : A → result B) (l : list A) : result (list B) :=
  rfold (λ acc x, try! y := f x in Return (acc ++ [y])) [] l.

(** A tuple [(LooseVersion(v), vs, v)]; the first component is kept as
    the string [v] its [LooseVersion] is made from. *)
Definition version_triple : Type := (string * string * string)%type.

(** [a < b] on these tuples: the first components that are not [==]
    decide. *)
Definition triple_lt (a b : version_triple) : bool :=
  match version_cmp a.1.1 b.1.1 with
  | Lt => true
  | Gt => false
  | Eq =>
      match String.compare a.1.2 b.1.2 with
      | Lt => true
      | Gt => false
      | Eq => String.ltb a.2 b.2
      end
  end.

(** The three-way comparison that [triple_lt] is the [<] of. *)
Definition triple_cmp (a b : version_triple) : comparison :=
  lex_pair version_cmp (lex_pair String.compare String.compare)
    (a.1.1, (a.1.2, a.2)) (b.1.1, (b.1.2, b.2)).

(** [nub((x['version'], x['versionsuffix']) for x in software[key])] *)
Definition version_pairs (entries : list sw_entry) : list (string * string) :=
  nub ((λ x, (sw_version x, sw_versionsuffix x)) <$> entries).

(** [any(vs for (_, vs) in pairs)] *)
Definition any_vsuff (pairs : list (string * string)) : bool :=
  existsb (λ p, PyStr.truthy p.2) pairs.

(** [sorted((LooseVersion(v), vs, v) for v, vs in pairs)] *)
Definition sorted_version_pairs (pairs : list (string * string)) : list version_triple :=
  py_sorted triple_lt ((λ p, (p.1, p.2, p.1)) <$> pairs).

(** [[x['toolchain'] for x in software[key]
      if x['version'] == ver and x['versionsuffix'] == vsuff]] *)
Definition toolchains_of (entries : list sw_entry) (ver vsuff : string) : list string :=
  sw_toolchain <$> filter (λ x, sw_version x = ver ∧ sw_versionsuffix x = vsuff) entries.

(** [sorted(nub(tcs))] *)
Definition sorted_toolchains (entries : list sw_entry) (ver vsuff : string) : list string :=
  py_sorted String.ltb (nub (toolchains_of entries ver vsuff)).

(** [table_values[i].append(x)] *)
Definition column_append (i : nat) (x : string) (table_values : list (list string)) :
    list (list string) :=
  alter (λ col, col ++ [x]) i table_values.

(** [l.insert(1, x)] *)
Definition insert_at_1 {A} (x : A) (l : list A) : list A := take 1 l ++ x :: drop 1 l.

(** The cell [', '.join('``%s``' % tc for tc in sorted(nub(tcs)))]. *)
Definition toolchain_cell (entries : list sw_entry) (ver vsuff : string) : string :=
  PyStr.join ", " ((λ tc, "``" +:+ tc +:+ "``") <$> sorted_toolchains entries ver vsuff).

(** The cells ['``%s``' % ver] and ['``%s``' % vsuff], the latter empty for
    an empty versionsuffix. *)
Definition version_cell (t : version_triple) : string := "``" +:+ t.2 +:+ "``".

Definition versionsuffix_cell (t : version_triple) : string :=
  if PyStr.truthy t.1.2 then "``" +:+ t.1.2 +:+ "``" else "".

(** The body of the loop over [sorted_pairs] in [list_software_md] and
    [list_software_rst]; [table_values[-1]] is the last column. *)
Definition software_table_row (entries : list sw_entry) (with_vsuff : bool)
    (table_values : list (list string)) (t : version_triple) : list (list string) :=
  let vsuff := t.1.2 in
  let ver := t.2 in
  let tv := column_append 0 (version_cell t) table_values in
  let tv := if with_vsuff then column_append 1 (versionsuffix_cell t) tv else tv in
  column_append (length tv - 1) (toolchain_cell entries ver vsuff) tv.

(** The version table of one software name, the same code in
    [list_software_md] and [list_software_rst]: its column titles and its
    columns. *)
Definition software_table (entries : list sw_entry) : list string * list (list string) :=
  let table_titles := ["version"; "toolchain"] in
  let table_values := [[]; []] in
  let pairs := version_pairs entries in
  let with_vsuff := any_vsuff pairs in
  let table_titles := if with_vsuff then insert_at_1 "versionsuffix" table_titles else table_titles in
  let table_values := if with_vsuff then insert_at_1 [] table_values else table_values in
  let sorted_pairs := sorted_version_pairs pairs in
  (table_titles, foldl (software_table_row entries with_vsuff) table_values sorted_pairs).

(** [sorted(software.keys(), key=lambda x: x.lower())], each key with its
    entries.  [software] lists the items of the dictionary in iteration
    order; its keys are distinct. *)
Definition software_sorted (software : list (string * list sw_entry)) :
    list (string * list sw_entry) :=
  py_sorted (λ a b, String.ltb (PyStr.lower a.1) (PyStr.lower b.1)) software.

(** [k[0].lower()] *)
Definition first_lower (k : string) : result string :=
  try! c := PyStr.first_char k in Return (PyStr.lower c).

(** [nub(sorted(k[0].lower() for k in software.keys()))] *)
Definition key_letters (software : list (string * list sw_entry)) : result (list string) :=
  try! letters := rmap first_lower (software.*1) in
  Return (nub (py_sorted String.ltb letters)).

(** [k[0].lower() == letter], for a non-empty key *)
Definition has_letter (letter : string) (k : string) : bool :=
  match first_lower k with
  | inr c => bool_decide (c = letter)
  | inl _ => false
  end.

(** [[k for k in sorted_keys if k[0].lower() == letter]] *)
Definition keys_of_letter (letter : string) (sorted_keys : list string) : list string :=
  filter (λ k, has_letter letter k = true) sorted_keys.

(** [software[key][-1]] *)
Definition last_entry (entries : list sw_entry) : result sw_entry :=
  match last entries with
  | Some e => Return e
  | None => Raise (IndexError "list index out of range")
  end.

(** The body of the loop over [sorted_keys] in [list_software_md]; the
    state is [(letter, lines)]. *)
Definition list_software_md_key (detailed : bool) (sorted_keys : list string)
    (st : option string * list string) (item : string * list sw_entry) :
    result (option string * list string) :=
  let key := item.1 in
  try! l := first_lower key in
  let st :=
    if decide (Some l ≠ st.1) then
      let lines := st.2 ++ [""; "## " +:+ PyStr.upper l; ""] in
      let lines :=
        if detailed then
          lines ++ [""; PyStr.join " - " ((λ k, "[" +:+ k +:+ "](#" +:+ PyStr.lower k +:+ ")")
                                          <$> keys_of_letter l sorted_keys); ""]
        else lines in
      (Some l, lines)
    else st in
  if detailed then
    let table := software_table item.2 in
    try! e := last_entry item.2 in
    Return (st.1, st.2 ++
      [""; "### " +:+ key; "";
       PyStr.lstrip_space (PyStr.join " " (PyStr.split_nl (sw_description e))); "";
       "*homepage*: <" +:+ sw_homepage e +:+ ">"; ""]
      ++ md_title_and_table None table.1 table.2 1)
  else Return (st.1, st.2 ++ ["* " +:+ key]).

Definition list_software_md (software : list (string * list sw_entry)) (detailed : bool) :
    result string :=
  let lines :=
    ["# List of supported software"; "";
     "EasyBuild supports " +:+ pretty (length software)
       +:+ " different software packages (incl. toolchains, bundles):"; ""] in
  try! letters := key_letters software in
  let letter_links :=
    PyStr.join " - " ((λ x, "[" +:+ x +:+ "](#" +:+ x +:+ ")")
                      <$> filter (λ x, x ∈ letters) ascii_lowercase) in
  let lines := lines ++ [letter_links; ""] in
  let sorted := software_sorted software in
  try! st := rfold (list_software_md_key detailed (sorted.*1)) (None, lines) sorted in
  Return (PyStr.join nl st.2).

(** [key_to_ref], local to [list_software_rst] *)
Definition key_to_ref (name : string) : string :=
  "list_software_" +:+ name +:+ "_" +:+ pretty (PyStr.ord_sum name).

(** The loop over [ascii_lowercase] that builds [letter_refs]. *)
Definition letter_refs (letters : list string) : string :=
  foldl (λ refs letter,
    if decide (letter ∈ letters) then
      if PyStr.truthy refs then refs +:+ " - :ref:`list_software_letter_" +:+ letter +:+ "`"
      else ":ref:`list_software_letter_" +:+ letter +:+ "`"
    else refs) "" ascii_lowercase.

Definition list_software_rst_key (detailed : bool) (sorted_keys : list string)
    (st : option string * list string) (item : string * list sw_entry) :
    result (option string * list string) :=
  let key := item.1 in
  try! l := first_lower key in
  let st :=
    if decide (Some l ≠ st.1) then
      let lines := st.2 ++ [""; ".. _list_software_letter_" +:+ l +:+ ":"; "";
                            "*" +:+ PyStr.upper l +:+ "*"; PyStr.repeat "-" 3; ""] in
      let lines :=
        if detailed then
          lines ++ [""; PyStr.join " - " ((λ k, ":ref:`" +:+ key_to_ref k +:+ "`")
                                          <$> keys_of_letter l sorted_keys); ""]
        else lines in
      (Some l, lines)
    else st in
  if detailed then
    let table := software_table item.2 in
    try! e := last_entry item.2 in
    Return (st.1, st.2 ++
      [""; ".. _" +:+ key_to_ref key +:+ ":"; "";
       "*" +:+ key +:+ "*"; PyStr.repeat "+" (String.length key + 2); "";
       PyStr.lstrip_space (PyStr.join " " (PyStr.split_nl (sw_description e))); "";
       "*homepage*: " +:+ sw_homepage e; ""]
      ++ rst_title_and_table None table.1 table.2)
  else Return (st.1, st.2 ++ ["* " +:+ key]).

Definition list_software_rst (software : list (string * list sw_entry)) (detailed : bool) :
    result string :=
  let title := "List of supported software" in
  let lines :=
    [title; PyStr.repeat "=" (String.length title); "";
     "EasyBuild |version| supports " +:+ pretty (length software)
       +:+ " different software packages (incl. toolchains, bundles):"; ""] in
  try! letters := key_letters software in
  let lines := lines ++ [letter_refs letters; ""] in
  let sorted := software_sorted software in
  try! st := rfold (list_software_rst_key detailed (sorted.*1)) (None, lines) sorted in
  Return (PyStr.join nl st.2).

(** One line of the plain-text version list. *)
Definition list_software_txt_line (key : string) (entries : list sw_entry)
    (t : version_triple) : string :=
  let vsuff := t.1.2 in
  let ver := t.2 in
  let line := "  * " +:+ key +:+ " v" +:+ ver in
  let line :=
    if PyStr.truthy vsuff then line +:+ " (versionsuffix: '" +:+ vsuff +:+ "')" else line in
  line +:+ ": " +:+ PyStr.join ", " (sorted_toolchains entries ver vsuff).

Definition list_software_txt_key (detailed : bool) (lines : list string)
    (item : string * list sw_entry) : result (list string) :=
  let key := item.1 in
  let lines := lines ++ ["* " +:+ key] in
  if detailed then
    try! e := last_entry item.2 in
    let lines := lines ++ [""; PyStr.join " " (PyStr.split_nl (sw_description e)); "";
                           "homepage: " +:+ sw_homepage e; ""] in
    let pairs := version_pairs item.2 in
    let sorted_pairs := sorted_version_pairs pairs in
    Return (lines ++ (list_software_txt_line key item.2 <$> sorted_pairs) ++ [""])
  else Return lines.

Definition list_software_txt (software : list (string * list sw_entry)) (detailed : bool) :
    result string :=
  try! lines := rfold (list_software_txt_key detailed) [""] (software_sorted software) in
  Return (PyStr.join nl lines).

(** ** Dispatch by name *)

(** A call with an argument list a function does not accept. *)
Definition bad_call {A} (name : string) : result A :=
  Raise (TypeError (name +:+ "() called with unexpected arguments")).

(** The renderers that only report that json is not supported; each
    accepts the arguments its signature allows. *)
Definition avail_cfgfile_constants_json (params : list pyarg) : result string :=
  match params with
  | [_] => Raise (NotImplementedError
             "JSON output format not supported for avail_cfgfile_constants_json")
  | _ => bad_call "avail_cfgfile_constants_json"
  end.

Definition avail_easyconfig_constants_json (params : list pyarg) : result string :=
  match params with
  | [] => Raise (NotImplementedError
            "JSON output format not supported for avail_easyconfig_constants_json")
  | _ => bad_call "avail_easyconfig_constants_json"
  end.

Definition avail_easyconfig_licenses_json (params : list pyarg) : result string :=
  match params with
  | [] => Raise (NotImplementedError
            "JSON output format not supported for avail_easyconfig_licenses_json")
  | _ => bad_call "avail_easyconfig_licenses_json"
  end.

Definition avail_easyconfig_templates_json (params : list pyarg) : result string :=
  match params with
  | [] => Raise (NotImplementedError
            "JSON output format not supported for avail_easyconfig_templates")
  | _ => bad_call "avail_easyconfig_templates_json"
  end.

Definition list_toolchains_json (params : list pyarg) : result string :=
  match params with
  | [_] => Raise (NotImplementedError "JSON output not implemented yet for --list-toolchains")
  | _ => bad_call "list_toolchains_json"
  end.

Definition avail_toolchain_opts_json (params : list pyarg) : result string :=
  match params with
  | [_; _] => Raise (NotImplementedError
                "JSON output not implemented yet for --avail-toolchain-opts")
  | _ => bad_call "avail_toolchain_opts_json"
  end.

Definition gen_easyblocks_overview_json (params : list pyarg) : result string :=
  match params with
  | [_; _] | [_; _; _] | [_; _; _; _] =>
      Raise (NotImplementedError "JSON output not implemented yet for gen_easyblocks_overview")
  | _ => bad_call "gen_easyblocks_overview_json"
  end.

(** These renderers by name, each with the numbers of positional
    arguments its signature accepts. *)
Definition json_stubs : list (string * (nat → bool)) :=
  [ ("avail_cfgfile_constants_json", λ n, n =? 1);
    ("avail_easyconfig_constants_json", λ n, n =? 0);
    ("avail_easyconfig_licenses_json", λ n, n =? 0);
    ("avail_easyconfig_params_json", λ _, true);
    ("avail_easyconfig_templates_json", λ n, n =? 0);
    ("list_toolchains_json", λ n, n =? 1);
    ("avail_toolchain_opts_json", λ n, n =? 2);
    ("gen_easyblocks_overview_json", λ n, (2 <=? n) && (n <=? 4)) ].

(** The modelled renderers as [generate_doc] calls them, with [params]
    unpacked into their arguments. *)
Definition call_params_renderer (name : string)
    (f : string → grouped_dict → gmap string string → result string)
    (params : list pyarg) : result string :=
  match params with
  | [AStr title; AGrouped grouped_params; AAlt alternative_params] =>
      f title grouped_params alternative_params
  | _ => bad_call name
  end.

Definition call_software_renderer (name : string) (default_detailed : bool)
    (f : list (string * list sw_entry) → bool → result string)
    (params : list pyarg) : result string :=
  match params with
  | [ASoftware software] => f software default_detailed
  | [ASoftware software; ABool detailed] => f software detailed
  | _ => bad_call name
  end.

(** The functions of the module that are modelled here, by name. *)
Definition docs_functions : list (string * (list pyarg → result string)) :=
  [ ("avail_cfgfile_constants_json", avail_cfgfile_constants_json);
    ("avail_easyconfig_constants_json", avail_easyconfig_constants_json);
    ("avail_easyconfig_licenses_json", avail_easyconfig_licenses_json);
    ("avail_easyconfig_params_md",
       call_params_renderer "avail_easyconfig_params_md" avail_easyconfig_params_md);
    ("avail_easyconfig_params_rst",
       call_params_renderer "avail_easyconfig_params_rst" avail_easyconfig_params_rst);
    ("avail_easyconfig_params_json", avail_easyconfig_params_json);
    ("avail_easyconfig_params_txt",
       call_params_renderer "avail_easyconfig_params_txt" avail_easyconfig_params_txt);
    ("avail_easyconfig_templates_json", avail_easyconfig_templates_json);
    ("list_software_md", call_software_renderer "list_software_md" true list_software_md);
    ("list_software_rst", call_software_renderer "list_software_rst" false list_software_rst);
    ("list_software_txt", call_software_renderer "list_software_txt" false list_software_txt);
    ("list_toolchains_json", list_toolchains_json);
    ("avail_toolchain_opts_json", avail_toolchain_opts_json);
    ("gen_easyblocks_overview_json", gen_easyblocks_overview_json) ].

(** Every other name bound at module level: the imports, the constants,
    the remaining functions and the attributes every module has. *)
Definition docs_other_names : list string :=
  [ "copy"; "inspect"; "json"; "os"; "OrderedDict"; "LooseVersion"; "ascii_lowercase";
    "fancylogger"; "DEFAULT_CONFIG"; "HIDDEN"; "sorted_categories"; "EasyBlock";
    "EASYCONFIG_CONSTANTS"; "get_easyblock_class"; "process_easyconfig";
    "EASYCONFIG_LICENSES_DICT"; "ALTERNATIVE_EASYCONFIG_PARAMETERS"; "EasyConfigParser";
    "TEMPLATE_CONSTANTS"; "TEMPLATE_NAMES_CONFIG"; "TEMPLATE_NAMES_DYNAMIC";
    "TEMPLATE_NAMES_EASYBLOCK_RUN_STEP"; "TEMPLATE_NAMES_EASYCONFIG";
    "TEMPLATE_NAMES_LOWER"; "TEMPLATE_NAMES_LOWER_TEMPLATE";
    "TEMPLATE_SOFTWARE_VERSIONS"; "template_constant_dict"; "avail_easyblocks";
    "find_matching_easyconfigs"; "Extension"; "EasyBuildError"; "print_msg";
    "build_option"; "read_file"; "modules_tool"; "SYSTEM_TOOLCHAIN_NAME";
    "is_system_toolchain"; "search_toolchain"; "INDENT_2SPACES"; "INDENT_4SPACES";
    "import_available_modules"; "mk_md_table"; "mk_rst_table"; "nub"; "quote_str";
    "_log"; "DETAILED"; "SIMPLE"; "FORMAT_JSON"; "FORMAT_MD"; "FORMAT_RST"; "FORMAT_TXT";
    "generate_doc"; "md_title_and_table"; "rst_title_and_table";
    "avail_cfgfile_constants"; "avail_cfgfile_constants_txt";
    "avail_cfgfile_constants_rst"; "avail_cfgfile_constants_md";
    "avail_easyconfig_constants"; "avail_easyconfig_constants_txt";
    "avail_easyconfig_constants_rst"; "avail_easyconfig_constants_md";
    "avail_easyconfig_licenses"; "avail_easyconfig_licenses_txt";
    "avail_easyconfig_licenses_rst"; "avail_easyconfig_licenses_md";
    "avail_easyconfig_params";
    "avail_easyconfig_templates"; "avail_easyconfig_templates_txt";
    "avail_easyconfig_templates_rst"; "avail_easyconfig_templates_md";
    "avail_classes_tree"; "list_easyblocks"; "gen_list_easyblocks";
    "list_software"; "list_software_json";
    "list_toolchains"; "list_toolchains_md"; "list_toolchains_rst"; "list_toolchains_txt";
    "avail_toolchain_opts"; "avail_toolchain_opts_md"; "avail_toolchain_opts_rst";
    "avail_toolchain_opts_txt";
    "get_easyblock_classes"; "gen_easyblocks_overview_md"; "gen_easyblocks_overview_rst";
    "gen_easyblock_doc_section_md"; "gen_easyblock_doc_section_rst";
    "__name__"; "__doc__"; "__package__"; "__loader__"; "__spec__"; "__file__";
    "__cached__"; "__builtins__" ].

(** Every name bound in the module. *)
Definition docs_names : list string := docs_functions.*1 ++ docs_other_names.

(** The formats [f] for which a name [report_f] is bound. *)
Definition bound_formats (report : string) : list string :=
  omap (PyStr.strip_prefix (report +:+ "_")) docs_names.

(** What a name of [globals()] is bound to. *)
Inductive binding : Type :=
  | Fn (f : list pyarg → result string)
  | Extern.

(** [globals().get(name)] *)
Definition docs_globals (name : string) : option binding :=
  match od_lookup name docs_functions with
  | Some f => Some (Fn f)
  | None => if decide (name ∈ docs_other_names) then Some Extern else None
  end.

(** [generate_doc(name, params)]: [globals()[name]] raises [KeyError] on a
    name that is not bound, and [func( *params)] runs what it is bound to. *)
Definition generate_doc (name : string) (params : list pyarg) : result string :=
  match docs_globals name with
  | None => Raise (KeyError name)
  | Some (Fn func) => func params
  | Some Extern => extern_call name params
  end.

(** The entry points that only dispatch. *)
Definition avail_cfgfile_constants (go_cfg_constants : pyarg) (output_format : string) :
    result string :=
  generate_doc ("avail_cfgfile_constants_" +:+ output_format) [go_cfg_constants].

Definition avail_easyconfig_constants (output_format : string) : result string :=
  generate_doc ("avail_easyconfig_constants_" +:+ output_format) [].

Definition avail_easyconfig_licenses (output_format : string) : result string :=
  generate_doc ("avail_easyconfig_licenses_" +:+ output_format) [].

Definition avail_easyconfig_templates (output_format : string) : result string :=
  generate_doc ("avail_easyconfig_templates_" +:+ output_format) [].

(** The reports whose renderer is found by [generate_doc], by the name the
    format is appended to, and the formats. *)
Definition dispatched_reports : list string :=
  [ "avail_cfgfile_constants"; "avail_easyconfig_constants"; "avail_easyconfig_licenses";
    "avail_easyconfig_params"; "avail_easyconfig_templates"; "list_software";
    "list_toolchains"; "avail_toolchain_opts" ].

Definition FORMAT_JSON : string := "json".
Definition FORMAT_MD : string := "md".
Definition FORMAT_RST : string := "rst".
Definition FORMAT_TXT : string := "txt".

Definition formats : list string := [FORMAT_TXT; FORMAT_MD; FORMAT_RST; FORMAT_JSON].

(** ** The parameter catalog *)

(** Computations on the heap of schema dictionaries. *)
Definition State (A : Type) : Type := heap → A * heap.

Global Instance state_ret : MRet State := λ A x h, (x, h).

Global Instance state_bind : MBind State :=
  λ A B f m h, let r := m h in f r.1 r.2.

(** The dictionary a location holds in [h]. *)
Definition heap_dict (h : heap) (l : loc) : gmap string param_entry := default ∅ (h !! l).

(** [copy.deepcopy(d)]: a new dictionary object with the contents of [d] *)
Definition deepcopy (l : loc) : State loc :=
  λ h, let l' := fresh (dom h) in (l', <[l' := heap_dict h l]> h).

(** [d.update(other)]: [d] is changed in place, [other] wins on its keys *)
Definition dict_update (l : loc) (other : gmap string param_entry) : State unit :=
  λ h, (tt, <[l := other ∪ heap_dict h l]> h).

(** [sorted(d.items())] *)
Definition dict_sorted_items (l : loc) : State (list (string * param_entry)) :=
  λ h, (sorted_items (heap_dict h l), h).

(** [{v: k for k, v in ALTERNATIVE_EASYCONFIG_PARAMETERS.items()}] *)
Definition reverse_mapping (items : list (string * string)) : gmap string string :=
  foldl (λ m kv, <[kv.2 := kv.1]> m) ∅ items.

(** The name a parameter is listed under: ['%s*' % name] for a key of
    [extra_params]. *)
Definition rendered_name (extra_params : gmap string param_entry) (name : string) : string :=
  if decide (is_Some (extra_params !! name)) then name +:+ "*" else name.

(** The body of the loop over [sorted(params.items())]. *)
Definition group_param (category : category) (extra_params : gmap string param_entry)
    (grpname : string) (grouped_params : grouped_dict) (item : string * param_entry) :
    grouped_dict :=
  let name := item.1 in
  let dflt := item.2.1.1 in
  let descr := item.2.1.2 in
  let cat := item.2.2 in
  if decide (cat = category) then
    let name := rendered_name extra_params name in
    od_alter (λ g, <[name := (descr, dflt)]> g) grpname grouped_params
  else grouped_params.

(** The body of the loop over [sorted_categories()].  [items] is
    [sorted(params.items())], which the code evaluates again for every
    category; [params] does not change in between. *)
Definition group_category (items : list (string * param_entry))
    (extra_params : gmap string param_entry) (grouped_params : grouped_dict)
    (category : category) : grouped_dict :=
  if decide (PyStr.upper category.2 = HIDDEN) then grouped_params else
  let grpname := category.2 in
  let grouped_params := od_set grpname ∅ grouped_params in
  let grouped_params := foldl (group_param category extra_params grpname) grouped_params items in
  match od_lookup grpname grouped_params with
  | Some g => if decide (size g = 0) then od_del grpname grouped_params else grouped_params
  | None => grouped_params
  end.

(** The title; [app] is a class whenever [extra_params] is not empty. *)
Definition params_title (app : option pyclass) (extra_params : gmap string param_entry) :
    string :=
  let title := "Available easyconfig parameters" in
  if decide (size extra_params = 0) then title
  else title +:+ " (* indicates specific to the "
             +:+ from_option cls_name "" app +:+ " easyblock)".

(** [extra_params]: [app.extra_options()] if [app] is a class, else [{}] *)
Definition extra_params_of (app : option pyclass) : gmap string param_entry :=
  match app with
  | Some app => cls_extra_options app
  | None => ∅
  end.

(** [avail_easyconfig_params(easyblock, output_format)], up to the call of
    [generate_doc]: the arguments [[title, grouped_params,
    alternative_params]] handed to the renderer. *)
Definition avail_easyconfig_params_args (easyblock : option string) : State (list pyarg) :=
  params ← deepcopy DEFAULT_CONFIG;
  let app := get_easyblock_class easyblock in
  let extra_params := extra_params_of app in
  _ ← dict_update params extra_params;
  let alternative_params := reverse_mapping ALTERNATIVE_EASYCONFIG_PARAMETERS in
  let title := params_title app extra_params in
  items ← dict_sorted_items params;
  let grouped_params := foldl (group_category items extra_params) [] sorted_categories in
  mret [AStr title; AGrouped grouped_params; AAlt alternative_params].

Definition avail_easyconfig_params (easyblock : option string) (output_format : string) :
    State (result string) :=
  args ← avail_easyconfig_params_args easyblock;
  mret (generate_doc ("avail_easyconfig_params_" +:+ output_format) args).

(** *** Notions used to state properties of the catalog *)

(** The dictionary a group of category [c] holds once the loop over the
    items is through. *)
Definition category_group (items : list (string * param_entry))
    (extra_params : gmap string param_entry) (c : category) : gmap string (string * pyval) :=
  foldl (λ g item,
           if decide (item.2.2 = c)
           then <[rendered_name extra_params item.1 := (item.2.1.2, item.2.1.1)]> g
           else g) ∅ items.

(** The title and the groups among the arguments of the renderer. *)
Definition title_of_args (args : list pyarg) : string :=
  match args with
  | [AStr title; _; _] => title
  | _ => ""
  end.

Definition groups_of_args (args : list pyarg) : grouped_dict :=
  match args with
  | [_; AGrouped grouped_params; _] => grouped_params
  | _ => []
  end.

(** The schema a call works on: the base schema with the extra
    parameters of the easyblock merged in. *)
Definition merged_params (easyblock : option string) (h : heap) : gmap string param_entry :=
  extra_params_of (get_easyblock_class easyblock) ∪ heap_dict h DEFAULT_CONFIG.

(** ** The easyblock overview *)

(** [INDENT_4SPACES] of [easybuild.tools.utilities] *)
Definition INDENT_4SPACES : string := "    ".

(** [os.path.join(a, b)] *)
Definition os_path_join (a b : string) : string :=
  if PyStr.startswith b "/" then b
  else if negb (PyStr.truthy a) || PyStr.ends_with_char "/" a then a +:+ b
  else a +:+ "/" +:+ b.

(** [easyblocks.add(eb_class)]; the set lists its members in the order
    they came in. *)
Definition set_add (c : pyclass) (s : list pyclass) : list pyclass :=
  if decide (cls_ref c ∈ cls_ref <$> s) then s else s ++ [c].

(** The test that makes a class of a module count as an easyblock. *)
Definition is_easyblock_of (package_name : string) (eb_class : pyclass) : bool :=
  PyStr.startswith (cls_module eb_class) package_name
  && bool_decide (EasyBlock ∈ cls_mro eb_class).

(** The loop over the classes of one module; the state is
    [(easyblocks, easyblock_found)]. *)
Definition scan_module (package_name : string) (easyblocks : list pyclass)
    (pymod : pymodule) : list pyclass * bool :=
  foldl (λ st member,
           let eb_class := member.2 in
           if is_easyblock_of package_name eb_class then (set_add eb_class st.1, true)
           else st)
        (easyblocks, false) (mod_classes pymod).

Definition get_easyblock_classes (package_name : string) : result (list pyclass) :=
  let modules := import_available_modules package_name in
  rfold (λ easyblocks pymod,
           let st := scan_module package_name easyblocks pymod in
           if st.2 then Return st.1
           else Raise (RuntimeError ["No easyblocks found in module: %s"; mod_name pymod]))
        [] modules.

(** [f.__doc__], where [f] is [None] or an entry of the class
    dictionary, given by its docstring. *)
Definition attr_doc (f : option (option string)) : option string :=
  match f with
  | None => None_doc
  | Some d => d
  end.

(** The truth value of a docstring: a non-empty string. *)
Definition doc_truthy (d : option string) : bool :=
  match d with
  | Some s => PyStr.truthy s
  | None => false
  end.

(** The body of the loop over [doc_functions] in
    [gen_easyblock_doc_section_md]; the state is [(f, custom)], and [inh]
    is the empty string throughout. *)
Definition custom_step_md (eb_class : pyclass)
    (st : option (option string) * list string) (func : string) :
    option (option string) * list string :=
  let f :=
    match cls_dict eb_class !! func with
    | Some attr => Some attr
    | None => st.1
    end in
  if doc_truthy (attr_doc f) then
    (f, st.2 ++ ["* ``" +:+ func +:+ "`` - "
                   +:+ PyStr.strip (default "" (attr_doc f)) +:+ ""; ""])
  else (f, st.2).

(** The list [custom] after the loop. *)
Definition custom_steps_md (eb_class : pyclass) (doc_functions : list string) : list string :=
  (foldl (custom_step_md eb_class) (None, []) doc_functions).2.

(** The same loop in [gen_easyblock_doc_section_rst], which adds no
    empty line after a bullet. *)
Definition custom_step_rst (eb_class : pyclass)
    (st : option (option string) * list string) (func : string) :
    option (option string) * list string :=
  let f :=
    match cls_dict eb_class !! func with
    | Some attr => Some attr
    | None => st.1
    end in
  if doc_truthy (attr_doc f) then
    (f, st.2 ++ ["* ``" +:+ func +:+ "`` - "
                   +:+ PyStr.strip (default "" (attr_doc f)) +:+ ""])
  else (f, st.2).

Definition custom_steps_rst (eb_class : pyclass) (doc_functions : list string) : list string :=
  (foldl (custom_step_rst eb_class) (None, []) doc_functions).2.

(** [[DEFAULT_CONFIG[opt][1] for opt in opts]] *)
Definition common_descriptions (h : heap) (opts : list string) : result (list string) :=
  rmap (λ opt, match heap_dict h DEFAULT_CONFIG !! opt with
               | Some e => Return e.1.2
               | None => Raise (KeyError opt)
               end) opts.

Definition extra_options_titles : list string :=
  ["easyconfig parameter"; "description"; "default value"].

(** The columns of the table of extra easyconfig parameters. *)
Definition extra_options_values (ex_opt : gmap string param_entry) : list (list string) :=
  let keys := sorted_keys ex_opt in
  let values := omap (λ k, ex_opt !! k) keys in
  [ (λ key, "``" +:+ key +:+ "``") <$> keys;
    (λ val : param_entry, val.1.2) <$> values;
    (λ val : param_entry, "``" +:+ str_quote_str val.1.1 +:+ "``") <$> values ].

Definition gen_easyblock_doc_section_md (h : heap) (eb_class : pyclass)
    (path_to_examples : string) (common_params : gmap string (list string))
    (doc_functions : list string) (all_eb_classes : list pyclass) : result (list string) :=
  let classname := cls_name eb_class in
  let doc := ["## ``" +:+ classname +:+ "``"; ""] in
  let bases :=
    (λ base : class_ref,
       let bname := base.2 in
       if decide (base ∈ cls_ref <$> all_eb_classes)
       then "[``" +:+ bname +:+ "``](#" +:+ PyStr.lower bname +:+ ")"
       else "``" +:+ bname +:+ "``") <$> cls_bases eb_class in
  let derived := "(derives from " +:+ PyStr.join ", " bases +:+ ")" in
  let doc := doc ++ [derived; ""] in
  let doc :=
    match cls_doc eb_class with
    | Some eb_docstring => doc ++ (PyStr.lstrip <$> PyStr.splitlines eb_docstring) ++ [""]
    | None => doc
    end in
  let doc :=
    if decide (size (cls_extra_options eb_class) = 0) then doc
    else
      let title := "Extra easyconfig parameters specific to ``" +:+ classname +:+ "`` easyblock" in
      doc ++ md_title_and_table (Some title) extra_options_titles
               (extra_options_values (cls_extra_options eb_class)) 3 ++ [""] in
  try! doc :=
    match common_params !! classname with
    | Some opts =>
        let title := "Commonly used easyconfig parameters with ``" +:+ classname +:+ "`` easyblock" in
        try! descrs := common_descriptions h opts in
        Return (doc ++ md_title_and_table (Some title) ["easyconfig parameter"; "description"]
                         [opts; descrs] 3 ++ [""])
    | None => Return doc
    end in
  let custom := custom_steps_md eb_class doc_functions in
  let doc :=
    match custom with
    | [] => doc
    | _ => doc ++ ["### Customised steps in ``" +:+ classname +:+ "`` easyblock"; ""]
               ++ custom ++ [""]
    end in
  let example_ec := os_path_join path_to_examples (classname +:+ ".eb") in
  let doc :=
    if path_exists example_ec then
      doc ++ ["### Example easyconfig for ``" +:+ classname +:+ "`` easyblock"; "";
              "```python"; read_file example_ec; "```"; ""]
    else doc in
  Return doc.

Definition gen_easyblock_doc_section_rst (h : heap) (eb_class : pyclass)
    (path_to_examples : string) (common_params : gmap string (list string))
    (doc_functions : list string) (all_blocks : list pyclass) : result (list string) :=
  let classname := cls_name eb_class in
  let doc := [".. _" +:+ classname +:+ ":"; ""; "``" +:+ classname +:+ "``";
              PyStr.repeat "=" (String.length classname + 4); ""] in
  let bases :=
    (λ b : class_ref,
       if decide (b ∈ cls_ref <$> all_blocks) then ":ref:`" +:+ b.2 +:+ "`" else b.2)
    <$> cls_bases eb_class in
  let derived := "(derives from " +:+ PyStr.join ", " bases +:+ ")" in
  let doc := doc ++ [derived; ""] in
  let doc :=
    match cls_doc eb_class with
    | Some eb_docstring => doc ++ [PyStr.strip eb_docstring; ""]
    | None => doc
    end in
  let doc :=
    if decide (size (cls_extra_options eb_class) = 0) then doc
    else
      let title := "Extra easyconfig parameters specific to ``" +:+ classname +:+ "`` easyblock" in
      doc ++ rst_title_and_table (Some title) extra_options_titles
               (extra_options_values (cls_extra_options eb_class)) in
  try! doc :=
    match common_params !! classname with
    | Some opts =>
        let title := "Commonly used easyconfig parameters with ``" +:+ classname +:+ "`` easyblock" in
        try! descrs := common_descriptions h opts in
        Return (doc ++ rst_title_and_table (Some title) ["easyconfig parameter"; "description"]
                         [opts; descrs] ++ [""])
    | None => Return doc
    end in
  let custom := custom_steps_rst eb_class doc_functions in
  let doc :=
    match custom with
    | [] => doc
    | _ =>
        let title := "Customised steps in ``" +:+ classname +:+ "`` easyblock" in
        doc ++ [title; PyStr.repeat "-" (String.length title)] ++ custom ++ [""]
    end in
  let doc :=
    if path_exists (os_path_join path_to_examples (classname +:+ ".eb")) then
      let title := "Example easyconfig for ``" +:+ classname +:+ "`` easyblock" in
      doc ++ [title; PyStr.repeat "-" (String.length title); ""; ".. code::"; ""]
          ++ ((λ line, INDENT_4SPACES +:+ line)
              <$> PyStr.split_nl (read_file (os_path_join path_to_examples (classname +:+ ".eb"))))
          ++ [""]
    else doc in
  Return doc.

(** [sorted(eb_classes, key=lambda c: c.__name__)] *)
Definition sorted_classes (eb_classes : list pyclass) : list pyclass :=
  py_sorted (λ a b, String.ltb (cls_name a) (cls_name b)) eb_classes.

Definition gen_easyblocks_overview_md (h : heap) (package_name path_to_examples : string)
    (common_params : option (gmap string (list string)))
    (doc_functions : option (list string)) : result (list string) :=
  let common_params := default ∅ common_params in
  let doc_functions := default [] doc_functions in
  try! eb_classes := get_easyblock_classes package_name in
  let eb_links :=
    (λ eb_class, let eb_name := cls_name eb_class in
                 "[" +:+ eb_name +:+ "](#" +:+ PyStr.lower eb_name +:+ ")")
    <$> sorted_classes eb_classes in
  let heading := ["# Overview of generic easyblocks"; ""; PyStr.join " - " eb_links; ""] in
  try! doc := rfold (λ doc eb_class,
                try! sec := gen_easyblock_doc_section_md h eb_class path_to_examples
                              common_params doc_functions eb_classes in
                Return (doc ++ sec))
              [] (sorted_classes eb_classes) in
  Return (heading ++ doc).

Definition gen_easyblocks_overview_rst (h : heap) (package_name path_to_examples : string)
    (common_params : option (gmap string (list string)))
    (doc_functions : option (list string)) : result (list string) :=
  let common_params := default ∅ common_params in
  let doc_functions := default [] doc_functions in
  try! eb_classes := get_easyblock_classes package_name in
  try! doc := rfold (λ doc eb_class,
                try! sec := gen_easyblock_doc_section_rst h eb_class path_to_examples
                              common_params doc_functions eb_classes in
                Return (doc ++ sec))
              [] (sorted_classes eb_classes) in
  let title := "Overview of generic easyblocks" in
  let heading :=
    ["*(this page was generated automatically using* ``easybuild.tools.docs.gen_easyblocks_overview_rst()`` *)*";
     ""; PyStr.repeat "=" (String.length title); title;
     PyStr.repeat "=" (String.length title); ""] in
  let contents := (λ b, ":ref:`" +:+ cls_name b +:+ "`") <$> sorted_classes eb_classes in
  let toc := PyStr.join " - " contents in
  Return (heading ++ [toc; ""] ++ doc).

End Docs.

(** ** A concrete environment and concrete inputs *)

Module Examples.

(** Modelled from the spec: the comparison of [LooseVersion] objects
    ([easybuild.tools.LooseVersion] is not among the sources at hand).
    Following the spec's "numeric-aware, dot-segment comparison", a version
    is split on ['.'] and ['-']; segments are compared from the left,
    numeric segments numerically, others as strings, a numeric segment
    before a non-numeric one, a proper prefix before its extensions. *)
Definition is_digit (c : ascii) : bool :=
  let n := nat_of_ascii c in (48 <=? n) && (n <=? 57).

Fixpoint all_digits (s : string) : bool :=
  match s with
  | EmptyString => true
  | String c s' => is_digit c && all_digits s'
  end.

Fixpoint digits_value (acc : N) (s : string) : N :=
  match s with
  | EmptyString => acc
  | String c s' => digits_value (acc * 10 + (N_of_ascii c - 48))%N s'
  end.

Fixpoint split_segments (cur : string) (s : string) : list string :=
  match s with
  | EmptyString => [String.rev cur]
  | String c s' =>
      if Ascii.eqb c "." || Ascii.eqb c "-" then String.rev cur :: split_segments "" s'
      else split_segments (String c cur) s'
  end.

Definition segment (s : string) : N + string :=
  if PyStr.truthy s && all_digits s then inl (digits_value 0 s) else inr s.

Definition loose_components (v : string) : list (N + string) :=
  segment <$> split_segments "" v.

Definition segment_cmp (a b : N + string) : comparison :=
  match a, b with
  | inl m, inl n => N.compare m n
  | inl _, inr _ => Lt
  | inr _, inl _ => Gt
  | inr s, inr t => String.compare s t
  end.

Fixpoint lex_cmp {A} (cmp : A → A → comparison) (l1 l2 : list A) : comparison :=
  match l1, l2 with
  | [], [] => Eq
  | [], _ :: _ => Lt
  | _ :: _, [] => Gt
  | x :: l1', y :: l2' =>
      match cmp x y with
      | Eq => lex_cmp cmp l1' l2'
      | c => c
      end
  end.

Definition loose_version_cmp (v1 v2 : string) : comparison :=
  lex_cmp segment_cmp (loose_components v1) (loose_components v2).

(** A rendering of default values for the examples. *)
Definition example_quote_str (v : pyval) : string :=
  match v with
  | PyNone => "None"
  | PyBool true => "True"
  | PyBool false => "False"
  | PyInt z => pretty z
  | PyStr s => "'" +:+ s +:+ "'"
  | PyObj repr => repr
  end.

(** A table printer for the examples: a line of titles, then one line
    per row. *)
Definition example_table (titles : list string) (columns : list (list string)) : list string :=
  let rows := max_len (length <$> columns) in
  PyStr.join " | " titles
  :: ((λ i, PyStr.join " | " ((λ col, nth i col "") <$> columns)) <$> seq 0 rows).

Definition MANDATORY : category := (0%Z, "mandatory").
Definition CUSTOM : category := (1%Z, "easyblock-specific").
Definition BUILD : category := (2%Z, "build").
Definition HIDDEN_CATEGORY : category := ((-1)%Z, "hidden").

(** A small base schema. *)
Definition example_config : gmap string param_entry :=
  list_to_map
    [ ("name", (PyNone, "Name of software", MANDATORY));
      ("version", (PyNone, "Version of software", MANDATORY));
      ("configopts", (PyStr "", "Extra options passed to configure", BUILD));
      ("secret", (PyNone, "Internal parameter", HIDDEN_CATEGORY)) ].

(** An easyblock with one extra parameter and one customised step. *)
Definition ConfigureMake : pyclass := {|
  cls_module := "easybuild.easyblocks.generic.configuremake";
  cls_name := "ConfigureMake";
  cls_bases := [EasyBlock];
  cls_mro := [("easybuild.easyblocks.generic.configuremake", "ConfigureMake");
              EasyBlock; ("builtins", "object")];
  cls_doc := Some "Support for building and installing applications with configure/make/make install";
  cls_dict := {[ "configure_step" := Some "Configure step" ]};
  cls_extra_options := {[ "tar_config_opts" := (PyBool false, "Override tar settings", CUSTOM) ]};
|}.

(** A class of the same package that is not an easyblock. *)
Definition Helper : pyclass := {|
  cls_module := "easybuild.easyblocks.generic.helper";
  cls_name := "Helper";
  cls_bases := [("builtins", "object")];
  cls_mro := [("easybuild.easyblocks.generic.helper", "Helper"); ("builtins", "object")];
  cls_doc := None;
  cls_dict := ∅;
  cls_extra_options := ∅;
|}.

Definition example_modules : list pymodule :=
  [ {| mod_name := "easybuild.easyblocks.generic.configuremake";
       mod_classes := [("ConfigureMake", ConfigureMake)] |};
    {| mod_name := "easybuild.easyblocks.generic.helper";
       mod_classes := [("Helper", Helper)] |} ].

Definition example_env : Externals := {|
  str_quote_str := example_quote_str;
  mk_md_table := example_table;
  mk_rst_table := example_table;
  HIDDEN := "HIDDEN";
  sorted_categories := [HIDDEN_CATEGORY; MANDATORY; CUSTOM; BUILD];
  DEFAULT_CONFIG := 0;
  ALTERNATIVE_EASYCONFIG_PARAMETERS := [("configure_opts", "configopts")];
  get_easyblock_class := λ name,
    if decide (name = Some "ConfigureMake") then Some ConfigureMake else None;
  version_cmp := loose_version_cmp;
  import_available_modules := λ _, example_modules;
  None_doc := None;
  path_exists := λ _, false;
  read_file := λ _, "";
  extern_call := λ name _, Raise (TypeError (name +:+ " is not modelled"));
|}.

Definition example_heap : heap := {[ 0 := example_config ]}.

(** Two recipes of [Foo], versions [2.0] and [10.0], no versionsuffix. *)
Definition foo_versions : list sw_entry :=
  [ SwEntry "GCC/12.3.0" "Foo" "https://foo.example" "10.0" "";
    SwEntry "GCC/12.3.0" "Foo" "https://foo.example" "2.0" "" ].

(** Recipes of [Foo] 1.0 under two toolchains, one of them given by two
    recipe files. *)
Definition foo_toolchains : list sw_entry :=
  [ SwEntry "gompat/2023a" "Foo" "https://foo.example" "1.0" "";
    SwEntry "foss/2023a" "Foo" "https://foo.example" "1.0" "";
    SwEntry "gompat/2023a" "Foo" "https://foo.example" "1.0" "" ].

End Examples.

(** ** Further notions used to state properties *)

(** The bullet of a hook that the class itself defines with a docstring
    that is not empty. *)
Definition hook_bullet (eb_class : pyclass) (func : string) : option string :=
  match cls_dict eb_class !! func with
  | Some (Some d) =>
      if PyStr.truthy d then Some ("* ``" +:+ func +:+ "`` - " +:+ PyStr.strip d +:+ "")
      else None
  | _ => None
  end.

(** A document has a run of lines: the lines of [block], one after the
    other, somewhere in [doc]. *)
Definition has_lines (doc block : list string) : Prop :=
  ∃ pre post, doc = pre ++ block ++ post.

(** The rows of the version table of a software name, as the loops
    [for _, vsuff, ver in sorted_pairs] go through them: the version and
    the versionsuffix of each tuple. *)
Definition version_rows `{!Externals} (entries : list sw_entry) : list (string * string) :=
  (λ t : version_triple, (t.2, t.1.2)) <$> sorted_version_pairs (version_pairs entries).

(** ** Further concrete inputs *)

Module MoreExamples.

(** An easyblock that derives from [ConfigureMake]: it overrides the
    install step without a docstring and the build step with an empty one,
    and documents the configure step. *)
Definition CMakeMake : pyclass := {|
  cls_module := "easybuild.easyblocks.generic.cmakemake";
  cls_name := "CMakeMake";
  cls_bases := [("easybuild.easyblocks.generic.configuremake", "ConfigureMake")];
  cls_mro := [("easybuild.easyblocks.generic.cmakemake", "CMakeMake");
              ("easybuild.easyblocks.generic.configuremake", "ConfigureMake");
              EasyBlock; ("builtins", "object")];
  cls_doc := Some "Support for configuring build with CMake instead of traditional configure script";
  cls_dict := {[ "configure_step" := Some "  Configure build using cmake  ";
                 "build_step" := Some "";
                 "install_step" := None ]};
  cls_extra_options := {[ "separate_build_dir" := (PyBool true, "Perform build in a separate directory", Examples.CUSTOM) ]};
|}.

(** A package in which every module has an easyblock; the second module
    also imports the class of the first. *)
Definition easyblock_modules : list pymodule :=
  [ {| mod_name := "easybuild.easyblocks.generic.configuremake";
       mod_classes := [("ConfigureMake", Examples.ConfigureMake)] |};
    {| mod_name := "easybuild.easyblocks.generic.cmakemake";
       mod_classes := [("CMakeMake", CMakeMake); ("ConfigureMake", Examples.ConfigureMake)] |} ].

Definition easyblocks_env : Externals := {|
  str_quote_str := Examples.example_quote_str;
  mk_md_table := Examples.example_table;
  mk_rst_table := Examples.example_table;
  HIDDEN := "HIDDEN";
  sorted_categories := [Examples.HIDDEN_CATEGORY; Examples.MANDATORY; Examples.CUSTOM;
                        Examples.BUILD];
  DEFAULT_CONFIG := 0;
  ALTERNATIVE_EASYCONFIG_PARAMETERS := [("configure_opts", "configopts")];
  get_easyblock_class := λ name,
    if decide (name = Some "ConfigureMake") then Some Examples.ConfigureMake
    else if decide (name = Some "CMakeMake") then Some CMakeMake
    else None;
  version_cmp := Examples.loose_version_cmp;
  import_available_modules := λ _, easyblock_modules;
  None_doc := None;
  path_exists := λ _, false;
  read_file := λ _, "";
  extern_call := λ name _, Raise (TypeError (name +:+ " is not modelled"));
|}.

(** A catalog of three software names, one of them with two recipes. *)
Definition catalog : list (string * list sw_entry) :=
  [ ("zlib", [SwEntry "GCCcore/12.3.0" "Compression library" "https://zlib.example" "1.2.13" ""]);
    ("Foo", Examples.foo_versions);
    ("bar", [SwEntry "system" "Bar" "https://bar.example" "0.1" "-test"]) ].

(** An easyblock that defines a parameter of the base schema anew. *)
Definition Overrider : pyclass := {|
  cls_module := "easybuild.easyblocks.generic.overrider";
  cls_name := "Overrider";
  cls_bases := [EasyBlock];
  cls_mro := [("easybuild.easyblocks.generic.overrider", "Overrider"); EasyBlock;
              ("builtins", "object")];
  cls_doc := None;
  cls_dict := ∅;
  cls_extra_options :=
    {[ "configopts" := (PyStr "--enable-shared", "Options for the configure script of this easyblock",
                        Examples.CUSTOM) ]};
|}.

Definition override_env : Externals := {|
  str_quote_str := Examples.example_quote_str;
  mk_md_table := Examples.example_table;
  mk_rst_table := Examples.example_table;
  HIDDEN := "HIDDEN";
  sorted_categories := [Examples.HIDDEN_CATEGORY; Examples.MANDATORY; Examples.CUSTOM;
                        Examples.BUILD];
  DEFAULT_CONFIG := 0;
  ALTERNATIVE_EASYCONFIG_PARAMETERS := [("configure_opts", "configopts")];
  get_easyblock_class := λ name,
    if decide (name = Some "Overrider") then Some Overrider else None;
  version_cmp := Examples.loose_version_cmp;
  import_available_modules := λ _, [];
  None_doc := None;
  path_exists := λ _, false;
  read_file := λ _, "";
  extern_call := λ name _, Raise (TypeError (name +:+ " is not modelled"));
|}.

(** A group of the parameter catalog, and alternative names. *)
Definition mandatory_group : string * gmap string (string * pyval) :=
  ("mandatory",
   {[ "name" := ("Name of software", PyNone);
      "version" := ("Version of software", PyNone);
      "toolchain" := ("Name and version of toolchain", PyNone) ]}).

Definition alternative_names : list (string * string) :=
  [("configure_opts", "configopts"); ("build_opts", "buildopts")].

(** The definitions of two toolchains. *)
Definition foss_definition : gmap string (list string) :=
  {[ "COMPILER" := ["GCC"]; "MPI" := ["OpenMPI"]; "BLAS" := ["FlexiBLAS"];
     "LAPACK" := ["FlexiBLAS"]; "FFT" := ["FFTW"] ]}.

Definition cray_definition : gmap string (list string) :=
  {[ "COMPILER" := ["PrgEnv-gnu"; "cpeGNU"] ]}.

End MoreExamples.

(** ** Constants of configuration files *)

Section MoreDocs.
Context `{!Externals}.

(** [go_cfg_constants]: the sections in iteration order, each with its
    constants, [name ↦ (value, help)]. *)
Definition cfg_constants : Type := list (string * gmap string (string * string)).

(** [section != go_cfg_constants['DEFAULT']]: the subscript raises
    [KeyError] where there is no section of that name; the name of a
    section, a string, and the dictionary of a section are never equal. *)
Definition not_default_section (go_cfg_constants : cfg_constants) (section : string) :
    result bool :=
  match od_lookup "DEFAULT" go_cfg_constants with
  | Some _ => Return true
  | None => Raise (KeyError "DEFAULT")
  end.

(** One line of the plain-text overview. *)
Definition avail_cfgfile_constants_txt_line (item : string * (string * string)) : string :=
  "* " +:+ item.1 +:+ ": " +:+ item.2.2 +:+ " [value: " +:+ item.2.1 +:+ "]".

(** The body of the loop over the sections in
    [avail_cfgfile_constants_txt]. *)
Definition avail_cfgfile_constants_txt_section (go_cfg_constants : cfg_constants)
    (doc : list string) (item : string * gmap string (string * string)) :
    result (list string) :=
  let section := item.1 in
  let doc := doc ++ [""] in
  try! differs := not_default_section go_cfg_constants section in
  let doc := if differs then doc ++ ["only in '" +:+ section +:+ "' section:"] else doc in
  Return (doc ++ (avail_cfgfile_constants_txt_line <$> sorted_items item.2)).

Definition avail_cfgfile_constants_txt (go_cfg_constants : cfg_constants) : result string :=
  try! doc := rfold (avail_cfgfile_constants_txt_section go_cfg_constants)
                ["Constants available (only) in configuration files:";
                 "syntax: %(CONSTANT_NAME)s"] go_cfg_constants in
  Return (PyStr.join nl doc).

Definition cfgfile_table_titles : list string :=
  ["Constant name"; "Constant help"; "Constant value"].

(** The columns of the table of one section, the same code in
    [avail_cfgfile_constants_rst] and [avail_cfgfile_constants_md]. *)
Definition cfgfile_table_values (constants : gmap string (string * string)) :
    list (list string) :=
  let sorted_names := sorted_keys constants in
  let values := omap (λ x, constants !! x) sorted_names in
  [ (λ x, "``" +:+ x +:+ "``") <$> sorted_names;
    (λ v : string * string, v.2) <$> values;
    (λ v : string * string, "``" +:+ v.1 +:+ "``") <$> values ].

Definition avail_cfgfile_constants_rst_section (go_cfg_constants : cfg_constants)
    (doc : list string) (item : string * gmap string (string * string)) :
    result (list string) :=
  let section := item.1 in
  let doc := doc ++ [""] in
  try! differs := not_default_section go_cfg_constants section in
  let doc :=
    if differs then
      let section_title := "Only in '" +:+ section +:+ "' section:" in
      doc ++ [section_title; PyStr.repeat "-" (String.length section_title); ""]
    else doc in
  Return (doc ++ mk_rst_table cfgfile_table_titles (cfgfile_table_values item.2)).

Definition avail_cfgfile_constants_rst (go_cfg_constants : cfg_constants) : result string :=
  let title := "Constants available (only) in configuration files" in
  try! doc := rfold (avail_cfgfile_constants_rst_section go_cfg_constants)
                [title; PyStr.repeat "-" (String.length title)] go_cfg_constants in
  Return (PyStr.join nl doc).

Definition avail_cfgfile_constants_md_section (go_cfg_constants : cfg_constants)
    (doc : list string) (item : string * gmap string (string * string)) :
    result (list string) :=
  let section := item.1 in
  try! differs := not_default_section go_cfg_constants section in
  let doc :=
    if differs then doc ++ ["## Only in '" +:+ section +:+ "' section:"; ""] else doc in
  Return (doc ++ mk_md_table cfgfile_table_titles (cfgfile_table_values item.2)).

Definition avail_cfgfile_constants_md (go_cfg_constants : cfg_constants) : result string :=
  let title := "Constants available (only) in configuration files" in
  try! doc := rfold (avail_cfgfile_constants_md_section go_cfg_constants)
                ["# " +:+ title; ""] go_cfg_constants in
  Return (PyStr.join nl doc).

End MoreDocs.

(** ** The catalog that [list_software] builds *)

(** [sub in s] *)
Fixpoint str_contains (sub s : string) : bool :=
  String.prefix sub s
  || match s with
     | EmptyString => false
     | String _ s' => str_contains sub s'
     end.

(** [od.setdefault(k, v)] *)
Definition od_setdefault {V} (k : string) (v : V) (od : list (string * V)) :
    list (string * V) :=
  match od_lookup k od with
  | Some _ => od
  | None => od ++ [(k, v)]
  end.

(** [od.setdefault(key x, [])] followed by [od[key x].append(val x)] *)
Definition group_add {A V} (key : A → string) (val : A → V)
    (od : list (string * list V)) (x : A) : list (string * list V) :=
  od_alter (λ vs, vs ++ [val x]) (key x) (od_setdefault (key x) [] od).

(** What [list_software] reads of a parsed easyconfig: [ec['name']], the
    name and version of [ec['toolchain']], the four keys it takes with
    [ec.get(key, '')], and [ec.full_mod_name]. *)
Record easyconfig : Type := Easyconfig {
  ec_name : string;
  ec_toolchain_name : string;
  ec_toolchain_version : string;
  ec_description : option string;
  ec_homepage : option string;
  ec_version : option string;
  ec_versionsuffix : option string;
  ec_full_mod_name : string;
}.

(** What the module imports for [list_software]. *)
Class Easyconfigs : Type := {
  is_system_toolchain : string → bool;
  SYSTEM_TOOLCHAIN_NAME : string;
  (** [value % template_constant_dict(ec)]; [None] where it raises
      [KeyError], [TypeError] or [ValueError] *)
  resolve_templates : easyconfig → string → option string;
  (** [modules_tool().available()] *)
  avail_mod_names : list string;
}.

Section ListSoftware.
Context `{!Externals, !Easyconfigs}.

(** An entry of the catalog while it is built: the [info] dictionary, and
    its key [mod_name] where it has one. *)
Definition software_entry : Type := (sw_entry * option string)%type.

(** The value of [info[key]] after the templates are resolved; [is_dict]
    is [isinstance(ec, dict)]. *)
Definition templated (is_dict : bool) (ec : easyconfig) (value : string) : string :=
  if is_dict && PyStr.truthy value && str_contains "%(" value
  then default value (resolve_templates ec value)
  else value.

(** The dictionary [info] made of an easyconfig.  With [only_installed]
    the easyconfig is an [EasyConfig] instance, otherwise the dictionary
    that [EasyConfigParser] gives. *)
Definition software_info (only_installed : bool) (ec : easyconfig) : software_entry :=
  let toolchain :=
    if is_system_toolchain (ec_toolchain_name ec) then SYSTEM_TOOLCHAIN_NAME
    else ec_toolchain_name ec +:+ "/" +:+ ec_toolchain_version ec in
  let info := λ field : option string,
    templated (negb only_installed) ec (default "" field) in
  (SwEntry toolchain (info (ec_description ec)) (info (ec_homepage ec))
     (info (ec_version ec)) (info (ec_versionsuffix ec)),
   if only_installed then Some (ec_full_mod_name ec) else None).

(** The body of the loop over [ecs]. *)
Definition add_easyconfig (only_installed : bool)
    (software : list (string * list software_entry)) (ec : easyconfig) :
    list (string * list software_entry) :=
  let software := od_setdefault (ec_name ec) [] software in
  od_alter (λ entries, entries ++ [software_info only_installed ec]) (ec_name ec) software.

(** The body of the inner loop that retains the installed software. *)
Definition retain_entry (key : string) (software : list (string * list software_entry))
    (entry : software_entry) : result (list (string * list software_entry)) :=
  match entry.2 with
  | None => Raise (KeyError "mod_name")
  | Some mod_name =>
      if decide (mod_name ∈ avail_mod_names)
      then Return (od_alter (λ entries, entries ++ [entry]) key (od_setdefault key [] software))
      else Return software
  end.

Definition retain_installed (all_software : list (string * list software_entry)) :
    result (list (string * list software_entry)) :=
  rfold (λ software item, rfold (retain_entry item.1) software item.2) [] all_software.

(** The dictionary [software] that is handed to the renderer; [ecs] are
    the easyconfigs found, parsed. *)
Definition collect_software (ecs : list easyconfig) (only_installed : bool) :
    result (list (string * list software_entry)) :=
  let software := foldl (add_easyconfig only_installed) [] ecs in
  if only_installed then retain_installed software else Return software.

(** [list_software(output_format, detailed, only_installed)], after the
    easyconfigs are found and parsed; the renderers read the five keys of
    an entry that [sw_entry] has. *)
Definition list_software (ecs : list easyconfig) (output_format : string)
    (detailed only_installed : bool) : result string :=
  try! software := collect_software ecs only_installed in
  generate_doc ("list_software_" +:+ output_format)
    [ASoftware ((λ item : string * list software_entry, (item.1, fst <$> item.2)) <$> software);
     ABool detailed].

(** Whether an easyconfig is kept in the catalog. *)
Definition retained (only_installed : bool) (ec : easyconfig) : bool :=
  negb only_installed || bool_decide (ec_full_mod_name ec ∈ avail_mod_names).

(** The pairs of key and entry of a catalog, in the order the loops that
    retain the installed software meet them. *)
Definition catalog_pairs (software : list (string * list software_entry)) :
    list (string * software_entry) :=
  software ≫= λ item, (λ entry, (item.1, entry)) <$> item.2.

(** [entry['mod_name'] in avail_mod_names], for an entry that has the key *)
Definition entry_installed (entry : software_entry) : bool :=
  match entry.2 with
  | Some mod_name => bool_decide (mod_name ∈ avail_mod_names)
  | None => false
  end.

End ListSoftware.

(** ** The list of toolchains *)

Section Toolchains.
Context `{!Externals}.

(** [tc.definition()]: the modules a toolchain is made of, by kind. *)
Definition toolchain_def : Type := gmap string (list string).

(** [tcs]: the definitions by toolchain name, in iteration order; the
    names are distinct. *)
Definition toolchains : Type := list (string * toolchain_def).

Definition none_txt : string := "*(none)*".

(** [', '.join(l) or none_txt] *)
Definition join_or_none (l : list string) : string :=
  let entry := PyStr.join ", " l in
  if PyStr.truthy entry then entry else none_txt.

(** [sorted(tcs.keys(), key=str.lower)], each name with its definition *)
Definition sorted_tcs (tcs : toolchains) : toolchains :=
  py_sorted (λ a b, String.ltb (PyStr.lower a.1) (PyStr.lower b.1)) tcs.

(** ['cray' in tc_name.lower()] *)
Definition is_cray (tc_name : string) : bool := str_contains "cray" (PyStr.lower tc_name).

(** The entry of one toolchain in a column other than [NAME]. *)
Definition toolchain_entry (col_name : string) (item : string * toolchain_def) :
    result string :=
  let tc_name := item.1 in
  let tc := item.2 in
  if is_cray tc_name then
    if decide (col_name = "COMPILER") then
      match tc !! PyStr.upper col_name with
      | Some modules => Return (PyStr.join ", " modules)
      | None => Raise (KeyError (PyStr.upper col_name))
      end
    else if decide (col_name = "MPI") then Return "cray-mpich"
    else if decide (col_name = "LINALG") then Return "cray-libsci"
    else Return none_txt
  else if decide (col_name = "LINALG") then
    let linalg := foldl (λ linalg col, linalg ++ default [] (tc !! col)) []
                   ["BLAS"; "LAPACK"; "SCALAPACK"] in
    Return (join_or_none (nub linalg))
  else Return (join_or_none (default [] (tc !! col_name))).

(** The body of the loop over the columns. *)
Definition toolchain_column (sorted_tcs : toolchains) (col_name : string) :
    result (list string) :=
  if decide (col_name = "NAME")
  then Return ((λ item : string * toolchain_def, "**" +:+ item.1 +:+ "**") <$> sorted_tcs)
  else rmap (toolchain_entry col_name) sorted_tcs.

Definition toolchain_columns : list string := ["NAME"; "COMPILER"; "MPI"; "LINALG"; "FFT"].

(** [[col_names.get(col, col) for col in table_titles]] *)
Definition toolchain_titles : list string :=
  (λ col, default col (({[ "NAME" := "Name"; "COMPILER" := "Compiler(s)";
                           "LINALG" := "Linear algebra" ]} : gmap string string) !! col))
  <$> toolchain_columns.

(** The table, the same code in [list_toolchains_md] and
    [list_toolchains_rst]. *)
Definition toolchain_table (tcs : toolchains) : result (list (list string)) :=
  rmap (toolchain_column (sorted_tcs tcs)) toolchain_columns.

Definition list_toolchains_md (tcs : toolchains) : result string :=
  let title := "List of known toolchains" in
  try! table_values := toolchain_table tcs in
  Return (PyStr.join nl (md_title_and_table (Some title) toolchain_titles table_values 1)).

Definition list_toolchains_rst (tcs : toolchains) : result string :=
  let title := "List of known toolchains" in
  try! table_values := toolchain_table tcs in
  Return (PyStr.join nl (rst_title_and_table (Some title) toolchain_titles table_values)).

(** [nub(sorted([e for es in tcs[name].values() for e in es]))]; sorting
    makes the order of the values of the dictionary immaterial. *)
Definition tc_elems (tc : toolchain_def) : list string :=
  nub (py_sorted String.ltb ((map_to_list tc).*2 ≫= id)).

Definition list_toolchains_txt (tcs : toolchains) : string :=
  let doc := ["List of known toolchains (toolchain name: module[, module, ...]):"] in
  let doc :=
    foldl (λ doc item, doc ++ [String "009" "" +:+ item.1 +:+ ": "
                                 +:+ PyStr.join ", " (tc_elems item.2)])
      doc (py_sorted (λ a b : string * toolchain_def, String.ltb a.1 b.1) tcs) in
  PyStr.join nl doc.

End Toolchains.

(** ** The tree of easyblock classes *)

Definition DETAILED : string := "detailed".
Definition SIMPLE : string := "simple".

(** [INDENT_2SPACES] of [easybuild.tools.utilities] *)
Definition INDENT_2SPACES : string := "  ".

(** A class with the classes that [cls.__subclasses__()] gives, and so
    on: the hierarchy under a root as [add_class] walks through it.  A
    class that derives from two classes of the hierarchy is met, and
    stands, under both. *)
Inductive class_tree : Type :=
  | ClassNode (name module : string) (subclasses : list class_tree).

Definition tree_name (cls : class_tree) : string :=
  match cls with ClassNode name _ _ => name end.

Definition tree_module (cls : class_tree) : string :=
  match cls with ClassNode _ module _ => module end.

Definition tree_subclasses (cls : class_tree) : list class_tree :=
  match cls with ClassNode _ _ subclasses => subclasses end.

(** An entry of [classes]: the keys ['module'] and ['children']. *)
Abbreviation class_info := (string * list string)%type.

(** [sorted(names, key=lambda x: x.lower())] *)
Definition sorted_lower (names : list string) : list string :=
  py_sorted (λ a b, String.ltb (PyStr.lower a) (PyStr.lower b)) names.

(** The entry that [add_class] makes for a class. *)
Definition class_entry (cls : class_tree) : class_info :=
  (tree_module cls, sorted_lower (tree_name <$> tree_subclasses cls)).

(** [add_class(classes, cls)], local to [gen_list_easyblocks] *)
Fixpoint add_class (classes : gmap string class_info) (cls : class_tree) :
    gmap string class_info :=
  match cls with
  | ClassNode name module children =>
      let classes :=
        <[name := (module, sorted_lower (tree_name <$> children))]> classes in
      foldl add_class classes children
  end.

(** A dictionary of format strings; a template is given by what [%]
    makes of it. *)
Record format_strings : Type := FormatStrings {
  det_root_templ : string → string → string → string;
  root_templ : string → string;
  zero_indent : string;
  indent : string;
  newline : option string;
  sep : string;
}.

(** [if format_strings.get('newline') is not None:
     txt.append(format_strings['newline'])] *)
Definition newline_lines (fs : format_strings) : list string :=
  match newline fs with
  | Some line => [line]
  | None => []
  end.

(** The line of a class in [avail_classes_tree]. *)
Definition class_line (locations : gmap string string) (detailed : bool)
    (fs : format_strings) (depth : nat) (class_name module : string) : string :=
  if detailed then
    let loc :=
      match locations !! module with
      | Some l => "@ " +:+ l
      | None => ""
      end in
    zero_indent fs +:+ PyStr.repeat (indent fs) depth +:+ sep fs
      +:+ (class_name +:+ " (" +:+ module +:+ " " +:+ loc +:+ ")")
  else zero_indent fs +:+ PyStr.repeat (indent fs) depth +:+ sep fs +:+ class_name.

(** The body of the loop over [class_names] in [avail_classes_tree];
    [tree] stands for the call of [avail_classes_tree] on the children
    of a class. *)
Definition classes_tree_step (tree : list string → option (result (list string)))
    (classes : gmap string class_info) (locations : gmap string string)
    (detailed : bool) (fs : format_strings) (depth : nat)
    (acc : option (result (list string))) (class_name : string) :
    option (result (list string)) :=
  match acc with
  | Some (inr txt) =>
      match classes !! class_name with
      | None => Some (Raise (KeyError class_name))
      | Some info =>
          let txt := txt ++ [class_line locations detailed fs depth class_name info.1] in
          match info.2 with
          | [] => Some (Return txt)
          | children =>
              let txt := txt ++ newline_lines fs in
              match tree children with
              | Some (inr lines) => Some (Return (txt ++ lines ++ newline_lines fs))
              | other => other
              end
          end
      end
  | other => other
  end.

(** [avail_classes_tree(classes, class_names, locations, detailed,
    format_strings, depth)]; [fuel] bounds the depth of the calls, and
    [None] stands for a call that runs out of it. *)
Fixpoint avail_classes_tree (fuel : nat) (classes : gmap string class_info)
    (class_names : list string) (locations : gmap string string) (detailed : bool)
    (fs : format_strings) (depth : nat) : option (result (list string)) :=
  match fuel with
  | O => None
  | S fuel' =>
      foldl (classes_tree_step
               (λ children, avail_classes_tree fuel' classes children locations detailed fs
                              (depth + 1))
               classes locations detailed fs depth)
        (Some (Return [])) class_names
  end.

(** The lines of a root in [gen_list_easyblocks]. *)
Definition root_line (locations : gmap string string) (detailed : bool)
    (fs : format_strings) (root module : string) : string :=
  if detailed then
    let loc :=
      match locations !! module with
      | Some l => " @ " +:+ l
      | None => ""
      end in
    det_root_templ fs root module loc
  else root_templ fs root.

(** The body of the loop over the roots in [gen_list_easyblocks]. *)
Definition root_step (fuel : nat) (classes : gmap string class_info)
    (locations : gmap string string) (detailed : bool) (fs : format_strings)
    (acc : option (result (list string))) (root : class_tree) :
    option (result (list string)) :=
  match acc with
  | Some (inr txt) =>
      let root := tree_name root in
      match classes !! root with
      | None => Some (Raise (KeyError root))
      | Some info =>
          let txt := txt ++ [root_line locations detailed fs root info.1] in
          let txt := txt ++ newline_lines fs in
          match avail_classes_tree fuel classes info.2 locations detailed fs 0 with
          | Some (inr lines) => Some (Return (txt ++ lines ++ newline_lines fs))
          | other => other
          end
      end
  | other => other
  end.

(** [gen_list_easyblocks(list_easyblocks, format_strings)]; [roots] are
    [EasyBlock] and [Extension] with what derives from them, [locations]
    is [avail_easyblocks()] reduced to the key ['loc'], and [detailed] is
    [list_easyblocks == DETAILED]. *)
Definition gen_list_easyblocks (fuel : nat) (roots : list class_tree)
    (locations : gmap string string) (detailed : bool) (fs : format_strings) :
    option (result string) :=
  let classes := foldl add_class ∅ roots in
  match foldl (root_step fuel classes locations detailed fs) (Some (Return [])) roots with
  | Some (inr txt) => Some (Return (PyStr.join nl txt))
  | Some (inl e) => Some (Raise e)
  | None => None
  end.

(** The format strings of [list_easyblocks], by output format. *)
Definition easyblocks_format_strings : list (string * format_strings) :=
  [ (FORMAT_MD,
     {| det_root_templ := λ root module loc,
          "- **" +:+ root +:+ "** (" +:+ module +:+ loc +:+ ")";
        root_templ := λ root, "- **" +:+ root +:+ "**";
        zero_indent := INDENT_2SPACES; indent := INDENT_2SPACES;
        newline := None; sep := "- " |});
    (FORMAT_RST,
     {| det_root_templ := λ root module loc,
          "* **" +:+ root +:+ "** (" +:+ module +:+ loc +:+ ")";
        root_templ := λ root, "* **" +:+ root +:+ "**";
        zero_indent := INDENT_2SPACES; indent := INDENT_2SPACES;
        newline := Some ""; sep := "* " |});
    (FORMAT_TXT,
     {| det_root_templ := λ root module loc, root +:+ " (" +:+ module +:+ loc +:+ ")";
        root_templ := λ root, root;
        zero_indent := ""; indent := "|   ";
        newline := None; sep := "|-- " |}) ].

(** [list_easyblocks(list_easyblocks, output_format)] *)
Definition list_easyblocks (fuel : nat) (roots : list class_tree)
    (locations : gmap string string) (list_easyblocks output_format : string) :
    option (result string) :=
  if decide (output_format = FORMAT_JSON)
  then Some (Raise (NotImplementedError "JSON output format not supported for list_easyblocks"))
  else
    match od_lookup output_format easyblocks_format_strings with
    | None => Some (Raise (KeyError output_format))
    | Some fs =>
        gen_list_easyblocks fuel roots locations
          (bool_decide (list_easyblocks = DETAILED)) fs
    end.

(** *** Notions used to state properties of the tree *)

(** The classes of a hierarchy, a class before its subclasses. *)
Fixpoint tree_nodes (cls : class_tree) : list class_tree :=
  match cls with
  | ClassNode _ _ children => cls :: (children ≫= tree_nodes)
  end.

(** The number of levels of a hierarchy. *)
Fixpoint tree_height (cls : class_tree) : nat :=
  match cls with
  | ClassNode _ _ children => S (max_len (tree_height <$> children))
  end.

(** The classes in the order of their names in lower case, as [sorted]
    puts the names. *)
Definition sorted_subclasses (children : list class_tree) : list class_tree :=
  py_sorted (λ a b, String.ltb (PyStr.lower (tree_name a)) (PyStr.lower (tree_name b)))
    children.

(** The lines of a class and of what derives from it, read off the
    hierarchy. *)
Fixpoint tree_lines (locations : gmap string string) (detailed : bool)
    (fs : format_strings) (depth : nat) (cls : class_tree) : list string :=
  match cls with
  | ClassNode name module children =>
      class_line locations detailed fs depth name module
      :: match children with
         | [] => []
         | _ =>
             newline_lines fs
             ++ mjoin (snd <$> py_sorted
                         (λ a b : string * list string,
                            String.ltb (PyStr.lower a.1) (PyStr.lower b.1))
                         ((λ c, (tree_name c,
                                 tree_lines locations detailed fs (depth + 1) c))
                          <$> children))
             ++ newline_lines fs
         end
  end.

(** Whether the classes of a hierarchy that have the same name have the
    same module and subclasses of the same names, as is the case where no
    two classes share a name. *)
Definition names_consistent (roots : list class_tree) : bool :=
  let nodes := roots ≫= tree_nodes in
  forallb (λ n1,
    forallb (λ n2,
      if decide (tree_name n1 = tree_name n2)
      then bool_decide (class_entry n1 = class_entry n2)
      else true) nodes) nodes.

(** The lines of a root and of what derives from it, read off the
    hierarchy. *)
Definition root_lines (locations : gmap string string) (detailed : bool)
    (fs : format_strings) (root : class_tree) : list string :=
  [root_line locations detailed fs (tree_name root) (tree_module root)]
  ++ newline_lines fs
  ++ (sorted_subclasses (tree_subclasses root) ≫= tree_lines locations detailed fs 0)
  ++ newline_lines fs.

(** *** A hierarchy of classes *)

Module TreeExamples.

(** [ExtensionEasyBlock] derives from both roots and stands under
    both. *)
Definition ExtensionEasyBlock : class_tree :=
  ClassNode "ExtensionEasyBlock" "easybuild.framework.extensioneasyblock"
    [ClassNode "PythonPackage" "easybuild.easyblocks.generic.pythonpackage" []].

Definition roots : list class_tree :=
  [ ClassNode "EasyBlock" "easybuild.framework.easyblock"
      [ ExtensionEasyBlock;
        ClassNode "ConfigureMake" "easybuild.easyblocks.generic.configuremake"
          [ClassNode "CMakeMake" "easybuild.easyblocks.generic.cmakemake" []];
        ClassNode "Binary" "easybuild.easyblocks.generic.binary" [] ];
    ClassNode "Extension" "easybuild.framework.extension" [ExtensionEasyBlock] ].

Definition locations : gmap string string :=
  {[ "easybuild.easyblocks.generic.binary" := "/easyblocks/generic/binary.py" ]}.

Definition txt_format : format_strings :=
  {| det_root_templ := λ root module loc, root +:+ " (" +:+ module +:+ loc +:+ ")";
     root_templ := λ root, root;
     zero_indent := ""; indent := "|   ";
     newline := None; sep := "|-- " |}.

End TreeExamples.

(** * Part II: properties *)

(** ** Results *)

Lemma rbind_inr {A B} (m : result A) (k : A → result B) y :
  rbind m k = inr y → ∃ x, m = inr x ∧ k x = inr y.
Proof. destruct m as [e|x]; simpl; [discriminate|]. eauto. Qed.

Lemma rfold_app {A B} (f : B → A → result B) acc l1 l2 :
  rfold f acc (l1 ++ l2) = rbind (rfold f acc l1) (λ acc', rfold f acc' l2).
Proof.
  revert acc. induction l1 as [|x l1 IH]; intros acc; simpl; [done|].
  destruct (f acc x) as [e|acc']; simpl; [done|]. apply IH.
Qed.

(** A loop ends in an error as soon as its body raises on some item,
    whatever the state it is reached in. *)
Lemma rfold_raises {A B} (f : B → A → result B) acc l x :
  x ∈ l → (∀ acc', is_error (f acc' x) = true) → is_error (rfold f acc l) = true.
Proof.
  intros Hx Hf. revert acc. induction l as [|y l IH]; intros acc.
  - by apply elem_of_nil in Hx.
  - simpl. apply elem_of_cons in Hx as [<-|Hx].
    + specialize (Hf acc). by destruct (f acc x).
    + destruct (f acc y); simpl; [done|]. by apply IH.
Qed.

(** A loop whose body never raises on the items it meets returns. *)
Lemma rfold_returns {A B} (P : B → Prop) (f : B → A → result B) acc l :
  P acc →
  (∀ acc' x, P acc' → x ∈ l → ∃ acc'', f acc' x = inr acc'' ∧ P acc'') →
  ∃ r, rfold f acc l = inr r ∧ P r.
Proof.
  revert acc. induction l as [|x l IH]; intros acc Hacc Hf; simpl; [by eauto|].
  destruct (Hf acc x Hacc) as (acc'' & -> & Hacc''); [by left|]. simpl.
  apply IH; [done|]. intros acc' y Hacc' Hy. apply Hf; [done|by right].
Qed.

(** ** Strings *)

Lemma truthy_true s : PyStr.truthy s = true ↔ s ≠ "".
Proof. destruct s; simpl; split; congruence. Qed.

Lemma truthy_false s : PyStr.truthy s = false ↔ s = "".
Proof. destruct s; simpl; split; congruence. Qed.

Lemma string_ltb_lt s1 s2 : String.ltb s1 s2 = true ↔ String.compare s1 s2 = Lt.
Proof. unfold String.ltb. destruct (String.compare s1 s2); split; congruence. Qed.

Lemma string_ascending_le s1 s2 : ascending String.ltb s1 s2 ↔ String.le s1 s2.
Proof.
  unfold ascending, String.le, String.ltb, String.leb.
  rewrite (String.compare_antisym s1 s2).
  destruct (String.compare s2 s1); simpl; split; try done.
Qed.

Lemma string_ltb_asym a b : String.ltb a b = true → String.ltb b a = false.
Proof.
  rewrite string_ltb_lt. intros Hab. unfold String.ltb.
  rewrite String.compare_antisym, Hab. done.
Qed.

Lemma string_ge_trans a b c :
  String.ltb b a = false → String.ltb c b = false → String.ltb c a = false.
Proof.
  intros H1%string_ascending_le H2%string_ascending_le.
  apply string_ascending_le. by etrans.
Qed.

Lemma string_compare_refl s : String.compare s s = Eq.
Proof. by apply String_as_OT.cmp_eq. Qed.

Lemma string_compare_le_trans a b c :
  String.compare a b ≠ Gt → String.compare b c ≠ Gt → String.compare a c ≠ Gt.
Proof.
  intros Hab Hbc.
  assert (String.le a b) as H1 by (unfold String.le, String.leb; by destruct (String.compare a b)).
  assert (String.le b c) as H2 by (unfold String.le, String.leb; by destruct (String.compare b c)).
  assert (String.le a c) as H3 by (by etrans).
  unfold String.le, String.leb in H3. by destruct (String.compare a c).
Qed.

Lemma count_char_app c s1 s2 :
  PyStr.count_char c (s1 +:+ s2) = PyStr.count_char c s1 + PyStr.count_char c s2.
Proof. induction s1 as [|a s1 IH]; simpl; [done|]. rewrite IH. lia. Qed.

(** ** [sorted] *)

Section SortingFacts.
Context {A : Type} (lt : A → A → bool).

Lemma sorted_insert_perm x l : sorted_insert lt x l ≡ₚ x :: l.
Proof.
  induction l as [|y l IH]; simpl; [done|].
  destruct (lt x y); [done|]. rewrite IH. apply Permutation_swap.
Qed.

Lemma py_sorted_acc_perm l acc :
  foldl (λ acc x, sorted_insert lt x acc) acc l ≡ₚ acc ++ l.
Proof.
  revert acc. induction l as [|x l IH]; intros acc; simpl.
  - by rewrite app_nil_r.
  - rewrite IH, sorted_insert_perm. by rewrite (Permutation_middle acc l x).
Qed.

Lemma py_sorted_perm l : py_sorted lt l ≡ₚ l.
Proof. unfold py_sorted. by rewrite py_sorted_acc_perm. Qed.

Lemma elem_of_py_sorted x l : x ∈ py_sorted lt l ↔ x ∈ l.
Proof. by rewrite py_sorted_perm. Qed.

Lemma NoDup_py_sorted l : NoDup l → NoDup (py_sorted lt l).
Proof. by rewrite py_sorted_perm. Qed.

(** For a strict weak order [lt] (asymmetric, with a transitive "not
    greater"), the result is in ascending order. *)
Hypothesis lt_asym : ∀ a b, lt a b = true → lt b a = false.
Hypothesis ge_trans : ∀ a b c, lt b a = false → lt c b = false → lt c a = false.

Lemma sorted_insert_sorted x l :
  StronglySorted (ascending lt) l → StronglySorted (ascending lt) (sorted_insert lt x l).
Proof.
  induction 1 as [|y l Hl IH Hy]; simpl.
  - repeat constructor.
  - destruct (lt x y) eqn:Hxy.
    + constructor; [by constructor|].
      constructor; [unfold ascending; by apply lt_asym|].
      eapply Forall_impl; [exact Hy|]. intros z Hz. unfold ascending in *.
      eapply ge_trans; [|exact Hz]. by apply lt_asym.
    + constructor; [done|]. rewrite sorted_insert_perm. by constructor.
Qed.

Lemma py_sorted_acc_sorted l acc :
  StronglySorted (ascending lt) acc →
  StronglySorted (ascending lt) (foldl (λ acc x, sorted_insert lt x acc) acc l).
Proof.
  revert acc. induction l as [|x l IH]; intros acc Hacc; simpl; [done|].
  by apply IH, sorted_insert_sorted.
Qed.

Lemma py_sorted_sorted l : StronglySorted (ascending lt) (py_sorted lt l).
Proof. apply py_sorted_acc_sorted. constructor. Qed.

End SortingFacts.

Lemma StronglySorted_weaken {A} (R1 R2 : relation A) l :
  (∀ a b, R1 a b → R2 a b) → StronglySorted R1 l → StronglySorted R2 l.
Proof.
  intros HR. induction 1 as [|x l Hl IH Hx]; constructor; [done|].
  eapply Forall_impl; [exact Hx|]. intros y. apply HR.
Qed.

Lemma sorted_strings_sorted (l : list string) :
  StronglySorted String.le (py_sorted String.ltb l).
Proof.
  eapply StronglySorted_weaken; [|apply py_sorted_sorted].
  - intros a b. apply string_ascending_le.
  - apply string_ltb_asym.
  - apply string_ge_trans.
Qed.

(** Two duplicate-free sorted lists of strings with the same members are
    the same list. *)
Lemma sorted_strings_unique (l1 l2 : list string) :
  NoDup l1 → NoDup l2 → (∀ x, x ∈ l1 ↔ x ∈ l2) →
  py_sorted String.ltb l1 = py_sorted String.ltb l2.
Proof.
  intros Hd1 Hd2 Hmem.
  apply (StronglySorted_unique String.le); try apply sorted_strings_sorted.
  rewrite !py_sorted_perm. by apply NoDup_Permutation.
Qed.

(** ** [nub] *)

Section NubFacts.
Context {A : Type} `{EqDecision A}.

Lemma elem_of_nub_go (x : A) seen l : x ∈ nub_go seen l ↔ x ∈ l ∧ x ∉ seen.
Proof.
  revert seen. induction l as [|y l IH]; intros seen; simpl.
  - rewrite elem_of_nil. tauto.
  - destruct (decide (y ∈ seen)) as [Hy|Hy].
    + rewrite IH, elem_of_cons. split; [tauto|].
      intros [[->|?] ?]; [done|tauto].
    + rewrite !elem_of_cons, IH, elem_of_cons.
      destruct (decide (x = y)) as [->|Hne]; [tauto|]. tauto.
Qed.

Lemma NoDup_nub_go (seen l : list A) : NoDup (nub_go seen l).
Proof.
  revert seen. induction l as [|y l IH]; intros seen; simpl.
  - constructor.
  - destruct (decide (y ∈ seen)); [done|].
    constructor; [|done]. rewrite elem_of_nub_go, elem_of_cons. tauto.
Qed.

Lemma elem_of_nub (x : A) l : x ∈ nub l ↔ x ∈ l.
Proof. unfold nub. rewrite elem_of_nub_go, elem_of_nil. tauto. Qed.

Lemma NoDup_nub (l : list A) : NoDup (nub l).
Proof. apply NoDup_nub_go. Qed.

End NubFacts.

(** ** Comparisons that are total preorders *)

Section Comparisons.
Context {A : Type} (cmp : A → A → comparison).
Hypothesis cmp_antisym : ∀ a b, cmp b a = CompOpp (cmp a b).
Hypothesis cmp_le_trans : ∀ a b c, cmp a b ≠ Gt → cmp b c ≠ Gt → cmp a c ≠ Gt.

Lemma cmp_ge_le a b : cmp a b ≠ Lt ↔ cmp b a ≠ Gt.
Proof. rewrite (cmp_antisym a b). destruct (cmp a b); simpl; split; congruence. Qed.

Lemma cmp_eq_sym a b : cmp a b = Eq → cmp b a = Eq.
Proof. intros Hab. by rewrite cmp_antisym, Hab. Qed.

Lemma cmp_eq_l a b z : cmp a b = Eq → cmp a z = cmp b z.
Proof.
  intros Hab. pose proof (cmp_eq_sym _ _ Hab) as Hba.
  assert (cmp a b ≠ Gt) as Hle1 by congruence.
  assert (cmp b a ≠ Gt) as Hle2 by congruence.
  pose proof (cmp_le_trans a b z Hle1) as H1.
  pose proof (cmp_le_trans b a z Hle2) as H2.
  pose proof (cmp_le_trans z a b) as H3.
  pose proof (cmp_le_trans z b a) as H4.
  pose proof (cmp_antisym a z) as Haz.
  pose proof (cmp_antisym b z) as Hbz.
  destruct (cmp a z) eqn:E1, (cmp b z) eqn:E2; simpl in *; try done;
    rewrite ?Haz, ?Hbz in *;
    first [ by exfalso; apply H1 | by exfalso; apply H2
          | by exfalso; apply H3; congruence | by exfalso; apply H4; congruence ].
Qed.

Lemma cmp_eq_r a b z : cmp a b = Eq → cmp z a = cmp z b.
Proof.
  intros Hab. rewrite (cmp_antisym a z), (cmp_antisym b z).
  f_equal. by apply cmp_eq_l.
Qed.

Lemma cmp_lt_asym a b : cmp a b = Lt → cmp b a = Gt.
Proof. intros Hab. by rewrite cmp_antisym, Hab. Qed.

(** With a second comparison to break ties. *)
Context {B : Type} (cmp' : B → B → comparison).
Hypothesis cmp'_antisym : ∀ a b, cmp' b a = CompOpp (cmp' a b).
Hypothesis cmp'_le_trans : ∀ a b c, cmp' a b ≠ Gt → cmp' b c ≠ Gt → cmp' a c ≠ Gt.

Lemma lex_pair_antisym x y : lex_pair cmp cmp' y x = CompOpp (lex_pair cmp cmp' x y).
Proof.
  unfold lex_pair. rewrite (cmp_antisym x.1 y.1).
  destruct (cmp x.1 y.1); simpl; [apply cmp'_antisym|done..].
Qed.

Lemma lex_pair_le_trans x y z :
  lex_pair cmp cmp' x y ≠ Gt → lex_pair cmp cmp' y z ≠ Gt → lex_pair cmp cmp' x z ≠ Gt.
Proof.
  unfold lex_pair. intros Hxy Hyz.
  destruct (cmp x.1 y.1) eqn:E1; [| |done].
  - rewrite (cmp_eq_l _ _ z.1 E1).
    destruct (cmp y.1 z.1); [by eapply cmp'_le_trans|done..].
  - destruct (cmp y.1 z.1) eqn:E2; [| |done].
    + by rewrite <-(cmp_eq_r _ _ x.1 E2), E1.
    + destruct (cmp x.1 z.1) eqn:E3; [|done|].
      * rewrite (cmp_eq_l _ _ y.1 E3) in E1.
        apply cmp_lt_asym in E2. congruence.
      * exfalso. apply (cmp_le_trans x.1 y.1 z.1); congruence.
Qed.

End Comparisons.

Lemma string_compare_antisym a b : String.compare b a = CompOpp (String.compare a b).
Proof. apply String.compare_antisym. Qed.

(** ** The software catalog *)

Section SoftwareFacts.
Context `{!Externals}.

(** [LooseVersion] comparison is taken to be a total preorder. *)
Hypothesis version_cmp_antisym : ∀ a b, version_cmp b a = CompOpp (version_cmp a b).
Hypothesis version_cmp_le_trans :
  ∀ a b c, version_cmp a b ≠ Gt → version_cmp b c ≠ Gt → version_cmp a c ≠ Gt.

Lemma triple_lt_cmp a b : triple_lt a b = true ↔ triple_cmp a b = Lt.
Proof.
  unfold triple_lt, triple_cmp, lex_pair, String.ltb; simpl.
  destruct (version_cmp a.1.1 b.1.1); [|done..].
  destruct (String.compare a.1.2 b.1.2); [|done..].
  destruct (String.compare a.2 b.2); done.
Qed.

Lemma string_pair_antisym (x y : string * string) :
  lex_pair String.compare String.compare y x
  = CompOpp (lex_pair String.compare String.compare x y).
Proof. apply lex_pair_antisym; apply string_compare_antisym. Qed.

Lemma string_pair_le_trans (x y z : string * string) :
  lex_pair String.compare String.compare x y ≠ Gt →
  lex_pair String.compare String.compare y z ≠ Gt →
  lex_pair String.compare String.compare x z ≠ Gt.
Proof.
  apply lex_pair_le_trans;
    first [apply string_compare_antisym | apply string_compare_le_trans].
Qed.

Lemma triple_cmp_antisym a b : triple_cmp b a = CompOpp (triple_cmp a b).
Proof.
  unfold triple_cmp.
  apply (lex_pair_antisym version_cmp version_cmp_antisym _ string_pair_antisym).
Qed.

Lemma triple_cmp_le_trans a b c :
  triple_cmp a b ≠ Gt → triple_cmp b c ≠ Gt → triple_cmp a c ≠ Gt.
Proof.
  unfold triple_cmp.
  apply (lex_pair_le_trans version_cmp version_cmp_antisym version_cmp_le_trans
           _ string_pair_le_trans).
Qed.

Lemma triple_lt_false a b : triple_lt a b = false ↔ triple_cmp a b ≠ Lt.
Proof.
  rewrite <-triple_lt_cmp. destruct (triple_lt a b); split; congruence.
Qed.

Lemma triple_lt_asym a b : triple_lt a b = true → triple_lt b a = false.
Proof.
  rewrite triple_lt_cmp, triple_lt_false. intros Hab.
  rewrite triple_cmp_antisym, Hab. done.
Qed.

Lemma triple_ge_trans a b c :
  triple_lt b a = false → triple_lt c b = false → triple_lt c a = false.
Proof.
  rewrite !triple_lt_false, !(cmp_ge_le triple_cmp triple_cmp_antisym).
  intros ??. by eapply triple_cmp_le_trans.
Qed.

Lemma sorted_version_pairs_sorted pairs :
  StronglySorted (ascending triple_lt) (sorted_version_pairs pairs).
Proof. apply py_sorted_sorted; [apply triple_lt_asym|apply triple_ge_trans]. Qed.

(** The columns the loop over the sorted pairs builds. *)
Lemma software_table_rows_vsuff entries rows c0 c1 c2 :
  foldl (software_table_row entries true) [c0; c1; c2] rows
  = [c0 ++ (version_cell <$> rows); c1 ++ (versionsuffix_cell <$> rows);
     c2 ++ ((λ t : version_triple, toolchain_cell entries t.2 t.1.2) <$> rows)].
Proof.
  revert c0 c1 c2. induction rows as [|t rows IH]; intros c0 c1 c2; simpl.
  - by rewrite !app_nil_r.
  - unfold software_table_row at 2. cbn. rewrite IH. by rewrite <-!app_assoc.
Qed.

Lemma software_table_rows_plain entries rows c0 c1 :
  foldl (software_table_row entries false) [c0; c1] rows
  = [c0 ++ (version_cell <$> rows);
     c1 ++ ((λ t : version_triple, toolchain_cell entries t.2 t.1.2) <$> rows)].
Proof.
  revert c0 c1. induction rows as [|t rows IH]; intros c0 c1; simpl.
  - by rewrite !app_nil_r.
  - unfold software_table_row at 2. cbn. rewrite IH. by rewrite <-!app_assoc.
Qed.

Lemma software_table_eq entries :
  let rows := sorted_version_pairs (version_pairs entries) in
  software_table entries =
    if any_vsuff (version_pairs entries) then
      (["version"; "versionsuffix"; "toolchain"],
       [version_cell <$> rows; versionsuffix_cell <$> rows;
        (λ t : version_triple, toolchain_cell entries t.2 t.1.2) <$> rows])
    else
      (["version"; "toolchain"],
       [version_cell <$> rows;
        (λ t : version_triple, toolchain_cell entries t.2 t.1.2) <$> rows]).
Proof.
  intros rows. unfold software_table. fold rows.
  destruct (any_vsuff (version_pairs entries)); cbn [insert_at_1 take drop app].
  - by rewrite software_table_rows_vsuff.
  - by rewrite software_table_rows_plain.
Qed.

Lemma elem_of_version_pairs entries p :
  p ∈ version_pairs entries ↔
  ∃ x, x ∈ entries ∧ p = (sw_version x, sw_versionsuffix x).
Proof.
  unfold version_pairs. rewrite elem_of_nub, list_elem_of_fmap. naive_solver.
Qed.

Lemma any_vsuff_spec entries :
  any_vsuff (version_pairs entries) = true ↔
  ∃ x, x ∈ entries ∧ sw_versionsuffix x ≠ "".
Proof.
  unfold any_vsuff. rewrite existsb_exists. split.
  - intros (p & Hp%list_elem_of_In & Ht). apply elem_of_version_pairs in Hp as (x & Hx & ->).
    exists x. split; [done|]. by apply truthy_true.
  - intros (x & Hx & Hvs). exists (sw_version x, sw_versionsuffix x). split.
    + apply list_elem_of_In, elem_of_version_pairs. eauto.
    + by apply truthy_true.
Qed.

Lemma sorted_version_pairs_perm pairs :
  (λ t : version_triple, (t.2, t.1.2)) <$> sorted_version_pairs pairs ≡ₚ pairs.
Proof.
  unfold sorted_version_pairs. rewrite py_sorted_perm.
  induction pairs as [|[v vs] pairs IH]; simpl; [done|]. by constructor.
Qed.

Lemma elem_of_sorted_version_pairs pairs t :
  t ∈ sorted_version_pairs pairs → t.1.1 = t.2 ∧ (t.2, t.1.2) ∈ pairs.
Proof.
  unfold sorted_version_pairs. rewrite elem_of_py_sorted, list_elem_of_fmap.
  intros ([v vs] & -> & Hp). done.
Qed.

Lemma elem_of_sorted_toolchains entries ver vsuff tc :
  tc ∈ sorted_toolchains entries ver vsuff ↔
  ∃ x, x ∈ entries ∧ sw_version x = ver ∧ sw_versionsuffix x = vsuff ∧ sw_toolchain x = tc.
Proof.
  unfold sorted_toolchains, toolchains_of.
  rewrite elem_of_py_sorted, elem_of_nub, list_elem_of_fmap.
  setoid_rewrite list_elem_of_filter. naive_solver.
Qed.

(** The rows of a group in the order of their versions, ties broken by
    the versionsuffix. *)
Lemma sorted_version_pairs_order pairs :
  StronglySorted (λ a b : version_triple,
     version_cmp a.1.1 b.1.1 = Lt
     ∨ version_cmp a.1.1 b.1.1 = Eq ∧ String.compare a.1.2 b.1.2 ≠ Gt)
    (sorted_version_pairs pairs).
Proof.
  eapply StronglySorted_weaken; [|apply sorted_version_pairs_sorted].
  intros a b Hab. unfold ascending in Hab.
  apply triple_lt_false, (cmp_ge_le triple_cmp triple_cmp_antisym) in Hab.
  unfold triple_cmp, lex_pair in Hab; simpl in Hab.
  destruct (version_cmp a.1.1 b.1.1); [right|by left|done].
  split; [done|]. by destruct (String.compare a.1.2 b.1.2).
Qed.

End SoftwareFacts.

(** The comparison of the example environment is a total preorder. *)
Section LexCmpFacts.
Context {A : Type} (cmp : A → A → comparison).
Hypothesis cmp_antisym : ∀ a b, cmp b a = CompOpp (cmp a b).
Hypothesis cmp_le_trans : ∀ a b c, cmp a b ≠ Gt → cmp b c ≠ Gt → cmp a c ≠ Gt.

Lemma lex_cmp_antisym l1 l2 :
  Examples.lex_cmp cmp l2 l1 = CompOpp (Examples.lex_cmp cmp l1 l2).
Proof.
  revert l2. induction l1 as [|x l1 IH]; intros [|y l2]; simpl; try done.
  rewrite (cmp_antisym x y). destruct (cmp x y); simpl; [apply IH|done..].
Qed.

Lemma lex_cmp_le_trans l1 l2 l3 :
  Examples.lex_cmp cmp l1 l2 ≠ Gt → Examples.lex_cmp cmp l2 l3 ≠ Gt →
  Examples.lex_cmp cmp l1 l3 ≠ Gt.
Proof.
  revert l2 l3. induction l1 as [|x l1 IH]; intros [|y l2] [|z l3]; simpl; try done.
  intros Hxy Hyz. destruct (cmp x y) eqn:E1; [| |done].
  - rewrite (cmp_eq_l cmp cmp_antisym cmp_le_trans _ _ z E1).
    destruct (cmp y z); [by eapply IH|done..].
  - destruct (cmp y z) eqn:E2; [| |done].
    + by rewrite <-(cmp_eq_r cmp cmp_antisym cmp_le_trans _ _ x E2), E1.
    + destruct (cmp x z) eqn:E3; [|done|].
      * rewrite (cmp_eq_l cmp cmp_antisym cmp_le_trans _ _ y E3) in E1.
        apply (cmp_lt_asym cmp cmp_antisym) in E2. congruence.
      * exfalso. apply (cmp_le_trans x y z); congruence.
Qed.

End LexCmpFacts.

Lemma segment_cmp_antisym a b :
  Examples.segment_cmp b a = CompOpp (Examples.segment_cmp a b).
Proof.
  destruct a, b; simpl; try done.
  - apply N.compare_antisym.
  - apply string_compare_antisym.
Qed.

Lemma segment_cmp_le_trans a b c :
  Examples.segment_cmp a b ≠ Gt → Examples.segment_cmp b c ≠ Gt →
  Examples.segment_cmp a c ≠ Gt.
Proof.
  destruct a, b, c; simpl; try done.
  - rewrite !N.compare_le_iff. apply N.le_trans.
  - apply string_compare_le_trans.
Qed.

Lemma loose_version_cmp_antisym a b :
  Examples.loose_version_cmp b a = CompOpp (Examples.loose_version_cmp a b).
Proof. apply lex_cmp_antisym, segment_cmp_antisym. Qed.

Lemma loose_version_cmp_le_trans a b c :
  Examples.loose_version_cmp a b ≠ Gt → Examples.loose_version_cmp b c ≠ Gt →
  Examples.loose_version_cmp a c ≠ Gt.
Proof.
  apply lex_cmp_le_trans; [apply segment_cmp_antisym|apply segment_cmp_le_trans].
Qed.

(** ** Dispatch *)

Lemma strip_prefix_app p s : PyStr.strip_prefix p (p +:+ s) = Some s.
Proof.
  induction p as [|a p IH]; [done|].
  change (String a p +:+ s) with (String a (p +:+ s)). simpl.
  by rewrite Ascii.eqb_refl.
Qed.

Lemma od_lookup_None {V} k (od : list (string * V)) : od_lookup k od = None ↔ k ∉ od.*1.
Proof.
  induction od as [|[k' v] od IH]; simpl.
  - rewrite elem_of_nil. tauto.
  - rewrite not_elem_of_cons. destruct (decide (k' = k)) as [->|Hne]; [|rewrite IH].
    + split; [done|]. intros [? _]. done.
    + split; [intros ?; split; [congruence|done]|tauto].
Qed.

Section DispatchFacts.
Context `{!Externals}.

Lemma docs_globals_None name : docs_globals name = None ↔ name ∉ docs_names.
Proof.
  unfold docs_globals, docs_names. rewrite not_elem_of_app, <-od_lookup_None.
  destruct (od_lookup name docs_functions); [split; [done|intros [? _]; done]|].
  destruct (decide (name ∈ docs_other_names)); split; try done. tauto.
Qed.

Lemma bound_formats_complete report fmt :
  report +:+ "_" +:+ fmt ∈ docs_names → fmt ∈ bound_formats report.
Proof.
  intros Hin. unfold bound_formats. apply list_elem_of_omap.
  exists (report +:+ "_" +:+ fmt). split; [done|].
  assert (report +:+ "_" +:+ fmt = (report +:+ "_") +:+ fmt) as ->.
  { clear. induction report as [|a r IH]; [done|].
    change (String a r +:+ "_" +:+ fmt) with (String a (r +:+ "_" +:+ fmt)).
    by rewrite IH. }
  apply strip_prefix_app.
Qed.

Lemma dispatched_reports_formats report :
  report ∈ dispatched_reports → ∀ fmt, fmt ∈ bound_formats report → fmt ∈ formats.
Proof.
  intros Hr fmt Hf.
  assert (forallb (λ r, forallb (λ f, bool_decide (f ∈ formats)) (bound_formats r))
            dispatched_reports = true) as Hall by (vm_compute; reflexivity).
  rewrite forallb_forall in Hall.
  specialize (Hall report (proj1 (list_elem_of_In _ _) Hr)).
  rewrite forallb_forall in Hall.
  eapply bool_decide_unpack, Is_true_true, Hall, list_elem_of_In, Hf.
Qed.

(** C1.  A call of [generate_doc] for a name [report_format] that is bound
    to no renderer raises [KeyError] with that name, and a call of a
    renderer that only reports json as not supported raises
    [NotImplementedError] with a message that says so (given arguments its
    signature accepts; any other call of it is an error as well): no text
    is returned.  For the reports of the dispatcher, no renderer is bound
    for any format but txt, md, rst and json, and for json every report
    but the software list has such a stub. *)
Theorem generate_doc_unsupported_format (report fmt : string) (params : list pyarg) :
  let name := report +:+ "_" +:+ fmt in
  (docs_globals name = None → generate_doc name params = Raise (KeyError name))
  ∧ (∀ accepts, (name, accepts) ∈ json_stubs →
       is_error (generate_doc name params) = true
       ∧ (accepts (length params) = true →
          ∃ msg, generate_doc name params = Raise (NotImplementedError msg)
                 ∧ String.prefix "JSON output" msg = true))
  ∧ (report ∈ dispatched_reports → fmt ∉ formats → docs_globals name = None)
  ∧ (report ∈ dispatched_reports → report ≠ "list_software" → fmt = FORMAT_JSON →
       ∃ accepts, (name, accepts) ∈ json_stubs).
Proof.
  intros name. split; [|split; [|split]].
  - intros Hnone. unfold generate_doc. by rewrite Hnone.
  - intros accepts Hstub. unfold json_stubs in Hstub.
    rewrite !elem_of_cons, elem_of_nil in Hstub.
    repeat match goal with H : _ ∨ _ |- _ => destruct H as [H|H] end; try done;
      injection Hstub as -> ->; (split; [|intros Hacc]);
      try (by destruct params as [|? [|? [|? [|? [|? ?]]]]]);
      destruct params as [|? [|? [|? [|? [|? ?]]]]]; try discriminate Hacc;
      eexists; (split; [reflexivity|reflexivity]).
  - intros Hr Hfmt. apply docs_globals_None. intros Hin.
    apply Hfmt, (dispatched_reports_formats report Hr), bound_formats_complete, Hin.
  - intros Hr Hsw ->. subst name. unfold dispatched_reports in Hr.
    rewrite !elem_of_cons, elem_of_nil in Hr.
    repeat match goal with H : _ ∨ _ |- _ => destruct H as [->|H] end; try done;
      eexists; unfold json_stubs; rewrite !elem_of_cons;
      first [ left; reflexivity | right; left; reflexivity
            | do 2 right; left; reflexivity | do 3 right; left; reflexivity
            | do 4 right; left; reflexivity | do 5 right; left; reflexivity
            | do 6 right; left; reflexivity | do 7 right; left; reflexivity ].
Qed.

Lemma generate_doc_params_txt title grouped alt :
  generate_doc "avail_easyconfig_params_txt" [AStr title; AGrouped grouped; AAlt alt]
  = avail_easyconfig_params_txt title grouped alt.
Proof. reflexivity. Qed.

Lemma generate_doc_params_md title grouped alt :
  generate_doc "avail_easyconfig_params_md" [AStr title; AGrouped grouped; AAlt alt]
  = avail_easyconfig_params_md title grouped alt.
Proof. reflexivity. Qed.

Lemma generate_doc_params_rst title grouped alt :
  generate_doc "avail_easyconfig_params_rst" [AStr title; AGrouped grouped; AAlt alt]
  = avail_easyconfig_params_rst title grouped alt.
Proof. reflexivity. Qed.

End DispatchFacts.

(** A format nobody renders, and the json stub of the parameter catalog. *)
Lemma generate_doc_unsupported_format_witness :
  docs_globals (H:=Examples.example_env) "list_software_yaml" = None
  ∧ generate_doc (H:=Examples.example_env) "list_software_yaml" [ASoftware []; ABool true]
    = Raise (KeyError "list_software_yaml")
  ∧ generate_doc (H:=Examples.example_env) "avail_easyconfig_params_json"
      [AStr ""; AGrouped []; AAlt ∅]
    = Raise (NotImplementedError
               "JSON output format not supported for avail_easyconfig_params_json").
Proof.
  assert (docs_globals (H:=Examples.example_env) "list_software_yaml" = None) as Hnone.
  { vm_compute. reflexivity. }
  split; [exact Hnone|].
  split.
  - exact (proj1 (generate_doc_unsupported_format (H:=Examples.example_env)
                    "list_software" "yaml" [ASoftware []; ABool true]) Hnone).
  - reflexivity.
Defined.

(** ** The easyblock overview *)

Section EasyblockFacts.
Context `{!Externals}.

Lemma scan_module_acc package_name members st :
  (foldl (λ (st : list pyclass * bool) (member : string * pyclass),
            if is_easyblock_of package_name member.2 then (set_add member.2 st.1, true)
            else st) st members).2
  = st.2 || existsb (λ member : string * pyclass, is_easyblock_of package_name member.2) members.
Proof.
  revert st. induction members as [|member members IH]; intros st; simpl.
  - by rewrite orb_false_r.
  - rewrite IH. destruct (is_easyblock_of package_name member.2); simpl; [|done].
    by rewrite orb_true_r.
Qed.

(** [easyblock_found] after the loop over the classes of a module. *)
Lemma scan_module_found package_name easyblocks pymod :
  (scan_module package_name easyblocks pymod).2 = false ↔
  ∀ member, member ∈ mod_classes pymod → is_easyblock_of package_name member.2 = false.
Proof.
  unfold scan_module. rewrite scan_module_acc. simpl. split.
  - intros Hex member Hin. destruct (is_easyblock_of _ member.2) eqn:E; [|done].
    assert (existsb (λ member : string * pyclass, is_easyblock_of package_name member.2) (mod_classes pymod) = true)
      as Htrue; [|congruence].
    apply existsb_exists. exists member. split; [by apply list_elem_of_In|done].
  - intros Hall. apply not_true_is_false. intros (member & Hin & Hm)%existsb_exists.
    apply list_elem_of_In in Hin. rewrite (Hall member Hin) in Hm. done.
Qed.

(** The loop over the modules stops at the first module without an
    easyblock. *)
Lemma get_easyblock_classes_loop package_name modules pymod easyblocks :
  pymod ∈ modules →
  (∀ member, member ∈ mod_classes pymod → is_easyblock_of package_name member.2 = false) →
  ∃ pymod', pymod' ∈ modules
    ∧ (∀ member, member ∈ mod_classes pymod' →
                 is_easyblock_of package_name member.2 = false)
    ∧ rfold (λ easyblocks pymod,
               let st := scan_module package_name easyblocks pymod in
               if st.2 then Return st.1
               else Raise (RuntimeError ["No easyblocks found in module: %s"; mod_name pymod]))
            easyblocks modules
      = Raise (RuntimeError ["No easyblocks found in module: %s"; mod_name pymod']).
Proof.
  intros Hin Hnone. revert easyblocks.
  induction modules as [|m modules IH]; intros easyblocks; [by apply elem_of_nil in Hin|].
  simpl. destruct (scan_module package_name easyblocks m).2 eqn:Hfound.
  - simpl. apply elem_of_cons in Hin as [->|Hin].
    + apply (scan_module_found _ easyblocks) in Hnone. congruence.
    + destruct (IH Hin (scan_module package_name easyblocks m).1) as (m' & Hm' & Hno & Hr).
      exists m'. split; [by right|done].
  - exists m. split; [by left|]. split; [|done].
    by eapply scan_module_found.
Qed.

(** C8.  If a module of the package has no class that counts as an
    easyblock, [get_easyblock_classes] raises the error of the first such
    module, [RuntimeError("No easyblocks found in module: %s", name)], and
    the Markdown and reStructuredText overviews end with that error
    instead of a document. *)
Theorem get_easyblock_classes_empty_module (package_name : string) (pymod : pymodule) :
  pymod ∈ import_available_modules package_name →
  (∀ member, member ∈ mod_classes pymod → is_easyblock_of package_name member.2 = false) →
  ∃ pymod', pymod' ∈ import_available_modules package_name
    ∧ (∀ member, member ∈ mod_classes pymod' →
                 is_easyblock_of package_name member.2 = false)
    ∧ get_easyblock_classes package_name
      = Raise (RuntimeError ["No easyblocks found in module: %s"; mod_name pymod'])
    ∧ (∀ h path_to_examples common_params doc_functions,
         gen_easyblocks_overview_md h package_name path_to_examples common_params doc_functions
         = Raise (RuntimeError ["No easyblocks found in module: %s"; mod_name pymod'])
         ∧ gen_easyblocks_overview_rst h package_name path_to_examples common_params
             doc_functions
           = Raise (RuntimeError ["No easyblocks found in module: %s"; mod_name pymod'])).
Proof.
  intros Hin Hnone.
  destruct (get_easyblock_classes_loop package_name _ pymod [] Hin Hnone)
    as (pymod' & Hin' & Hnone' & Hraise).
  exists pymod'. split; [done|]. split; [done|].
  assert (get_easyblock_classes package_name
          = Raise (RuntimeError ["No easyblocks found in module: %s"; mod_name pymod']))
    as Hget by exact Hraise.
  split; [done|]. intros h path_to_examples common_params doc_functions.
  unfold gen_easyblocks_overview_md, gen_easyblocks_overview_rst. by rewrite Hget.
Qed.

(** C3, on the code as it is.  [f] keeps the last hook the class defines:
    [ConfigureMake] defines [configure_step] with a docstring and no
    [build_step], yet both get a bullet, the second one with the docstring
    of [configure_step]. *)
Theorem custom_steps_stale_hook :
  cls_dict Examples.ConfigureMake !! "build_step" = None
  ∧ custom_steps_md Examples.ConfigureMake ["configure_step"; "build_step"]
    = ["* ``configure_step`` - Configure step"; "";
       "* ``build_step`` - Configure step"; ""]
  ∧ custom_steps_rst Examples.ConfigureMake ["configure_step"; "build_step"]
    = ["* ``configure_step`` - Configure step"; "* ``build_step`` - Configure step"].
Proof. split; [|split]; vm_compute; reflexivity. Qed.

End EasyblockFacts.

(** The package of the examples: its second module has a class, but no
    easyblock. *)
Lemma get_easyblock_classes_empty_module_witness :
  let helper := {| mod_name := "easybuild.easyblocks.generic.helper";
                   mod_classes := [("Helper", Examples.Helper)] |} in
  helper ∈ import_available_modules (Externals:=Examples.example_env) "easybuild.easyblocks"
  ∧ (∀ member, member ∈ mod_classes helper →
               is_easyblock_of "easybuild.easyblocks" member.2 = false)
  ∧ ∃ pymod', get_easyblock_classes (H:=Examples.example_env) "easybuild.easyblocks"
              = Raise (RuntimeError ["No easyblocks found in module: %s"; mod_name pymod']).
Proof.
  intros helper.
  assert (helper ∈ import_available_modules (Externals:=Examples.example_env)
                     "easybuild.easyblocks") as Hin.
  { simpl. unfold Examples.example_modules. right. left. }
  assert (∀ member, member ∈ mod_classes helper →
                    is_easyblock_of "easybuild.easyblocks" member.2 = false) as Hnone.
  { intros member Hm. apply list_elem_of_singleton in Hm as ->. vm_compute. reflexivity. }
  split; [exact Hin|]. split; [exact Hnone|].
  destruct (get_easyblock_classes_empty_module (H:=Examples.example_env)
              "easybuild.easyblocks" helper Hin Hnone) as (pymod' & _ & _ & Hget & _).
  exists pymod'. exact Hget.
Defined.

(** ** Insertion-ordered dictionaries *)

Section ODFacts.
Context {V : Type}.
Implicit Types od : list (string * V).

Lemma elem_of_od_set_keys k v od x : x ∈ (od_set k v od).*1 ↔ x = k ∨ x ∈ od.*1.
Proof.
  induction od as [|a od IH]; simpl.
  - rewrite list_elem_of_singleton, elem_of_nil. tauto.
  - destruct (decide (a.1 = k)) as [Ha|Ha]; simpl.
    + rewrite !elem_of_cons, Ha. tauto.
    + rewrite !elem_of_cons, IH. tauto.
Qed.

Lemma od_set_NoDup k v od : NoDup od.*1 → NoDup (od_set k v od).*1.
Proof.
  induction od as [|a od IH]; simpl; intros Hnd.
  - apply NoDup_singleton.
  - apply NoDup_cons in Hnd as [Ha Hnd].
    destruct (decide (a.1 = k)) as [Hk|Hk]; simpl.
    + apply NoDup_cons. by rewrite <-Hk.
    + apply NoDup_cons. split; [|by apply IH].
      rewrite elem_of_od_set_keys. intros [?|?]; done.
Qed.

Lemma elem_of_od_set k v od kv :
  NoDup od.*1 → kv ∈ od_set k v od ↔ kv = (k, v) ∨ (kv.1 ≠ k ∧ kv ∈ od).
Proof.
  induction od as [|a od IH]; simpl; intros Hnd.
  - rewrite list_elem_of_singleton, elem_of_nil. tauto.
  - apply NoDup_cons in Hnd as [Ha Hnd].
    destruct (decide (a.1 = k)) as [Hk|Hk].
    + rewrite !elem_of_cons. split; [intros [?|Hin]|intros [?|[Hne [->|?]]]]; try tauto.
      right. split; [|tauto]. intros Heq. apply Ha. rewrite Hk, <-Heq.
      apply list_elem_of_fmap. by exists kv.
    + rewrite !elem_of_cons, (IH Hnd). split; [intros [->|[?|?]]|]; tauto.
Qed.

Lemma od_alter_notin f k od : k ∉ od.*1 → od_alter f k od = od.
Proof.
  induction od as [|a od IH]; [done|]. simpl. rewrite not_elem_of_cons. intros [Hk Hin].
  unfold od_alter in *. simpl. rewrite (IH Hin).
  destruct (decide (a.1 = k)); [congruence|done].
Qed.

Lemma od_alter_set f k v od :
  NoDup od.*1 → od_alter f k (od_set k v od) = od_set k (f v) od.
Proof.
  induction od as [|a od IH]; simpl; intros Hnd.
  - unfold od_alter. simpl. by rewrite decide_True.
  - apply NoDup_cons in Hnd as [Ha Hnd].
    destruct (decide (a.1 = k)) as [Hk|Hk].
    + change (od_alter f k ((k, v) :: od))
        with ((if decide (k = k) then (k, f v) else (k, v)) :: od_alter f k od).
      rewrite decide_True by done. rewrite od_alter_notin; [done|by rewrite <-Hk].
    + change (od_alter f k (a :: od_set k v od))
        with ((if decide (a.1 = k) then (a.1, f a.2) else a) :: od_alter f k (od_set k v od)).
      rewrite decide_False by done. by rewrite (IH Hnd).
Qed.

Lemma od_lookup_set_eq k v od : od_lookup k (od_set k v od) = Some v.
Proof.
  induction od as [|a od IH]; simpl.
  - by rewrite decide_True.
  - destruct (decide (a.1 = k)) as [Hk|Hk]; simpl.
    + by rewrite decide_True.
    + by rewrite decide_False.
Qed.

Lemma od_lookup_set_ne k k' v od : k' ≠ k → od_lookup k' (od_set k v od) = od_lookup k' od.
Proof.
  intros Hne. induction od as [|a od IH]; simpl.
  - by rewrite decide_False.
  - destruct (decide (a.1 = k)) as [Hk|Hk]; simpl.
    + rewrite !decide_False; [done|congruence|congruence].
    + by rewrite IH.
Qed.

Lemma elem_of_od_del k od kv : kv ∈ od_del k od ↔ kv.1 ≠ k ∧ kv ∈ od.
Proof. unfold od_del. by rewrite list_elem_of_filter. Qed.

Lemma od_del_NoDup k od : NoDup od.*1 → NoDup (od_del k od).*1.
Proof.
  unfold od_del. induction od as [|a od IH]; [done|]. simpl.
  intros [Ha Hnd]%NoDup_cons. rewrite filter_cons.
  destruct (decide (a.1 ≠ k)); [|by apply IH].
  simpl. apply NoDup_cons. split; [|by apply IH].
  rewrite list_elem_of_fmap. intros (kv & Hkv & Hin%list_elem_of_filter).
  apply Ha, list_elem_of_fmap. exists kv. tauto.
Qed.

Lemma od_del_set k v od : od_del k (od_set k v od) = od_del k od.
Proof.
  unfold od_del. induction od as [|a od IH]; simpl.
  - rewrite filter_cons. simpl. by rewrite decide_False by (intros ?; done).
  - destruct (decide (a.1 = k)) as [Hk|Hk].
    + rewrite !filter_cons. simpl.
      rewrite !decide_False; [done|intros ?; done..].
    + rewrite !filter_cons. rewrite IH. done.
Qed.

Lemma od_lookup_del_eq k od : od_lookup k (od_del k od) = None.
Proof.
  apply od_lookup_None. rewrite list_elem_of_fmap.
  intros (kv & -> & [Hne _]%elem_of_od_del). done.
Qed.

Lemma od_lookup_del_ne k k' od : k' ≠ k → od_lookup k' (od_del k od) = od_lookup k' od.
Proof.
  intros Hne. unfold od_del. induction od as [|a od IH]; [done|].
  rewrite filter_cons. simpl. destruct (decide (a.1 ≠ k)) as [Ha|Ha]; simpl.
  - by rewrite IH.
  - rewrite IH. rewrite decide_False; [done|]. intros Heq. apply Ha. congruence.
Qed.

Lemma od_lookup_Some k v od : NoDup od.*1 → od_lookup k od = Some v ↔ (k, v) ∈ od.
Proof.
  induction od as [|a od IH]; simpl.
  - rewrite elem_of_nil. intros _. split; [done|tauto].
  - intros [Ha Hnd]%NoDup_cons. rewrite elem_of_cons.
    destruct (decide (a.1 = k)) as [Hk|Hk].
    + split.
      * intros [= <-]. left. destruct a; simpl in *. by subst.
      * intros [<-|Hin]; [done|]. exfalso. apply Ha. rewrite Hk.
        apply list_elem_of_fmap. by exists (k, v).
    + rewrite (IH Hnd). split; [tauto|]. intros [Heq|?]; [|tauto].
      subst a. simpl in Hk. done.
Qed.

End ODFacts.

(** ** The parameter catalog *)

Section ParamsFacts.
Context `{!Externals}.
Implicit Types (g : gmap string (string * pyval)) (extra : gmap string param_entry).
Implicit Types (items : list (string * param_entry)) (c : category) (cats : list category).
Implicit Types (grouped : grouped_dict) (h : heap) (k name : string).

Lemma elem_of_sorted_items {V} (d : gmap string V) (kv : string * V) :
  kv ∈ sorted_items d ↔ d !! kv.1 = Some kv.2.
Proof.
  unfold sorted_items. rewrite elem_of_py_sorted. destruct kv as [k v].
  apply elem_of_map_to_list.
Qed.

(** *** The dictionary of one group *)

Lemma category_group_acc_mono items extra c g0 k :
  is_Some (g0 !! k) →
  is_Some (foldl (λ (g : gmap string (string * pyval)) (item : string * param_entry),
                    if decide (item.2.2 = c)
                    then <[rendered_name extra item.1 := (item.2.1.2, item.2.1.1)]> g
                    else g) g0 items !! k).
Proof.
  revert g0. induction items as [|item items IH]; intros g0 Hk; simpl; [done|].
  apply IH. destruct (decide (item.2.2 = c)); [|done].
  rewrite lookup_insert_is_Some. destruct (decide (rendered_name extra item.1 = k)); tauto.
Qed.

Lemma category_group_acc_lookup items extra c g0 k v :
  foldl (λ (g : gmap string (string * pyval)) (item : string * param_entry),
           if decide (item.2.2 = c)
           then <[rendered_name extra item.1 := (item.2.1.2, item.2.1.1)]> g
           else g) g0 items !! k = Some v →
  g0 !! k = Some v
  ∨ ∃ item, item ∈ items ∧ item.2.2 = c ∧ k = rendered_name extra item.1
            ∧ v = (item.2.1.2, item.2.1.1).
Proof.
  revert g0. induction items as [|item items IH]; intros g0; simpl; [by left|].
  intros [Hk|(item' & Hin & ?)]%IH.
  - destruct (decide (item.2.2 = c)) as [Hc|Hc]; [|by left].
    apply lookup_insert_Some in Hk as [[<- <-]|[_ ?]]; [|by left].
    right. exists item. split; [by left|done].
  - right. exists item'. split; [by right|done].
Qed.

(** Every entry of a group comes from a parameter of its category, under
    that parameter's rendered name. *)
Lemma category_group_lookup items extra c k v :
  category_group items extra c !! k = Some v →
  ∃ item, item ∈ items ∧ item.2.2 = c ∧ k = rendered_name extra item.1
          ∧ v = (item.2.1.2, item.2.1.1).
Proof.
  intros [Hk|?]%category_group_acc_lookup; [|done]. by rewrite lookup_empty in Hk.
Qed.

(** Every parameter of the category is in its group. *)
Lemma category_group_is_Some items extra c item :
  item ∈ items → item.2.2 = c →
  is_Some (category_group items extra c !! rendered_name extra item.1).
Proof.
  unfold category_group. generalize (∅ : gmap string (string * pyval)).
  induction items as [|item' items IH]; intros g0 Hin Hc; [by apply elem_of_nil in Hin|].
  simpl. apply elem_of_cons in Hin as [<-|Hin]; [|by apply IH].
  apply category_group_acc_mono. rewrite decide_True by done.
  rewrite lookup_insert_eq. by eexists.
Qed.

(** *** One category *)

Lemma fold_group_param c extra grpname g0 grouped items :
  NoDup grouped.*1 →
  foldl (group_param c extra grpname) (od_set grpname g0 grouped) items
  = od_set grpname
      (foldl (λ (g : gmap string (string * pyval)) (item : string * param_entry),
                if decide (item.2.2 = c)
                then <[rendered_name extra item.1 := (item.2.1.2, item.2.1.1)]> g
                else g) g0 items) grouped.
Proof.
  intros Hnd. revert g0. induction items as [|item items IH]; intros g0; simpl; [done|].
  unfold group_param at 2. destruct (decide (item.2.2 = c)); [|apply IH].
  rewrite od_alter_set by done. apply IH.
Qed.

Lemma group_category_eq items extra grouped c :
  NoDup grouped.*1 →
  group_category items extra grouped c =
    if decide (PyStr.upper c.2 = HIDDEN) then grouped
    else if decide (size (category_group items extra c) = 0) then od_del c.2 grouped
    else od_set c.2 (category_group items extra c) grouped.
Proof.
  intros Hnd. unfold group_category.
  destruct (decide (PyStr.upper c.2 = HIDDEN)); [done|].
  rewrite fold_group_param by done. rewrite od_lookup_set_eq.
  set (g' := foldl _ ∅ items). change (category_group items extra c) with g'.
  destruct (decide (size g' = 0)); [apply od_del_set|done].
Qed.

(** *** All categories *)

(** The groups are keyed by distinct names; each one is the non-empty
    group of a category that is not hidden. *)
Lemma grouped_params_inv items extra cats :
  let grouped := foldl (group_category items extra) [] cats in
  NoDup grouped.*1
  ∧ ∀ k g, (k, g) ∈ grouped →
      g ≠ ∅ ∧ ∃ c, c ∈ cats ∧ PyStr.upper c.2 ≠ HIDDEN ∧ c.2 = k
                   ∧ g = category_group items extra c.
Proof.
  induction cats as [|c cats IH] using rev_ind; simpl.
  - split; [constructor|]. intros k g Hin. by apply elem_of_nil in Hin.
  - rewrite foldl_app. simpl. destruct IH as [Hnd IH].
    rewrite group_category_eq by done.
    destruct (decide (PyStr.upper c.2 = HIDDEN)) as [Hh|Hh].
    { split; [done|]. intros k g Hin. destruct (IH k g Hin) as (Hg & c' & Hc' & ?).
      split; [done|]. exists c'. split; [|done]. apply elem_of_app. by left. }
    destruct (decide (size (category_group items extra c) = 0)) as [Hsz|Hsz].
    { split; [by apply od_del_NoDup|]. intros k g [_ Hin]%elem_of_od_del.
      destruct (IH k g Hin) as (Hg & c' & Hc' & ?).
      split; [done|]. exists c'. split; [|done]. apply elem_of_app. by left. }
    split; [by apply od_set_NoDup|]. intros k g Hin.
    apply elem_of_od_set in Hin as [Heq|[_ Hin]]; [| |done].
    + injection Heq as -> ->.
      split; [by apply map_size_non_empty_iff|]. exists c.
      split; [|done]. apply elem_of_app. right. by left.
    + destruct (IH k g Hin) as (Hg & c' & Hc' & ?).
      split; [done|]. exists c'. split; [|done]. apply elem_of_app. by left.
Qed.

(** Where the categories have distinct names, a category that is not
    hidden has its group in the result, unless that group is empty. *)
Lemma grouped_params_lookup items extra cats c :
  NoDup cats.*2 → c ∈ cats → PyStr.upper c.2 ≠ HIDDEN →
  let grouped := foldl (group_category items extra) [] cats in
  (category_group items extra c = ∅ → od_lookup c.2 grouped = None)
  ∧ (category_group items extra c ≠ ∅ →
     od_lookup c.2 grouped = Some (category_group items extra c)).
Proof.
  induction cats as [|c0 cats IH] using rev_ind; [intros _ Hin; by apply elem_of_nil in Hin|].
  rewrite fmap_app, NoDup_app. simpl. intros (Hnd & Hc0 & _) Hin Hh.
  rewrite foldl_app. simpl.
  rewrite group_category_eq by apply grouped_params_inv.
  apply elem_of_app in Hin as [Hin|Hin%list_elem_of_singleton].
  - assert (c.2 ≠ c0.2) as Hne.
    { intros Heq. apply (Hc0 c.2); [|rewrite Heq; by left].
      apply list_elem_of_fmap. by exists c. }
    specialize (IH Hnd Hin Hh). simpl in IH.
    destruct (decide (PyStr.upper c0.2 = HIDDEN)); [done|].
    destruct (decide (size (category_group items extra c0) = 0)).
    + by rewrite od_lookup_del_ne.
    + by rewrite od_lookup_set_ne.
  - subst c0. rewrite decide_False by done.
    destruct (decide (size (category_group items extra c) = 0)) as [Hsz|Hsz].
    + rewrite od_lookup_del_eq. split; [done|].
      intros Hne. by apply map_size_non_empty_iff in Hne.
    + rewrite od_lookup_set_eq. split; [|done].
      intros Hempty. by apply map_size_empty_iff in Hempty.
Qed.

(** *** The call as a whole *)

Lemma heap_dict_insert_eq (h : gmap loc (gmap string param_entry)) l d :
  heap_dict (<[l := d]> h) l = d.
Proof. unfold heap_dict. by rewrite lookup_insert_eq. Qed.

Lemma heap_dict_insert_ne (h : gmap loc (gmap string param_entry)) l l' d :
  l ≠ l' → heap_dict (<[l := d]> h) l' = heap_dict h l'.
Proof. intros Hne. unfold heap_dict. by rewrite lookup_insert_ne. Qed.

Lemma avail_easyconfig_params_args_eq easyblock h :
  let app := get_easyblock_class easyblock in
  let extra := extra_params_of app in
  let params := merged_params easyblock h in
  avail_easyconfig_params_args easyblock h
  = ([AStr (params_title app extra);
      AGrouped (foldl (group_category (sorted_items params) extra) [] sorted_categories);
      AAlt (reverse_mapping ALTERNATIVE_EASYCONFIG_PARAMETERS)],
     <[fresh (dom h) := params]> (<[fresh (dom h) := heap_dict h DEFAULT_CONFIG]> h)).
Proof.
  unfold avail_easyconfig_params_args, merged_params, mbind, state_bind, mret, state_ret,
    deepcopy, dict_update, dict_sorted_items. simpl.
  by rewrite !heap_dict_insert_eq.
Qed.

Lemma avail_easyconfig_params_eq easyblock output_format h :
  avail_easyconfig_params easyblock output_format h
  = (generate_doc ("avail_easyconfig_params_" +:+ output_format)
       (avail_easyconfig_params_args easyblock h).1,
     (avail_easyconfig_params_args easyblock h).2).
Proof. reflexivity. Qed.

Lemma rendered_name_spec extra name :
  (is_Some (extra !! name) ∧ rendered_name extra name = name +:+ "*")
  ∨ (extra !! name = None ∧ rendered_name extra name = name).
Proof.
  unfold rendered_name. destruct (decide (is_Some (extra !! name))) as [Hs|Hn]; [by left|].
  right. split; [|done]. by apply eq_None_not_Some.
Qed.

Lemma rendered_name_count extra name :
  PyStr.count_char "*" (rendered_name extra name)
  = PyStr.count_char "*" name + (if decide (is_Some (extra !! name)) then 1 else 0).
Proof.
  unfold rendered_name. destruct (decide (is_Some (extra !! name))); [|lia].
  by rewrite count_char_app.
Qed.

(** Rendered names of names without ['*'] tell the names apart. *)
Lemma rendered_name_inj extra n1 n2 :
  PyStr.count_char "*" n1 = 0 → PyStr.count_char "*" n2 = 0 →
  rendered_name extra n1 = rendered_name extra n2 → n1 = n2.
Proof.
  intros H1 H2 Heq.
  pose proof (rendered_name_count extra n1) as C1.
  pose proof (rendered_name_count extra n2) as C2.
  rewrite Heq, H1 in C1. rewrite H2 in C2.
  unfold rendered_name in Heq.
  destruct (decide (is_Some (extra !! n1))), (decide (is_Some (extra !! n2)));
    try lia; [|done].
  revert Heq. clear. revert n2.
  induction n1 as [|a n1 IH]; intros [|b n2]; simpl; try done.
  - intros [= Ha Hn]. by destruct n2.
  - intros [= Ha Hn]. by destruct n1.
  - intros [= -> Hn]. f_equal. by apply IH.
Qed.

End ParamsFacts.

(** ** Properties of the catalog a call builds *)

Section CatalogFacts.
Context `{!Externals}.
Implicit Types (h : heap) (easyblock : option string).

Lemma catalog_groups easyblock h :
  groups_of_args (avail_easyconfig_params_args easyblock h).1
  = foldl (group_category (sorted_items (merged_params easyblock h))
             (extra_params_of (get_easyblock_class easyblock)))
      [] sorted_categories.
Proof. by rewrite avail_easyconfig_params_args_eq. Qed.

(** Where an entry of the catalog comes from. *)
Lemma catalog_entry_origin easyblock h grpname g rendered v :
  (grpname, g) ∈ groups_of_args (avail_easyconfig_params_args easyblock h).1 →
  g !! rendered = Some v →
  ∃ name e, merged_params easyblock h !! name = Some e
    ∧ e.2 ∈ sorted_categories ∧ PyStr.upper e.2.2 ≠ HIDDEN ∧ e.2.2 = grpname
    ∧ v = (e.1.2, e.1.1)
    ∧ rendered = rendered_name (extra_params_of (get_easyblock_class easyblock)) name.
Proof.
  rewrite catalog_groups. intros Hin Hv.
  destruct (grouped_params_inv (sorted_items (merged_params easyblock h))
              (extra_params_of (get_easyblock_class easyblock)) sorted_categories)
    as [_ Hinv].
  destruct (Hinv _ _ Hin) as (_ & c & Hc & Hh & <- & ->).
  apply category_group_lookup in Hv as ([name e] & Hitem & <- & -> & ->).
  apply elem_of_sorted_items in Hitem. simpl in *. by exists name, e.
Qed.

Lemma catalog_group_names easyblock h grpname g :
  (grpname, g) ∈ groups_of_args (avail_easyconfig_params_args easyblock h).1 →
  g ≠ ∅ ∧ PyStr.upper grpname ≠ HIDDEN.
Proof.
  rewrite catalog_groups. intros Hin.
  destruct (grouped_params_inv (sorted_items (merged_params easyblock h))
              (extra_params_of (get_easyblock_class easyblock)) sorted_categories)
    as [_ Hinv].
  destruct (Hinv _ _ Hin) as (? & c & Hc & Hh & <- & ->). done.
Qed.

Lemma catalog_groups_NoDup easyblock h :
  NoDup (groups_of_args (avail_easyconfig_params_args easyblock h).1).*1.
Proof. rewrite catalog_groups. apply grouped_params_inv. Qed.

(** The renderers return once the groups are as the catalog has them. *)
Lemma avail_easyconfig_params_txt_returns title (grouped : grouped_dict) alt :
  (∀ k g, (k, g) ∈ grouped → g ≠ ∅) →
  ∃ text, avail_easyconfig_params_txt title grouped alt = Return text.
Proof.
  intros Hne. unfold avail_easyconfig_params_txt.
  destruct (rfold_returns (λ _, True)
              (λ doc grp, rbind (avail_easyconfig_params_txt_group alt grp)
                            (λ ls, Return (doc ++ ls)))
              [title +:+ ":"; ""] grouped I) as (doc & -> & _); [|by eexists].
  intros doc [k g] _ Hin. unfold avail_easyconfig_params_txt_group. simpl.
  rewrite decide_False by by eapply Hne. simpl. by eexists.
Qed.

Lemma avail_easyconfig_params_md_returns title (grouped : grouped_dict) alt :
  (∀ k g, (k, g) ∈ grouped → k ≠ "") →
  ∃ text, avail_easyconfig_params_md title grouped alt = Return text.
Proof.
  intros Hne. unfold avail_easyconfig_params_md.
  destruct (rfold_returns (λ _, True)
              (λ doc grp, rbind (avail_easyconfig_params_md_group alt grp)
                            (λ ls, Return (doc ++ ls)))
              ["# " +:+ title; ""] grouped I) as (doc & -> & _); [|by eexists].
  intros doc [k g] _ Hin. unfold avail_easyconfig_params_md_group. simpl.
  destruct k as [|a k]; [by destruct (Hne _ _ Hin)|]. simpl. by eexists.
Qed.

Lemma avail_easyconfig_params_txt_call easyblock h :
  ∃ text, (avail_easyconfig_params easyblock FORMAT_TXT h).1 = Return text.
Proof.
  rewrite avail_easyconfig_params_eq.
  pose proof (catalog_group_names easyblock h) as Hgrp.
  rewrite avail_easyconfig_params_args_eq in *. cbn [fst snd groups_of_args] in *.
  apply (avail_easyconfig_params_txt_returns _ _ _).
  intros k g Hin. by destruct (Hgrp k g Hin).
Qed.

(** C5.  Every entry of the catalog is a parameter of the merged schema,
    listed in the group of its category under its rendered name; the
    rendered name of an extra parameter of the easyblock is its name with
    one ['*'] appended, that of any other parameter is its name unchanged;
    and where the categories have distinct names, every parameter of a
    listed category that is not hidden is in the catalog under that name. *)
Theorem extra_parameters_marked easyblock h :
  let extra := extra_params_of (get_easyblock_class easyblock) in
  let params := merged_params easyblock h in
  let grouped := groups_of_args (avail_easyconfig_params_args easyblock h).1 in
  (∀ grpname g rendered v, (grpname, g) ∈ grouped → g !! rendered = Some v →
     ∃ name e, params !! name = Some e ∧ e.2.2 = grpname ∧ v = (e.1.2, e.1.1)
               ∧ rendered = rendered_name extra name)
  ∧ (∀ name,
       (is_Some (extra !! name) ∧ rendered_name extra name = name +:+ "*"
        ∧ PyStr.count_char "*" (rendered_name extra name) = PyStr.count_char "*" name + 1)
       ∨ (extra !! name = None ∧ rendered_name extra name = name))
  ∧ (NoDup sorted_categories.*2 →
     ∀ name e, params !! name = Some e → e.2 ∈ sorted_categories →
       PyStr.upper e.2.2 ≠ HIDDEN →
       ∃ g, od_lookup e.2.2 grouped = Some g ∧ is_Some (g !! rendered_name extra name)).
Proof.
  intros extra params grouped. split; [|split].
  - intros grpname g rendered v Hin Hv.
    destruct (catalog_entry_origin _ _ _ _ _ _ Hin Hv) as (name & e & ? & _ & _ & ? & ? & ?).
    by exists name, e.
  - intros name. destruct (rendered_name_spec extra name) as [[Hs Hr]|[Hn Hr]]; [left|by right].
    split; [done|]. split; [done|].
    rewrite rendered_name_count. by rewrite decide_True.
  - intros Hnd name e Hname Hcat Hh. subst grouped. rewrite catalog_groups. fold extra params.
    assert (is_Some (category_group (sorted_items params) extra e.2
                     !! rendered_name extra name)) as Hsome.
    { apply (category_group_is_Some _ _ _ (name, e)); [|done].
      by apply elem_of_sorted_items. }
    exists (category_group (sorted_items params) extra e.2). split; [|done].
    apply grouped_params_lookup; try done.
    intros Hempty. rewrite Hempty, lookup_empty in Hsome. by destruct Hsome.
Qed.

(** C10.  No group of the catalog is empty, and the group names are
    distinct; where the categories have distinct names, a category none of
    whose parameters survive has no group at all; and the plain-text
    renderer, which fails on an empty group, returns. *)
Theorem empty_groups_omitted easyblock h :
  let params := merged_params easyblock h in
  let grouped := groups_of_args (avail_easyconfig_params_args easyblock h).1 in
  (∀ grpname g, (grpname, g) ∈ grouped → g ≠ ∅)
  ∧ NoDup grouped.*1
  ∧ (NoDup sorted_categories.*2 →
     ∀ c, c ∈ sorted_categories →
       (∀ name e, params !! name = Some e → e.2 ≠ c) →
       od_lookup c.2 grouped = None ∧ c.2 ∉ grouped.*1)
  ∧ (∃ text, (avail_easyconfig_params easyblock FORMAT_TXT h).1 = Return text).
Proof.
  intros params grouped. split; [|split; [|split]].
  - intros grpname g Hin. by eapply catalog_group_names.
  - apply catalog_groups_NoDup.
  - intros Hnd c Hc Hnone.
    assert (od_lookup c.2 grouped = None) as Hlk; [|split; [done|by apply od_lookup_None]].
    destruct (decide (PyStr.upper c.2 = HIDDEN)) as [Hh|Hh].
    + apply od_lookup_None. intros (kv & Hk & Hin)%list_elem_of_fmap.
      destruct kv as [k g]. simpl in Hk. subst k.
      by destruct (catalog_group_names _ _ _ _ Hin).
    + subst grouped. rewrite catalog_groups.
      apply grouped_params_lookup; try done.
      apply map_eq. intros k. rewrite lookup_empty.
      destruct (category_group _ _ c !! k) as [v|] eqn:Hv; [|done]. exfalso.
      apply category_group_lookup in Hv as ([name e] & Hitem & Hcat & _).
      apply elem_of_sorted_items in Hitem. by eapply Hnone.
  - apply avail_easyconfig_params_txt_call.
Qed.

(** C9.  A call leaves the dictionary at [DEFAULT_CONFIG], and every other
    dictionary there was before it, as it found them (the merge goes into
    the copy, a new object), so that any later call gives what it would
    have given before. *)
Theorem base_schema_unchanged easyblock (output_format : string) h :
  is_Some (h !! DEFAULT_CONFIG) →
  let h' := (avail_easyconfig_params easyblock output_format h).2 in
  h' !! DEFAULT_CONFIG = h !! DEFAULT_CONFIG
  ∧ (∀ l, is_Some (h !! l) → h' !! l = h !! l)
  ∧ (∀ easyblock' output_format',
       (avail_easyconfig_params easyblock' output_format' h').1
       = (avail_easyconfig_params easyblock' output_format' h).1).
Proof.
  intros Hbase h'.
  assert (∀ l, is_Some (h !! l) → h' !! l = h !! l) as Hframe.
  { intros l Hl. subst h'. rewrite avail_easyconfig_params_eq. cbn [fst snd].
    rewrite avail_easyconfig_params_args_eq. cbn [fst snd groups_of_args].
    assert (fresh (dom h) ≠ l) as Hne.
    { intros <-. apply (is_fresh (dom h)). by apply elem_of_dom. }
    by rewrite !lookup_insert_ne. }
  split; [by apply Hframe|]. split; [done|].
  intros easyblock' output_format'. rewrite !avail_easyconfig_params_eq. cbn [fst snd].
  rewrite !avail_easyconfig_params_args_eq. cbn [fst snd groups_of_args].
  unfold merged_params, heap_dict. by rewrite (Hframe _ Hbase).
Qed.

End CatalogFacts.

(** ** The catalog of the example environment *)

Lemma example_categories_NoDup :
  NoDup (sorted_categories (Externals:=Examples.example_env)).*2.
Proof. refine (bool_decide_unpack _ _). vm_compute. exact I. Qed.

(** The extra parameter of [ConfigureMake] is listed with the marker, in
    the group of its category. *)
Lemma extra_parameters_marked_witness :
  NoDup (sorted_categories (Externals:=Examples.example_env)).*2
  ∧ merged_params (H:=Examples.example_env) (Some "ConfigureMake") Examples.example_heap
      !! "tar_config_opts"
    = Some (PyBool false, "Override tar settings", Examples.CUSTOM)
  ∧ rendered_name Examples.ConfigureMake.(cls_extra_options) "tar_config_opts"
    = "tar_config_opts*"
  ∧ ∃ g, od_lookup "easyblock-specific"
           (groups_of_args
              (avail_easyconfig_params_args (H:=Examples.example_env)
                 (Some "ConfigureMake") Examples.example_heap).1) = Some g
         ∧ is_Some (g !! "tar_config_opts*").
Proof.
  assert (merged_params (H:=Examples.example_env) (Some "ConfigureMake") Examples.example_heap
            !! "tar_config_opts"
          = Some (PyBool false, "Override tar settings", Examples.CUSTOM)) as Hname
    by (vm_compute; reflexivity).
  split; [exact example_categories_NoDup|]. split; [exact Hname|].
  split; [vm_compute; reflexivity|].
  pose proof (extra_parameters_marked (H:=Examples.example_env)
                (Some "ConfigureMake") Examples.example_heap) as (_ & _ & Hcomplete).
  apply (Hcomplete example_categories_NoDup "tar_config_opts" _ Hname).
  - vm_compute. do 2 right. left.
  - vm_compute. discriminate.
Defined.

(** The base schema of the examples after a call with extra parameters. *)
Lemma base_schema_unchanged_witness :
  is_Some (Examples.example_heap !! DEFAULT_CONFIG (Externals:=Examples.example_env))
  ∧ (avail_easyconfig_params (H:=Examples.example_env) (Some "ConfigureMake") FORMAT_TXT
       Examples.example_heap).2 !! 0
    = Some Examples.example_config.
Proof.
  assert (is_Some (Examples.example_heap !! DEFAULT_CONFIG (Externals:=Examples.example_env)))
    as Hbase by (eexists; vm_compute; reflexivity).
  split; [exact Hbase|].
  pose proof (base_schema_unchanged (H:=Examples.example_env) (Some "ConfigureMake")
                FORMAT_TXT Examples.example_heap Hbase) as (Hsame & _).
  etrans; [exact Hsame|]. vm_compute. reflexivity.
Defined.

(** Without an easyblock no parameter is of the category
    [easyblock-specific]: it has no group. *)
Lemma empty_groups_omitted_witness :
  NoDup (sorted_categories (Externals:=Examples.example_env)).*2
  ∧ (∀ name e,
       merged_params (H:=Examples.example_env) None Examples.example_heap !! name = Some e →
       e.2 ≠ Examples.CUSTOM)
  ∧ od_lookup "easyblock-specific"
      (groups_of_args (avail_easyconfig_params_args (H:=Examples.example_env)
                         None Examples.example_heap).1) = None.
Proof.
  assert (∀ name e,
            merged_params (H:=Examples.example_env) None Examples.example_heap !! name = Some e →
            e.2 ≠ Examples.CUSTOM) as Hnone.
  { assert (map_Forall (λ _ (e : param_entry), e.2 ≠ Examples.CUSTOM)
              (merged_params (H:=Examples.example_env) None Examples.example_heap)) as Hall.
    { refine (bool_decide_unpack _ _). vm_compute. exact I. }
    exact Hall. }
  split; [exact example_categories_NoDup|]. split; [exact Hnone|].
  pose proof (empty_groups_omitted (H:=Examples.example_env) None Examples.example_heap)
    as (_ & _ & Hcat & _).
  refine (proj1 (Hcat example_categories_NoDup Examples.CUSTOM _ Hnone)).
  vm_compute. do 2 right. left.
Defined.

(** * Part III: further properties of the code *)

(** ** Loops that can raise *)

Lemma rbind_Return {A B} (x : A) (k : A → result B) : rbind (Return x) k = k x.
Proof. done. Qed.

(** An error of a loop is an error of its body on one of the items. *)
Lemma rfold_error_origin {A B} (f : B → A → result B) acc l e :
  rfold f acc l = inl e → ∃ acc' x, x ∈ l ∧ f acc' x = inl e.
Proof.
  revert acc. induction l as [|y l IH]; intros acc; simpl; [discriminate|].
  destruct (f acc y) as [e'|acc'] eqn:Hf; simpl.
  - intros [= ->]. exists acc, y. split; [by left|done].
  - intros (acc'' & x & Hx & Hfx)%IH. exists acc'', x. split; [by right|done].
Qed.

(** A loop over items one of which makes the body raise [e], while no
    item makes it raise anything else, raises [e]. *)
Lemma rfold_raises_exactly {A B} (f : B → A → result B) acc l x e :
  x ∈ l → (∀ acc', f acc' x = inl e) →
  (∀ acc' y e', y ∈ l → f acc' y = inl e' → e' = e) →
  rfold f acc l = inl e.
Proof.
  intros Hx Hfx Hsame.
  assert (is_error (rfold f acc l) = true) as Herr.
  { apply (rfold_raises f acc l x Hx). intros acc'. by rewrite Hfx. }
  destruct (rfold f acc l) as [e'|r] eqn:Hr; [|discriminate].
  apply rfold_error_origin in Hr as (acc' & y & Hy & Hfy).
  by rewrite (Hsame acc' y e' Hy Hfy).
Qed.

Lemma rmap_acc {A B} (f : A → result B) (g : A → B) acc l :
  (∀ x, x ∈ l → f x = inr (g x)) →
  rfold (λ acc x, rbind (f x) (λ y, Return (acc ++ [y]))) acc l = inr (acc ++ (g <$> l)).
Proof.
  revert acc. induction l as [|x l IH]; intros acc Hf; simpl.
  - by rewrite app_nil_r.
  - rewrite (Hf x) by by left. simpl. rewrite IH by (intros y Hy; apply Hf; by right).
    by rewrite <-app_assoc.
Qed.

(** A collecting loop returns the results of its body. *)
Lemma rmap_returns {A B} (f : A → result B) (g : A → B) l :
  (∀ x, x ∈ l → f x = inr (g x)) → rmap f l = inr (g <$> l).
Proof. intros Hf. unfold rmap. by rewrite (rmap_acc f g [] l Hf). Qed.

(** An error of a collecting loop is the error of its body on an item. *)
Lemma rmap_error_origin {A B} (f : A → result B) l e :
  rmap f l = inl e → ∃ x, x ∈ l ∧ f x = inl e.
Proof.
  intros (acc & x & Hx & Hf)%rfold_error_origin. exists x. split; [done|].
  destruct (f x) as [e'|y]; simpl in Hf; [|discriminate]. by injection Hf as ->.
Qed.

Lemma rmap_raises {A B} (f : A → result B) l x :
  x ∈ l → is_error (f x) = true → is_error (rmap f l) = true.
Proof.
  intros Hx Hf. apply (rfold_raises _ [] l x Hx). intros acc. by destruct (f x).
Qed.

Lemma rmap_acc_inv {A B} (f : A → result B) acc l ys :
  rfold (λ acc x, rbind (f x) (λ y, Return (acc ++ [y]))) acc l = inr ys →
  ∃ ys', ys = acc ++ ys' ∧ Forall2 (λ x y, f x = inr y) l ys'.
Proof.
  revert acc. induction l as [|x l IH]; intros acc; simpl.
  - intros [= <-]. exists []. by rewrite app_nil_r.
  - destruct (f x) as [e|y] eqn:Hf; simpl; [discriminate|].
    intros (ys' & -> & Hall)%IH. exists (y :: ys'). rewrite <-app_assoc. split; [done|].
    by constructor.
Qed.

(** The results a collecting loop returns are those of its body, item by
    item. *)
Lemma rmap_inv {A B} (f : A → result B) l ys :
  rmap f l = inr ys → Forall2 (λ x y, f x = inr y) l ys.
Proof. intros (ys' & -> & Hall)%rmap_acc_inv. done. Qed.

(** ** Lengths of strings *)

Lemma string_length_app (s1 s2 : string) :
  String.length (s1 +:+ s2) = String.length s1 + String.length s2.
Proof. induction s1 as [|a s1 IH]; simpl; [done|]. by rewrite IH. Qed.

Lemma string_app_assoc (s1 s2 s3 : string) : (s1 +:+ s2) +:+ s3 = s1 +:+ s2 +:+ s3.
Proof.
  induction s1 as [|a s1 IH]; [done|].
  change (String a ((s1 +:+ s2) +:+ s3) = String a (s1 +:+ s2 +:+ s3)). by rewrite IH.
Qed.

Lemma repeat_char_length (c : string) n :
  String.length (PyStr.repeat c n) = n * String.length c.
Proof. induction n as [|n IH]; simpl; [done|]. by rewrite string_length_app, IH. Qed.

Lemma max_len_ge (l : list nat) n : n ∈ l → n ≤ max_len l.
Proof.
  induction l as [|m l IH]; [by intros ?%elem_of_nil|].
  intros [->|Hin]%elem_of_cons; unfold max_len in *; cbn [foldr]; [lia|].
  specialize (IH Hin). lia.
Qed.

Lemma max_len_elem (l : list nat) : l ≠ [] → max_len l ∈ l.
Proof.
  induction l as [|m l IH]; [done|]. intros _. unfold max_len in *. cbn [foldr].
  destruct l as [|m' l]; [cbn [foldr]; rewrite Nat.max_0_r; by left|].
  destruct (Nat.max_spec m (foldr Nat.max 0 (m' :: l))) as [[_ Hmax]|[_ Hmax]];
    rewrite Hmax; [right; by apply IH|by left].
Qed.

(** ** More on the easyblock overview *)

Section EasyblockExtras.
Context `{!Externals}.

Lemma elem_of_set_add c s r :
  r ∈ cls_ref <$> set_add c s ↔ r = cls_ref c ∨ r ∈ cls_ref <$> s.
Proof.
  unfold set_add. destruct (decide (cls_ref c ∈ cls_ref <$> s)) as [Hin|Hin].
  - split; [by right|]. intros [->|?]; done.
  - rewrite fmap_app, elem_of_app. simpl. rewrite list_elem_of_singleton. tauto.
Qed.

Lemma set_add_NoDup c s : NoDup (cls_ref <$> s) → NoDup (cls_ref <$> set_add c s).
Proof.
  intros Hnd. unfold set_add. destruct (decide (cls_ref c ∈ cls_ref <$> s)); [done|].
  rewrite fmap_app. apply NoDup_app. split; [done|]. split; [|apply NoDup_singleton].
  intros r Hr. simpl. rewrite list_elem_of_singleton. by intros ->.
Qed.

Lemma set_add_origin c s c' : c' ∈ set_add c s → c' = c ∨ c' ∈ s.
Proof.
  unfold set_add. destruct (decide (cls_ref c ∈ cls_ref <$> s)); [by right|].
  rewrite elem_of_app, list_elem_of_singleton. tauto.
Qed.

(** The set after the loop over the classes of a module. *)
Lemma scan_module_set package_name members st :
  let st' := foldl (λ (st : list pyclass * bool) (member : string * pyclass),
                      if is_easyblock_of package_name member.2
                      then (set_add member.2 st.1, true) else st) st members in
  (NoDup (cls_ref <$> st.1) → NoDup (cls_ref <$> st'.1))
  ∧ (∀ r, r ∈ cls_ref <$> st'.1 ↔
          r ∈ cls_ref <$> st.1
          ∨ ∃ member, member ∈ members ∧ is_easyblock_of package_name member.2 = true
                      ∧ cls_ref member.2 = r)
  ∧ (∀ c, c ∈ st'.1 →
          c ∈ st.1
          ∨ ∃ member, member ∈ members ∧ is_easyblock_of package_name member.2 = true
                      ∧ member.2 = c).
Proof.
  revert st. induction members as [|member members IH]; intros st; simpl.
  - split; [done|]. split.
    + intros r. split; [by left|]. intros [?|(m & Hm & _)]; [done|by apply elem_of_nil in Hm].
    + intros c ?. by left.
  - destruct (IH (if is_easyblock_of package_name member.2
                  then (set_add member.2 st.1, true) else st)) as (Hnd & Hrefs & Hcls).
    destruct (is_easyblock_of package_name member.2) eqn:Hm; simpl in *.
    + split; [intros ?; by apply Hnd, set_add_NoDup|]. split.
      * intros r. rewrite Hrefs, elem_of_set_add. split.
        -- intros [[->|?]|(m & ? & ? & ?)]; [right|by left|right].
           ++ exists member. split; [by left|done].
           ++ exists m. split; [by right|done].
        -- intros [?|(m & [->|?]%elem_of_cons & ? & <-)]; [tauto|tauto|].
           right. by exists m.
      * intros c [[->|?]%set_add_origin|(m & ? & ? & ?)]%Hcls; [right|by left|right].
        -- exists member. split; [by left|done].
        -- exists m. split; [by right|done].
    + split; [done|]. split.
      * intros r. rewrite Hrefs. split.
        -- intros [?|(m & ? & ? & ?)]; [by left|right]. exists m. split; [by right|done].
        -- intros [?|(m & [->|?]%elem_of_cons & Hm' & <-)]; [by left|congruence|].
           right. by exists m.
      * intros c [?|(m & ? & ? & ?)]%Hcls; [by left|right].
        exists m. split; [by right|done].
Qed.

Lemma get_easyblock_classes_loop_returns package_name modules easyblocks :
  NoDup (cls_ref <$> easyblocks) →
  (∀ pymod, pymod ∈ modules →
     ∃ member, member ∈ mod_classes pymod ∧ is_easyblock_of package_name member.2 = true) →
  ∃ result,
    rfold (λ easyblocks pymod,
             let st := scan_module package_name easyblocks pymod in
             if st.2 then Return st.1
             else Raise (RuntimeError ["No easyblocks found in module: %s"; mod_name pymod]))
          easyblocks modules = Return result
    ∧ NoDup (cls_ref <$> result)
    ∧ (∀ r, r ∈ cls_ref <$> result ↔
            r ∈ cls_ref <$> easyblocks
            ∨ ∃ pymod member, pymod ∈ modules ∧ member ∈ mod_classes pymod
                ∧ is_easyblock_of package_name member.2 = true ∧ cls_ref member.2 = r)
    ∧ (∀ c, c ∈ result →
            c ∈ easyblocks
            ∨ ∃ pymod member, pymod ∈ modules ∧ member ∈ mod_classes pymod
                ∧ is_easyblock_of package_name member.2 = true ∧ member.2 = c).
Proof.
  revert easyblocks. induction modules as [|m modules IH]; intros easyblocks Hnd Hall.
  - exists easyblocks. split; [done|]. split; [done|]. split.
    + intros r. split; [by left|]. intros [?|(? & ? & Hm & _)]; [done|by apply elem_of_nil in Hm].
    + intros c ?. by left.
  - simpl. destruct (scan_module package_name easyblocks m).2 eqn:Hfound.
    2:{ destruct (Hall m) as (member & Hin & Hm); [by left|].
        pose proof (proj1 (scan_module_found package_name easyblocks m) Hfound member Hin).
        congruence. }
    simpl. destruct (scan_module_set package_name (mod_classes m) (easyblocks, false))
      as (Hnd' & Hrefs & Hcls).
    fold (scan_module package_name easyblocks m) in Hnd', Hrefs, Hcls. simpl in *.
    destruct (IH (scan_module package_name easyblocks m).1)
      as (result & Hr & Hnd'' & Hrefs' & Hcls'); [by apply Hnd'| |].
    { intros pymod Hp. apply Hall. by right. }
    exists result. split; [done|]. split; [done|]. split.
    + intros r. rewrite Hrefs', Hrefs. split.
      * intros [[?|(member & ? & ? & ?)]|(pymod & member & ? & ?)]; [by left|right|right].
        -- exists m, member. split; [by left|done].
        -- exists pymod, member. split; [by right|done].
      * intros [?|(pymod & member & [->|?]%elem_of_cons & ? & ? & ?)]; [tauto| |].
        -- left. right. by exists member.
        -- right. by exists pymod, member.
    + intros c [[?|(member & ? & ? & ?)]%Hcls|(pymod & member & ? & ?)]%Hcls';
        [by left|right|right].
      * exists m, member. split; [by left|done].
      * exists pymod, member. split; [by right|done].
Qed.

(** X1.  Where every module of the package has a class that counts as an
    easyblock, [get_easyblock_classes] returns: its result holds no two
    classes with the same module and name, each class in it is an easyblock
    of one of the modules, and every easyblock of every module is in it
    (identified by module and name). *)
Theorem get_easyblock_classes_returns (package_name : string) :
  (∀ pymod, pymod ∈ import_available_modules package_name →
     ∃ member, member ∈ mod_classes pymod ∧ is_easyblock_of package_name member.2 = true) →
  ∃ easyblocks,
    get_easyblock_classes package_name = Return easyblocks
    ∧ NoDup (cls_ref <$> easyblocks)
    ∧ (∀ r, r ∈ cls_ref <$> easyblocks ↔
            ∃ pymod member, pymod ∈ import_available_modules package_name
              ∧ member ∈ mod_classes pymod
              ∧ is_easyblock_of package_name member.2 = true ∧ cls_ref member.2 = r)
    ∧ (∀ c, c ∈ easyblocks →
            ∃ pymod member, pymod ∈ import_available_modules package_name
              ∧ member ∈ mod_classes pymod
              ∧ is_easyblock_of package_name member.2 = true ∧ member.2 = c).
Proof.
  intros Hall.
  destruct (get_easyblock_classes_loop_returns package_name
              (import_available_modules package_name) [] (NoDup_nil_2) Hall)
    as (result & Hr & Hnd & Hrefs & Hcls).
  exists result. split; [exact Hr|]. split; [done|]. split.
  - intros r. rewrite Hrefs. split; [|by right].
    intros [Hin|?]; [|done]. by apply elem_of_nil in Hin.
  - intros c [Hin|?]%Hcls; [|done]. by apply elem_of_nil in Hin.
Qed.

(** The loops over the hooks, from any state, where the class defines
    every hook of the list. *)
Lemma custom_steps_rst_acc eb_class doc_functions st :
  (∀ func, func ∈ doc_functions → is_Some (cls_dict eb_class !! func)) →
  (foldl (custom_step_rst eb_class) st doc_functions).2
  = st.2 ++ omap (hook_bullet eb_class) doc_functions.
Proof.
  revert st. induction doc_functions as [|func fs IH]; intros st Hdef; simpl.
  - by rewrite app_nil_r.
  - rewrite IH by (intros ??; apply Hdef; by right).
    destruct (Hdef func) as [attr Hattr]; [by left|].
    unfold custom_step_rst, hook_bullet. rewrite Hattr. simpl.
    destruct attr as [d|]; simpl; [|done].
    destruct (PyStr.truthy d); simpl; [|done]. by rewrite <-app_assoc.
Qed.

Lemma custom_steps_md_acc eb_class doc_functions st :
  (∀ func, func ∈ doc_functions → is_Some (cls_dict eb_class !! func)) →
  (foldl (custom_step_md eb_class) st doc_functions).2
  = st.2 ++ (omap (hook_bullet eb_class) doc_functions ≫= λ bullet, [bullet; ""]).
Proof.
  revert st. induction doc_functions as [|func fs IH]; intros st Hdef; simpl.
  - by rewrite app_nil_r.
  - rewrite IH by (intros ??; apply Hdef; by right).
    destruct (Hdef func) as [attr Hattr]; [by left|].
    unfold custom_step_md, hook_bullet. rewrite Hattr. simpl.
    destruct attr as [d|]; simpl; [|done].
    destruct (PyStr.truthy d); simpl; [|done]. by rewrite <-app_assoc.
Qed.

(** X2.  Where the class itself defines every hook of [doc_functions], the
    customised steps are, in the order of the list, the bullets of the
    hooks whose docstring is not empty and nothing else: a hook without
    docstring, or with an empty one, is skipped (the Markdown section puts
    an empty line after each bullet). *)
Theorem custom_steps_of_defined_hooks (eb_class : pyclass) (doc_functions : list string) :
  (∀ func, func ∈ doc_functions → is_Some (cls_dict eb_class !! func)) →
  custom_steps_rst eb_class doc_functions = omap (hook_bullet eb_class) doc_functions
  ∧ custom_steps_md eb_class doc_functions
    = (omap (hook_bullet eb_class) doc_functions ≫= λ bullet, [bullet; ""]).
Proof.
  intros Hdef. unfold custom_steps_rst, custom_steps_md.
  by rewrite custom_steps_rst_acc, custom_steps_md_acc.
Qed.

Lemma common_descriptions_error h opts e :
  common_descriptions h opts = inl e →
  ∃ opt, opt ∈ opts ∧ heap_dict h DEFAULT_CONFIG !! opt = None ∧ e = KeyError opt.
Proof.
  intros (opt & Hopt & Hf)%rmap_error_origin. exists opt. split; [done|].
  destruct (heap_dict h DEFAULT_CONFIG !! opt); [discriminate|]. split; [done|].
  by injection Hf as <-.
Qed.

(** X3.  A class listed in [common_params] with a parameter name that the
    base schema does not have makes both section generators raise
    [KeyError] with such a name. *)
Theorem common_params_missing_parameter (h : heap) (eb_class : pyclass)
    (path_to_examples : string) (common_params : gmap string (list string))
    (doc_functions : list string) (all_eb_classes : list pyclass)
    (opts : list string) (opt : string) :
  common_params !! cls_name eb_class = Some opts →
  opt ∈ opts → heap_dict h DEFAULT_CONFIG !! opt = None →
  ∃ missing, missing ∈ opts ∧ heap_dict h DEFAULT_CONFIG !! missing = None
    ∧ gen_easyblock_doc_section_md h eb_class path_to_examples common_params doc_functions
        all_eb_classes = Raise (KeyError missing)
    ∧ gen_easyblock_doc_section_rst h eb_class path_to_examples common_params doc_functions
        all_eb_classes = Raise (KeyError missing).
Proof.
  intros Hcommon Hopt Hmissing.
  assert (is_error (common_descriptions h opts) = true) as Herr.
  { apply (rmap_raises _ opts opt Hopt). cbn beta.
    match goal with
    | |- context [match ?x with _ => _ end] => assert (x = None) as -> by exact Hmissing
    end. done. }
  destruct (common_descriptions h opts) as [e|?] eqn:Hdescr; [|discriminate].
  destruct (common_descriptions_error _ _ _ Hdescr) as (missing & ? & ? & ->).
  exists missing. split; [done|]. split; [done|].
  unfold gen_easyblock_doc_section_md, gen_easyblock_doc_section_rst.
  rewrite Hcommon. simpl. rewrite Hdescr. done.
Qed.

End EasyblockExtras.

Lemma get_easyblock_classes_returns_witness :
  (∀ pymod, pymod ∈ import_available_modules (Externals:=MoreExamples.easyblocks_env)
                      "easybuild.easyblocks" →
     ∃ member, member ∈ mod_classes pymod
               ∧ is_easyblock_of "easybuild.easyblocks" member.2 = true)
  ∧ ∃ easyblocks,
      get_easyblock_classes (H:=MoreExamples.easyblocks_env) "easybuild.easyblocks"
      = Return easyblocks
      ∧ NoDup (cls_ref <$> easyblocks)
      ∧ (∀ r, r ∈ cls_ref <$> easyblocks ↔
              ∃ pymod member,
                pymod ∈ import_available_modules (Externals:=MoreExamples.easyblocks_env)
                          "easybuild.easyblocks"
                ∧ member ∈ mod_classes pymod
                ∧ is_easyblock_of "easybuild.easyblocks" member.2 = true
                ∧ cls_ref member.2 = r)
      ∧ (∀ c, c ∈ easyblocks →
              ∃ pymod member,
                pymod ∈ import_available_modules (Externals:=MoreExamples.easyblocks_env)
                          "easybuild.easyblocks"
                ∧ member ∈ mod_classes pymod
                ∧ is_easyblock_of "easybuild.easyblocks" member.2 = true ∧ member.2 = c).
Proof.
  assert (∀ pymod, pymod ∈ import_available_modules (Externals:=MoreExamples.easyblocks_env)
                             "easybuild.easyblocks" →
            ∃ member, member ∈ mod_classes pymod
                      ∧ is_easyblock_of "easybuild.easyblocks" member.2 = true) as Hall.
  { intros pymod Hin. simpl in Hin. unfold MoreExamples.easyblock_modules in Hin.
    apply elem_of_cons in Hin as [->|Hin]; [|apply elem_of_cons in Hin as [->|Hin]].
    - exists ("ConfigureMake", Examples.ConfigureMake). split; [by left|].
      vm_compute; reflexivity.
    - exists ("CMakeMake", MoreExamples.CMakeMake). split; [by left|].
      vm_compute; reflexivity.
    - by apply elem_of_nil in Hin. }
  split; [exact Hall|].
  exact (get_easyblock_classes_returns (H:=MoreExamples.easyblocks_env)
           "easybuild.easyblocks" Hall).
Defined.

Lemma custom_steps_of_defined_hooks_witness :
  let hooks := ["configure_step"; "build_step"; "install_step"] in
  (∀ func, func ∈ hooks → is_Some (cls_dict MoreExamples.CMakeMake !! func))
  ∧ custom_steps_rst (H:=Examples.example_env) MoreExamples.CMakeMake hooks
    = omap (hook_bullet MoreExamples.CMakeMake) hooks
  ∧ custom_steps_md (H:=Examples.example_env) MoreExamples.CMakeMake hooks
    = (omap (hook_bullet MoreExamples.CMakeMake) hooks ≫= λ bullet, [bullet; ""]).
Proof.
  intros hooks.
  assert (∀ func, func ∈ hooks → is_Some (cls_dict MoreExamples.CMakeMake !! func)) as Hdef.
  { intros func Hin. subst hooks.
    repeat (apply elem_of_cons in Hin as [->|Hin]); [| | |by apply elem_of_nil in Hin];
      vm_compute; by eexists. }
  split; [exact Hdef|].
  exact (custom_steps_of_defined_hooks (H:=Examples.example_env) MoreExamples.CMakeMake
           hooks Hdef).
Defined.

Lemma common_params_missing_parameter_witness :
  let common_params : gmap string (list string) :=
    {[ "ConfigureMake" := ["configopts"; "buildopts"] ]} in
  common_params !! cls_name Examples.ConfigureMake = Some ["configopts"; "buildopts"]
  ∧ "buildopts" ∈ ["configopts"; "buildopts"]
  ∧ heap_dict Examples.example_heap (DEFAULT_CONFIG (Externals:=Examples.example_env))
      !! "buildopts" = None
  ∧ ∃ missing, missing ∈ ["configopts"; "buildopts"]
    ∧ heap_dict Examples.example_heap (DEFAULT_CONFIG (Externals:=Examples.example_env))
        !! missing = None
    ∧ gen_easyblock_doc_section_md (H:=Examples.example_env) Examples.example_heap
        Examples.ConfigureMake "" common_params ["configure_step"] [Examples.ConfigureMake]
      = Raise (KeyError missing)
    ∧ gen_easyblock_doc_section_rst (H:=Examples.example_env) Examples.example_heap
        Examples.ConfigureMake "" common_params ["configure_step"] [Examples.ConfigureMake]
      = Raise (KeyError missing).
Proof.
  intros common_params.
  assert (common_params !! cls_name Examples.ConfigureMake
          = Some ["configopts"; "buildopts"]) as Hcommon by (vm_compute; reflexivity).
  assert ("buildopts" ∈ ["configopts"; "buildopts"]) as Hin by (right; left).
  assert (heap_dict Examples.example_heap (DEFAULT_CONFIG (Externals:=Examples.example_env))
            !! "buildopts" = None) as Hmissing by (vm_compute; reflexivity).
  split; [exact Hcommon|]. split; [exact Hin|]. split; [exact Hmissing|].
  exact (common_params_missing_parameter (H:=Examples.example_env) Examples.example_heap
           Examples.ConfigureMake "" common_params ["configure_step"]
           [Examples.ConfigureMake] ["configopts"; "buildopts"] "buildopts"
           Hcommon Hin Hmissing).
Defined.

(** ** More on the software catalog *)

Lemma rfold_pure {A B} (f : B → A → result B) (g : B → A → B) acc l :
  (∀ acc' x, x ∈ l → f acc' x = inr (g acc' x)) → rfold f acc l = inr (foldl g acc l).
Proof.
  revert acc. induction l as [|x l IH]; intros acc Hf; simpl; [done|].
  rewrite Hf by by left. simpl. apply IH. intros acc' y Hy. apply Hf. by right.
Qed.

Lemma foldl_snoc_map {A B} (g : A → B) acc (l : list A) :
  foldl (λ acc x, acc ++ [g x]) acc l = acc ++ (g <$> l).
Proof.
  revert acc. induction l as [|x l IH]; intros acc; simpl.
  - by rewrite app_nil_r.
  - rewrite IH. by rewrite <-app_assoc.
Qed.

Section SoftwareExtras.
Context `{!Externals}.
Implicit Types (software : list (string * list sw_entry)) (entries : list sw_entry).

Lemma lower_ltb_asym (a b : string * list sw_entry) :
  String.ltb (PyStr.lower a.1) (PyStr.lower b.1) = true →
  String.ltb (PyStr.lower b.1) (PyStr.lower a.1) = false.
Proof. apply string_ltb_asym. Qed.

Lemma lower_ge_trans (a b c : string * list sw_entry) :
  String.ltb (PyStr.lower b.1) (PyStr.lower a.1) = false →
  String.ltb (PyStr.lower c.1) (PyStr.lower b.1) = false →
  String.ltb (PyStr.lower c.1) (PyStr.lower a.1) = false.
Proof. apply string_ge_trans. Qed.

(** The names of the catalog come in ascending order of their lower-case
    forms, each item once. *)
Lemma software_sorted_spec software :
  software_sorted software ≡ₚ software
  ∧ StronglySorted (λ a b : string * list sw_entry,
                      String.le (PyStr.lower a.1) (PyStr.lower b.1))
      (software_sorted software).
Proof.
  split; [apply py_sorted_perm|].
  eapply StronglySorted_weaken; [|apply py_sorted_sorted].
  - intros a b Hab. by apply string_ascending_le.
  - apply lower_ltb_asym.
  - apply lower_ge_trans.
Qed.

(** X4.  Without details the plain-text catalog never fails: it is an
    empty line followed by one bullet per software name, the names in
    ascending order of their lower-case forms, each once. *)
Theorem list_software_txt_plain software :
  list_software_txt software false
  = Return (PyStr.join nl ("" :: ((λ item : string * list sw_entry, "* " +:+ item.1)
                                  <$> software_sorted software)))
  ∧ software_sorted software ≡ₚ software
  ∧ StronglySorted (λ a b : string * list sw_entry,
                      String.le (PyStr.lower a.1) (PyStr.lower b.1))
      (software_sorted software).
Proof.
  split; [|apply software_sorted_spec].
  unfold list_software_txt.
  rewrite (rfold_pure _ (λ lines (item : string * list sw_entry), lines ++ ["* " +:+ item.1]))
    by done.
  simpl. by rewrite (foldl_snoc_map (λ item : string * list sw_entry, "* " +:+ item.1)).
Qed.

Lemma list_software_txt_key_detailed lines (item : string * list sw_entry) :
  (item.2 = [] ∧ list_software_txt_key true lines item
                 = Raise (IndexError "list index out of range"))
  ∨ (item.2 ≠ [] ∧ ∃ lines', list_software_txt_key true lines item = Return lines').
Proof.
  unfold list_software_txt_key, last_entry.
  destruct (last item.2) as [e|] eqn:Hlast; simpl.
  - right. split; [by intros Heq; rewrite Heq in Hlast|]. by eexists.
  - left. split; [by apply last_None|done].
Qed.

Lemma list_software_txt_returns software (detailed : bool) :
  (detailed = true → ∀ key entries, (key, entries) ∈ software → entries ≠ []) →
  ∃ text, list_software_txt software detailed = Return text.
Proof.
  intros Hne. unfold list_software_txt.
  destruct (rfold_returns (λ _, True) (list_software_txt_key detailed) [""]
              (software_sorted software) I) as (lines & -> & _); [|by eexists].
  intros lines [key entries] _ Hin%elem_of_py_sorted.
  destruct detailed; [|by eexists].
  destruct (list_software_txt_key_detailed lines (key, entries)) as [[Hnil _]|[_ [lines' ->]]].
  - by destruct (Hne eq_refl key entries Hin).
  - by eexists.
Qed.

(** X5.  With details the plain-text catalog returns exactly when no
    software name has an empty list of entries; an empty list makes it
    raise [IndexError]. *)
Theorem list_software_txt_detailed software :
  ((∃ key, (key, []) ∈ software) →
   list_software_txt software true = Raise (IndexError "list index out of range"))
  ∧ ((∀ key entries, (key, entries) ∈ software → entries ≠ []) →
     ∃ text, list_software_txt software true = Return text).
Proof.
  split.
  - intros [key Hkey]. unfold list_software_txt.
    rewrite (rfold_raises_exactly _ [""] (software_sorted software) (key, [])
               (IndexError "list index out of range")); [done| | |].
    + apply elem_of_py_sorted, Hkey.
    + intros lines. by destruct (list_software_txt_key_detailed lines (key, [])) as [[_ ?]|[? _]].
    + intros lines item e' _ He'.
      destruct (list_software_txt_key_detailed lines item) as [[_ Hr]|[_ [? Hr]]];
        rewrite Hr in He'; [by injection He' as <-|discriminate].
  - intros Hne. apply list_software_txt_returns. by intros _.
Qed.

Lemma first_lower_spec k :
  (k = "" ∧ first_lower k = Raise (IndexError "string index out of range"))
  ∨ (k ≠ "" ∧ ∃ c, first_lower k = Return c).
Proof. destruct k as [|a k]; [by left|]. right. split; [done|]. by eexists. Qed.

Lemma key_letters_empty_name software entries :
  ("", entries) ∈ software →
  key_letters software = Raise (IndexError "string index out of range").
Proof.
  intros Hin. unfold key_letters, rmap.
  rewrite (rfold_raises_exactly _ [] (software.*1) ""
             (IndexError "string index out of range")); [done| |done|].
  - apply list_elem_of_fmap. by exists ("", entries).
  - intros acc k e' _. destruct (first_lower_spec k) as [[_ ->]|[_ [c ->]]]; simpl.
    + by intros [= <-].
    + discriminate.
Qed.

Lemma key_letters_returns software :
  (∀ key entries, (key, entries) ∈ software → key ≠ "") →
  ∃ letters, key_letters software = Return letters.
Proof.
  intros Hne. unfold key_letters, rmap.
  destruct (rfold_returns (λ _, True)
              (λ acc x, rbind (first_lower x) (λ y, Return (acc ++ [y])))
              [] (software.*1) I) as (letters & -> & _); [|by eexists].
  intros acc k _ ([key entries] & -> & Hin)%list_elem_of_fmap. simpl.
  destruct (first_lower_spec key) as [[-> _]|[_ [c ->]]]; [by destruct (Hne _ _ Hin)|].
  by eexists.
Qed.

Lemma list_software_md_rst_return software (detailed : bool) :
  (∀ key entries, (key, entries) ∈ software →
     key ≠ "" ∧ (detailed = true → entries ≠ [])) →
  (∃ text, list_software_md software detailed = Return text)
  ∧ (∃ text, list_software_rst software detailed = Return text).
Proof.
  intros Hok.
  destruct (key_letters_returns software) as [letters Hletters].
  { intros key entries Hin. by destruct (Hok key entries Hin). }
  unfold list_software_md, list_software_rst. rewrite Hletters. simpl. split.
  - match goal with |- context [rfold ?f ?acc ?l] =>
      destruct (rfold_returns (λ _, True) f acc l I) as (st & -> & _) end; [|by eexists].
    intros st [key entries] _ Hin%elem_of_py_sorted.
    destruct (Hok key entries Hin) as [Hkey Hentries].
    unfold list_software_md_key. simpl.
    destruct (first_lower_spec key) as [[? _]|[_ [c ->]]]; [done|]. simpl.
    destruct detailed; [|by eexists]. unfold last_entry.
    destruct (last entries) as [e|] eqn:Hlast; [simpl; by eexists|].
    apply last_None in Hlast. by destruct Hentries.
  - match goal with |- context [rfold ?f ?acc ?l] =>
      destruct (rfold_returns (λ _, True) f acc l I) as (st & -> & _) end; [|by eexists].
    intros st [key entries] _ Hin%elem_of_py_sorted.
    destruct (Hok key entries Hin) as [Hkey Hentries].
    unfold list_software_rst_key. simpl.
    destruct (first_lower_spec key) as [[? _]|[_ [c ->]]]; [done|]. simpl.
    destruct detailed; [|by eexists]. unfold last_entry.
    destruct (last entries) as [e|] eqn:Hlast; [simpl; by eexists|].
    apply last_None in Hlast. by destruct Hentries.
Qed.

(** X6.  The Markdown and reStructuredText catalogs raise [IndexError] on
    a software name that is the empty string, with or without details, as
    the letter index takes the first character of every name; they return
    where no name is empty and, if details are asked for, no name has an
    empty list of entries. *)
Theorem list_software_md_rst_names software (detailed : bool) :
  ((∃ entries, ("", entries) ∈ software) →
   list_software_md software detailed = Raise (IndexError "string index out of range")
   ∧ list_software_rst software detailed = Raise (IndexError "string index out of range"))
  ∧ ((∀ key entries, (key, entries) ∈ software →
        key ≠ "" ∧ (detailed = true → entries ≠ [])) →
     (∃ text, list_software_md software detailed = Return text)
     ∧ (∃ text, list_software_rst software detailed = Return text)).
Proof.
  split; [|apply list_software_md_rst_return].
  intros [entries Hin]. unfold list_software_md, list_software_rst.
  by rewrite (key_letters_empty_name software entries Hin).
Qed.

(** X7.  The version table is rectangular: it has as many columns as
    titles, two or three, and every column has one cell per distinct
    (version, versionsuffix) pair of the group. *)
Theorem software_table_rectangular entries :
  let table := software_table entries in
  length table.2 = length table.1
  ∧ (length table.1 = 2 ∨ length table.1 = 3)
  ∧ Forall (λ column, length column = length (version_pairs entries)) table.2.
Proof.
  intros table. subst table. rewrite software_table_eq.
  assert (length (sorted_version_pairs (version_pairs entries))
          = length (version_pairs entries)) as Hlen.
  { unfold sorted_version_pairs. by rewrite py_sorted_perm, length_fmap. }
  destruct (any_vsuff (version_pairs entries)); simpl.
  - split; [done|]. split; [by right|].
    repeat constructor; by rewrite length_fmap.
  - split; [done|]. split; [by left|].
    repeat constructor; by rewrite length_fmap.
Qed.

(** X8.  The letters of the index, where the names have a first
    character: no letter twice, in ascending order, and a letter is among
    them exactly if it is the lower-case first character of a software
    name. *)
Theorem key_letters_spec software (letters : list string) :
  key_letters software = Return letters →
  NoDup letters
  ∧ StronglySorted String.le letters
  ∧ ∀ letter, letter ∈ letters ↔
      ∃ key entries, (key, entries) ∈ software ∧ first_lower key = Return letter.
Proof.
  unfold key_letters. intros (firsts & Hfirsts & [= <-])%rbind_inr.
  apply rmap_inv in Hfirsts.
  split; [apply NoDup_nub|]. split.
  - assert (∀ (seen l : list string), StronglySorted String.le l →
              StronglySorted String.le (nub_go seen l)) as Hgo.
    { intros seen l Hl. revert seen. induction Hl as [|x l Hl IH Hx]; intros seen; simpl;
        [constructor|].
      destruct (decide (x ∈ seen)); [apply IH|]. constructor; [apply IH|].
      apply Forall_forall. intros y [Hy _]%elem_of_nub_go.
      rewrite Forall_forall in Hx. by apply Hx. }
    apply Hgo, sorted_strings_sorted.
  - intros letter. rewrite elem_of_nub, elem_of_py_sorted. split.
    + intros Hin. apply list_elem_of_lookup in Hin as [i Hi].
      destruct (Forall2_lookup_r _ _ _ _ _ Hfirsts Hi) as (key & Hkey & Hf).
      apply list_elem_of_lookup_2, list_elem_of_fmap in Hkey as ([key' entries] & -> & Hitem).
      by exists key', entries.
    + intros (key & entries & Hin & Hf).
      assert (key ∈ software.*1) as Hkey.
      { apply list_elem_of_fmap. by exists (key, entries). }
      apply list_elem_of_lookup in Hkey as [i Hi].
      destruct (Forall2_lookup_l _ _ _ _ _ Hfirsts Hi) as (letter' & Hl & Hf').
      rewrite Hf in Hf'. injection Hf' as <-. by eapply list_elem_of_lookup_2.
Qed.

Lemma letter_refs_acc (letters alphabet : list string) (refs : string) :
  let ref := λ letter : string, ":ref:`list_software_letter_" +:+ letter +:+ "`" in
  let chosen := ref <$> filter (λ x, x ∈ letters) alphabet in
  foldl (λ refs letter,
    if decide (letter ∈ letters) then
      if PyStr.truthy refs then refs +:+ " - :ref:`list_software_letter_" +:+ letter +:+ "`"
      else ":ref:`list_software_letter_" +:+ letter +:+ "`"
    else refs) refs alphabet
  = match chosen with
    | [] => refs
    | _ => if PyStr.truthy refs then refs +:+ " - " +:+ PyStr.join " - " chosen
           else PyStr.join " - " chosen
    end.
Proof.
  intros ref chosen. subst chosen. revert refs.
  induction alphabet as [|letter alphabet IH]; intros refs; [done|].
  simpl foldl. rewrite IH. rewrite filter_cons.
  destruct (decide (letter ∈ letters)) as [Hin|Hin]; [|done].
  rewrite fmap_cons.
  assert (∀ s : string, PyStr.truthy (s +:+ " - " +:+ ref letter) = true) as Htrue.
  { intros s. apply truthy_true. by destruct s. }
  assert (PyStr.truthy (ref letter) = true) as Htrue' by done.
  destruct (ref <$> filter (λ x, x ∈ letters) alphabet) as [|r rs] eqn:Hrest.
  - simpl. by destruct (PyStr.truthy refs).
  - destruct (PyStr.truthy refs).
    + change (refs +:+ " - :ref:`list_software_letter_" +:+ letter +:+ "`")
        with (refs +:+ " - " +:+ ref letter).
      rewrite Htrue. cbn [PyStr.join].
      by rewrite !string_app_assoc.
    + change (":ref:`list_software_letter_" +:+ letter +:+ "`") with (ref letter).
      rewrite Htrue'. done.
Qed.

(** X9.  The letter index of the reStructuredText catalog, built by a
    loop that puts [" - "] before every reference but the first, is the
    [" - "]-join of one reference per letter of the alphabet that is among
    [key_letters], in alphabetical order: the letters the Markdown catalog
    links to. *)
Theorem letter_refs_join (letters : list string) :
  letter_refs letters
  = PyStr.join " - " ((λ letter, ":ref:`list_software_letter_" +:+ letter +:+ "`")
                      <$> filter (λ x, x ∈ letters) ascii_lowercase).
Proof.
  unfold letter_refs. rewrite letter_refs_acc. simpl PyStr.truthy.
  by destruct (_ <$> filter _ ascii_lowercase).
Qed.

End SoftwareExtras.

Lemma list_software_txt_detailed_witness :
  (∀ key entries, (key, entries) ∈ MoreExamples.catalog → entries ≠ [])
  ∧ ∃ text, list_software_txt (H:=Examples.example_env) MoreExamples.catalog true
            = Return text.
Proof.
  assert (∀ key entries, (key, entries) ∈ MoreExamples.catalog → entries ≠ []) as Hne.
  { intros key entries Hin. unfold MoreExamples.catalog in Hin.
    repeat (apply elem_of_cons in Hin as [[= -> ->]|Hin]); [done..|].
    by apply elem_of_nil in Hin. }
  split; [exact Hne|].
  exact (proj2 (list_software_txt_detailed (H:=Examples.example_env) MoreExamples.catalog)
           Hne).
Defined.

Lemma list_software_md_rst_names_witness :
  (∀ key entries, (key, entries) ∈ MoreExamples.catalog →
     key ≠ "" ∧ (true = true → entries ≠ []))
  ∧ (∃ text, list_software_md (H:=Examples.example_env) MoreExamples.catalog true
             = Return text)
  ∧ (∃ text, list_software_rst (H:=Examples.example_env) MoreExamples.catalog true
             = Return text).
Proof.
  assert (∀ key entries, (key, entries) ∈ MoreExamples.catalog →
            key ≠ "" ∧ (true = true → entries ≠ [])) as Hok.
  { intros key entries Hin. unfold MoreExamples.catalog in Hin.
    repeat (apply elem_of_cons in Hin as [[= -> ->]|Hin]); [done..|].
    by apply elem_of_nil in Hin. }
  split; [exact Hok|].
  exact (proj2 (list_software_md_rst_names (H:=Examples.example_env) MoreExamples.catalog
                  true) Hok).
Defined.

Lemma key_letters_spec_witness :
  key_letters MoreExamples.catalog = Return ["b"; "f"; "z"]
  ∧ NoDup ["b"; "f"; "z"]
  ∧ StronglySorted String.le ["b"; "f"; "z"]
  ∧ ∀ letter, letter ∈ ["b"; "f"; "z"] ↔
      ∃ key entries, (key, entries) ∈ MoreExamples.catalog
                     ∧ first_lower key = Return letter.
Proof.
  assert (key_letters MoreExamples.catalog = Return ["b"; "f"; "z"]) as Hletters
    by (vm_compute; reflexivity).
  split; [exact Hletters|].
  exact (key_letters_spec MoreExamples.catalog ["b"; "f"; "z"] Hletters).
Defined.

(** ** What the detailed catalogs render for a software group *)

(** A loop each of whose steps appends lines that end with the block of
    its item leaves a document that has the block of every item. *)
Lemma rfold_blocks {S A} (f : S → A → result S) (lines : S → list string)
    (block : A → list string) (items : list A) :
  (∀ st item, item ∈ items →
     ∃ st1 mid, f st item = Return st1 ∧ lines st1 = lines st ++ mid ++ block item) →
  ∀ st, ∃ st',
    rfold f st items = Return st'
    ∧ (∃ suffix, lines st' = lines st ++ suffix)
    ∧ ∀ item, item ∈ items → has_lines (lines st') (block item).
Proof.
  induction items as [|item items IH]; intros Hstep st.
  - exists st. split; [done|]. split; [exists []; by rewrite app_nil_r|].
    intros item Hin. by apply elem_of_nil in Hin.
  - destruct (Hstep st item) as (st1 & mid & Hf & Hlines); [by left|].
    destruct (IH (λ st0 x Hx, Hstep st0 x (list_elem_of_further _ _ _ Hx)) st1)
      as (st' & Hfold & [suffix Hsuffix] & Hblocks).
    exists st'. cbn [rfold]. rewrite Hf, rbind_Return. split; [done|]. split.
    + exists ((mid ++ block item) ++ suffix). rewrite Hsuffix, Hlines.
      by rewrite <-!app_assoc.
    + intros x [->|Hx]%elem_of_cons; [|by apply Hblocks].
      exists (lines st ++ mid), suffix. rewrite Hsuffix, Hlines. by rewrite <-!app_assoc.
Qed.

Section CatalogBlocks.
Context `{!Externals}.
Implicit Types (software : list (string * list sw_entry)) (entries : list sw_entry).

(** The lines of a software group in the three detailed catalogs, as the
    loops over the keys append them. *)
Lemma list_software_md_key_block keys st key entries e :
  key ≠ "" → last entries = Some e →
  ∃ st1 mid,
    list_software_md_key true keys st (key, entries) = Return st1
    ∧ st1.2 = st.2 ++ mid
              ++ ([""; "### " +:+ key; "";
                   PyStr.lstrip_space (PyStr.join " " (PyStr.split_nl (sw_description e))); "";
                   "*homepage*: <" +:+ sw_homepage e +:+ ">"; ""]
                  ++ mk_md_table (software_table entries).1 (software_table entries).2).
Proof.
  intros Hkey Hlast. unfold list_software_md_key. cbn [fst snd].
  destruct key as [|a key]; [done|]. cbn [first_lower PyStr.first_char rbind Return].
  unfold last_entry. rewrite Hlast. cbn [rbind Return].
  destruct (decide (Some (PyStr.lower (String a "")) ≠ st.1)); cbn [fst snd].
  - eexists _, ([""; "## " +:+ PyStr.upper (PyStr.lower (String a "")); ""]
                ++ [""; PyStr.join " - "
                          ((λ k, "[" +:+ k +:+ "](#" +:+ PyStr.lower k +:+ ")")
                           <$> keys_of_letter (PyStr.lower (String a "")) keys); ""]).
    split; [reflexivity|]. cbn [fst snd].
    unfold md_title_and_table. by rewrite <-!app_assoc.
  - eexists _, []. split; [reflexivity|]. cbn [fst snd]. done.
Qed.

Lemma list_software_rst_key_block keys st key entries e :
  key ≠ "" → last entries = Some e →
  ∃ st1 mid,
    list_software_rst_key true keys st (key, entries) = Return st1
    ∧ st1.2 = st.2 ++ mid
              ++ (["*" +:+ key +:+ "*"; PyStr.repeat "+" (String.length key + 2); "";
                   PyStr.lstrip_space (PyStr.join " " (PyStr.split_nl (sw_description e))); "";
                   "*homepage*: " +:+ sw_homepage e; ""]
                  ++ mk_rst_table (software_table entries).1 (software_table entries).2).
Proof.
  intros Hkey Hlast. unfold list_software_rst_key. cbn [fst snd].
  destruct key as [|a key]; [done|]. cbn [first_lower PyStr.first_char rbind Return].
  unfold last_entry. rewrite Hlast. cbn [rbind Return].
  destruct (decide (Some (PyStr.lower (String a "")) ≠ st.1)); cbn [fst snd].
  - eexists _, (([""; ".. _list_software_letter_" +:+ PyStr.lower (String a "") +:+ ":"; "";
                  "*" +:+ PyStr.upper (PyStr.lower (String a "")) +:+ "*";
                  PyStr.repeat "-" 3; ""]
                 ++ [""; PyStr.join " - "
                           ((λ k, ":ref:`" +:+ key_to_ref k +:+ "`")
                            <$> keys_of_letter (PyStr.lower (String a "")) keys); ""])
                ++ [""; ".. _" +:+ key_to_ref (String a key) +:+ ":"; ""]).
    split; [reflexivity|]. cbn [fst snd].
    unfold rst_title_and_table. by rewrite <-!app_assoc.
  - eexists _, [""; ".. _" +:+ key_to_ref (String a key) +:+ ":"; ""].
    split; [reflexivity|]. cbn [fst snd]. unfold rst_title_and_table. done.
Qed.

Lemma list_software_txt_key_block lines key entries e :
  last entries = Some e →
  ∃ lines1 mid,
    list_software_txt_key true lines (key, entries) = Return lines1
    ∧ lines1 = lines ++ mid
               ++ (["* " +:+ key; ""; PyStr.join " " (PyStr.split_nl (sw_description e)); "";
                    "homepage: " +:+ sw_homepage e; ""]
                   ++ (list_software_txt_line key entries
                       <$> sorted_version_pairs (version_pairs entries))
                   ++ [""]).
Proof.
  intros Hlast. unfold list_software_txt_key. cbn [fst snd].
  unfold last_entry. rewrite Hlast. cbn [rbind Return].
  eexists _, []. split; [reflexivity|]. cbn [app]. by rewrite <-!app_assoc.
Qed.

(** The three detailed catalogs return, and each has the lines of every
    software group. *)
Lemma detailed_catalog_blocks software :
  (∀ key entries, (key, entries) ∈ software → key ≠ "" ∧ entries ≠ []) →
  ∃ md rst txt : list string,
    list_software_md software true = Return (PyStr.join nl md)
    ∧ list_software_rst software true = Return (PyStr.join nl rst)
    ∧ list_software_txt software true = Return (PyStr.join nl txt)
    ∧ ∀ key entries e, (key, entries) ∈ software → last entries = Some e →
        has_lines md
          ([""; "### " +:+ key; "";
            PyStr.lstrip_space (PyStr.join " " (PyStr.split_nl (sw_description e))); "";
            "*homepage*: <" +:+ sw_homepage e +:+ ">"; ""]
           ++ mk_md_table (software_table entries).1 (software_table entries).2)
        ∧ has_lines rst
            (["*" +:+ key +:+ "*"; PyStr.repeat "+" (String.length key + 2); "";
              PyStr.lstrip_space (PyStr.join " " (PyStr.split_nl (sw_description e))); "";
              "*homepage*: " +:+ sw_homepage e; ""]
             ++ mk_rst_table (software_table entries).1 (software_table entries).2)
        ∧ has_lines txt
            (["* " +:+ key; ""; PyStr.join " " (PyStr.split_nl (sw_description e)); "";
              "homepage: " +:+ sw_homepage e; ""]
             ++ (list_software_txt_line key entries
                 <$> sorted_version_pairs (version_pairs entries))
             ++ [""]).
Proof.
  intros Hok.
  assert (∀ item : string * list sw_entry, item ∈ software_sorted software →
            item.1 ≠ "" ∧ ∃ e, last item.2 = Some e) as Hitems.
  { intros [key entries] Hin%elem_of_py_sorted. destruct (Hok key entries Hin) as [Hkey Hne].
    split; [done|]. destruct (last entries) as [e|] eqn:Hlast; [by eexists|].
    by apply last_None in Hlast. }
  destruct (key_letters_returns software) as [letters Hletters].
  { intros key entries Hin. by destruct (Hok key entries Hin). }
  set (md_block := λ item : string * list sw_entry,
         match last item.2 with
         | Some e =>
             [""; "### " +:+ item.1; "";
              PyStr.lstrip_space (PyStr.join " " (PyStr.split_nl (sw_description e))); "";
              "*homepage*: <" +:+ sw_homepage e +:+ ">"; ""]
             ++ mk_md_table (software_table item.2).1 (software_table item.2).2
         | None => []
         end).
  set (rst_block := λ item : string * list sw_entry,
         match last item.2 with
         | Some e =>
             ["*" +:+ item.1 +:+ "*"; PyStr.repeat "+" (String.length item.1 + 2); "";
              PyStr.lstrip_space (PyStr.join " " (PyStr.split_nl (sw_description e))); "";
              "*homepage*: " +:+ sw_homepage e; ""]
             ++ mk_rst_table (software_table item.2).1 (software_table item.2).2
         | None => []
         end).
  set (txt_block := λ item : string * list sw_entry,
         match last item.2 with
         | Some e =>
             ["* " +:+ item.1; ""; PyStr.join " " (PyStr.split_nl (sw_description e)); "";
              "homepage: " +:+ sw_homepage e; ""]
             ++ (list_software_txt_line item.1 item.2
                 <$> sorted_version_pairs (version_pairs item.2))
             ++ [""]
         | None => []
         end).
  unfold list_software_md, list_software_rst, list_software_txt.
  rewrite Hletters, !rbind_Return.
  match goal with
  | |- context [rfold (list_software_md_key true ?keys) ?st0 _] =>
      destruct (rfold_blocks (list_software_md_key true keys) snd md_block
                  (software_sorted software)) with (st := st0)
        as (st_md & -> & _ & Hmd)
  end.
  { intros st [key entries] Hin. destruct (Hitems _ Hin) as [Hkey [e He]].
    subst md_block. cbn beta. cbn [fst snd] in *. rewrite He.
    by apply list_software_md_key_block. }
  match goal with
  | |- context [rfold (list_software_rst_key true ?keys) ?st0 _] =>
      destruct (rfold_blocks (list_software_rst_key true keys) snd rst_block
                  (software_sorted software)) with (st := st0)
        as (st_rst & -> & _ & Hrst)
  end.
  { intros st [key entries] Hin. destruct (Hitems _ Hin) as [Hkey [e He]].
    subst rst_block. cbn beta. cbn [fst snd] in *. rewrite He.
    by apply list_software_rst_key_block. }
  destruct (rfold_blocks (list_software_txt_key true) id txt_block
              (software_sorted software)) with (st := [""])
    as (st_txt & -> & _ & Htxt).
  { intros lines [key entries] Hin. destruct (Hitems _ Hin) as [Hkey [e He]].
    subst txt_block. cbn beta. cbn [fst snd] in *. rewrite He.
    by apply list_software_txt_key_block. }
  rewrite !rbind_Return. exists st_md.2, st_rst.2, st_txt.
  split; [done|]. split; [done|]. split; [done|].
  intros key entries e Hin He.
  assert ((key, entries) ∈ software_sorted software) as Hin' by by apply elem_of_py_sorted.
  specialize (Hmd _ Hin'). specialize (Hrst _ Hin'). specialize (Htxt _ Hin').
  subst md_block rst_block txt_block. cbn beta in *. cbn [fst snd] in *.
  rewrite He in Hmd, Hrst, Htxt. done.
Qed.

End CatalogBlocks.

(** ** The rows of a software group *)

Lemma StronglySorted_Forall {A} (R : relation A) (P : A → Prop) l :
  StronglySorted R l → Forall P l → StronglySorted (λ a b, P a ∧ P b ∧ R a b) l.
Proof.
  induction 1 as [|x l Hl IH Hx]; intros HP; [constructor|].
  apply Forall_cons in HP as [Px Pl]. constructor; [by apply IH|].
  apply Forall_forall. intros y Hy. split; [done|]. split.
  - by eapply Forall_forall in Pl.
  - by eapply Forall_forall in Hx.
Qed.

Lemma StronglySorted_lookup {A} (R : relation A) l i j x y :
  StronglySorted R l → i < j → l !! i = Some x → l !! j = Some y → R x y.
Proof.
  intros Hl. revert i j. induction Hl as [|z l Hl IH Hz]; intros i j Hij Hi Hj; [done|].
  destruct j as [|j]; [lia|]. destruct i as [|i]; simpl in *.
  - injection Hi as ->. eapply Forall_forall in Hz; [done|]. by eapply list_elem_of_lookup_2.
  - apply (IH i j); [lia|done..].
Qed.

Section GroupRows.
Context `{!Externals}.
Implicit Types (entries : list sw_entry).

Lemma version_rows_NoDup entries : NoDup (version_rows entries).
Proof.
  unfold version_rows. rewrite sorted_version_pairs_perm. apply NoDup_nub.
Qed.

Lemma elem_of_version_rows entries p :
  p ∈ version_rows entries ↔ ∃ x, x ∈ entries ∧ p = (sw_version x, sw_versionsuffix x).
Proof.
  unfold version_rows. rewrite sorted_version_pairs_perm. apply elem_of_version_pairs.
Qed.

Lemma version_rows_sorted entries :
  (∀ a b, version_cmp b a = CompOpp (version_cmp a b)) →
  (∀ a b c, version_cmp a b ≠ Gt → version_cmp b c ≠ Gt → version_cmp a c ≠ Gt) →
  StronglySorted (λ a b : string * string,
     version_cmp a.1 b.1 = Lt ∨ version_cmp a.1 b.1 = Eq ∧ String.compare a.2 b.2 ≠ Gt)
    (version_rows entries).
Proof.
  intros Hantisym Htrans. unfold version_rows.
  pose proof (sorted_version_pairs_order Hantisym Htrans (version_pairs entries)) as Hsorted.
  apply (StronglySorted_Forall _ (λ t : version_triple, t.1.1 = t.2)) in Hsorted.
  - eapply StronglySorted_fmap; [|exact Hsorted].
    intros a b (Ha & Hb & Hab). cbn [fst snd] in *. by rewrite <-Ha, <-Hb.
  - apply Forall_forall. intros t Ht. by apply elem_of_sorted_version_pairs in Ht as [? _].
Qed.

(** The version table in terms of the rows. *)
Lemma software_table_rows entries :
  software_table entries =
    if any_vsuff (version_pairs entries) then
      (["version"; "versionsuffix"; "toolchain"],
       [(λ p : string * string, "``" +:+ p.1 +:+ "``") <$> version_rows entries;
        (λ p : string * string, if PyStr.truthy p.2 then "``" +:+ p.2 +:+ "``" else "")
          <$> version_rows entries;
        (λ p : string * string, toolchain_cell entries p.1 p.2) <$> version_rows entries])
    else
      (["version"; "toolchain"],
       [(λ p : string * string, "``" +:+ p.1 +:+ "``") <$> version_rows entries;
        (λ p : string * string, toolchain_cell entries p.1 p.2) <$> version_rows entries]).
Proof.
  rewrite software_table_eq. unfold version_rows. rewrite <-!list_fmap_compose.
  by destruct (any_vsuff (version_pairs entries)).
Qed.

(** The lines of the plain-text list in terms of the rows. *)
Lemma list_software_txt_lines_rows key entries :
  list_software_txt_line key entries <$> sorted_version_pairs (version_pairs entries)
  = (λ p : string * string,
       (if PyStr.truthy p.2
        then ("  * " +:+ key +:+ " v" +:+ p.1) +:+ " (versionsuffix: '" +:+ p.2 +:+ "')"
        else "  * " +:+ key +:+ " v" +:+ p.1)
       +:+ ": " +:+ PyStr.join ", " (sorted_toolchains entries p.1 p.2))
    <$> version_rows entries.
Proof. unfold version_rows. by rewrite <-list_fmap_compose. Qed.

End GroupRows.

(** ** The version lists of the detailed catalogs *)

Section SoftwareClaims.
Context `{!Externals}.
Implicit Types (software : list (string * list sw_entry)) (entries : list sw_entry).

(** What the three detailed catalogs have for a software name, in terms
    of the rows of its version table. *)
Lemma detailed_catalog_rows software :
  (∀ key entries, (key, entries) ∈ software → key ≠ "" ∧ entries ≠ []) →
  ∃ md rst txt : list string,
    list_software_md software true = Return (PyStr.join nl md)
    ∧ list_software_rst software true = Return (PyStr.join nl rst)
    ∧ list_software_txt software true = Return (PyStr.join nl txt)
    ∧ ∀ key entries e, (key, entries) ∈ software → last entries = Some e →
        let rows := version_rows entries in
        let versions := (λ p : string * string, "``" +:+ p.1 +:+ "``") <$> rows in
        let suffixes :=
          (λ p : string * string, if PyStr.truthy p.2 then "``" +:+ p.2 +:+ "``" else "")
            <$> rows in
        let toolchains := (λ p : string * string, toolchain_cell entries p.1 p.2) <$> rows in
        let description := PyStr.join " " (PyStr.split_nl (sw_description e)) in
        let md_head := [""; "### " +:+ key; ""; PyStr.lstrip_space description; "";
                        "*homepage*: <" +:+ sw_homepage e +:+ ">"; ""] in
        let rst_head := ["*" +:+ key +:+ "*"; PyStr.repeat "+" (String.length key + 2); "";
                         PyStr.lstrip_space description; "";
                         "*homepage*: " +:+ sw_homepage e; ""] in
        let txt_head := ["* " +:+ key; ""; description; ""; "homepage: " +:+ sw_homepage e; ""] in
        has_lines txt
          (txt_head
           ++ ((λ p : string * string,
                  (if PyStr.truthy p.2
                   then ("  * " +:+ key +:+ " v" +:+ p.1)
                        +:+ " (versionsuffix: '" +:+ p.2 +:+ "')"
                   else "  * " +:+ key +:+ " v" +:+ p.1)
                  +:+ ": " +:+ PyStr.join ", " (sorted_toolchains entries p.1 p.2)) <$> rows)
           ++ [""])
        ∧ ((∃ x, x ∈ entries ∧ sw_versionsuffix x ≠ "") →
           has_lines md (md_head ++ mk_md_table ["version"; "versionsuffix"; "toolchain"]
                                      [versions; suffixes; toolchains])
           ∧ has_lines rst (rst_head ++ mk_rst_table ["version"; "versionsuffix"; "toolchain"]
                                          [versions; suffixes; toolchains]))
        ∧ ((∀ x, x ∈ entries → sw_versionsuffix x = "") →
           has_lines md (md_head ++ mk_md_table ["version"; "toolchain"] [versions; toolchains])
           ∧ has_lines rst (rst_head ++ mk_rst_table ["version"; "toolchain"]
                                          [versions; toolchains])).
Proof.
  intros Hok.
  destruct (detailed_catalog_blocks software Hok)
    as (md & rst & txt & Hmd & Hrst & Htxt & Hblocks).
  exists md, rst, txt. split; [done|]. split; [done|]. split; [done|].
  intros key entries e Hin He. cbn zeta.
  destruct (Hblocks key entries e Hin He) as (Bmd & Brst & Btxt).
  rewrite list_software_txt_lines_rows in Btxt. split; [exact Btxt|].
  rewrite software_table_rows in Bmd, Brst.
  destruct (any_vsuff (version_pairs entries)) eqn:Hany; cbn [fst snd] in Bmd, Brst.
  - split; [done|]. intros Hnone. apply any_vsuff_spec in Hany as (x & Hx & Hvs).
    by destruct Hvs; apply Hnone.
  - split; [|done]. intros Hsome%any_vsuff_spec. congruence.
Qed.

(** C2.  With the comparison of versions the spec describes, and for a
    catalog none of whose names is empty or has no entry, the three
    detailed catalogs are made, and each has for every software name its
    heading followed by its versions: one row per distinct pair of version
    and versionsuffix of its entries, in ascending order of the versions
    as that comparison has them (so that a row of version 2.0 comes before
    a row of version 10.0), rows of versions that compare equal in
    ascending order of the versionsuffix.  The rows are the lines of the
    plain-text list and the cells of the columns handed to the table
    printers; the tables have the column [versionsuffix] where some entry
    of the name has a versionsuffix that is not empty, and no such column
    where none has. *)
Theorem list_software_versions_ascending software :
  (∀ a b, version_cmp a b = Examples.loose_version_cmp a b) →
  (∀ key entries, (key, entries) ∈ software → key ≠ "" ∧ entries ≠ []) →
  ∃ md rst txt : list string,
    list_software_md software true = Return (PyStr.join nl md)
    ∧ list_software_rst software true = Return (PyStr.join nl rst)
    ∧ list_software_txt software true = Return (PyStr.join nl txt)
    ∧ ∀ key entries e, (key, entries) ∈ software → last entries = Some e →
        ∃ rows : list (string * string),
          NoDup rows
          ∧ (∀ p, p ∈ rows ↔ ∃ x, x ∈ entries ∧ p = (sw_version x, sw_versionsuffix x))
          ∧ StronglySorted (λ a b : string * string,
               Examples.loose_version_cmp a.1 b.1 = Lt
               ∨ Examples.loose_version_cmp a.1 b.1 = Eq ∧ String.compare a.2 b.2 ≠ Gt) rows
          ∧ (∀ i j vs vs',
               rows !! i = Some ("2.0", vs) → rows !! j = Some ("10.0", vs') → i < j)
          ∧ let versions := (λ p : string * string, "``" +:+ p.1 +:+ "``") <$> rows in
            let suffixes :=
              (λ p : string * string, if PyStr.truthy p.2 then "``" +:+ p.2 +:+ "``" else "")
                <$> rows in
            let toolchains :=
              (λ p : string * string, toolchain_cell entries p.1 p.2) <$> rows in
            let description := PyStr.join " " (PyStr.split_nl (sw_description e)) in
            let md_head := [""; "### " +:+ key; ""; PyStr.lstrip_space description; "";
                            "*homepage*: <" +:+ sw_homepage e +:+ ">"; ""] in
            let rst_head := ["*" +:+ key +:+ "*"; PyStr.repeat "+" (String.length key + 2); "";
                             PyStr.lstrip_space description; "";
                             "*homepage*: " +:+ sw_homepage e; ""] in
            let txt_head :=
              ["* " +:+ key; ""; description; ""; "homepage: " +:+ sw_homepage e; ""] in
            has_lines txt
              (txt_head
               ++ ((λ p : string * string,
                      (if PyStr.truthy p.2
                       then ("  * " +:+ key +:+ " v" +:+ p.1)
                            +:+ " (versionsuffix: '" +:+ p.2 +:+ "')"
                       else "  * " +:+ key +:+ " v" +:+ p.1)
                      +:+ ": " +:+ PyStr.join ", " (sorted_toolchains entries p.1 p.2))
                   <$> rows)
               ++ [""])
            ∧ ((∃ x, x ∈ entries ∧ sw_versionsuffix x ≠ "") →
               has_lines md (md_head ++ mk_md_table ["version"; "versionsuffix"; "toolchain"]
                                          [versions; suffixes; toolchains])
               ∧ has_lines rst (rst_head
                                ++ mk_rst_table ["version"; "versionsuffix"; "toolchain"]
                                     [versions; suffixes; toolchains]))
            ∧ ((∀ x, x ∈ entries → sw_versionsuffix x = "") →
               has_lines md (md_head ++ mk_md_table ["version"; "toolchain"]
                                          [versions; toolchains])
               ∧ has_lines rst (rst_head ++ mk_rst_table ["version"; "toolchain"]
                                              [versions; toolchains])).
Proof.
  intros Hcmp Hok.
  assert (∀ a b, version_cmp b a = CompOpp (version_cmp a b)) as Hantisym.
  { intros a b. rewrite !Hcmp. apply loose_version_cmp_antisym. }
  assert (∀ a b c, version_cmp a b ≠ Gt → version_cmp b c ≠ Gt → version_cmp a c ≠ Gt)
    as Htrans.
  { intros a b c. rewrite !Hcmp. apply loose_version_cmp_le_trans. }
  destruct (detailed_catalog_rows software Hok)
    as (md & rst & txt & Hmd & Hrst & Htxt & Hrows).
  exists md, rst, txt. split; [done|]. split; [done|]. split; [done|].
  intros key entries e Hin He. exists (version_rows entries).
  assert (StronglySorted (λ a b : string * string,
            Examples.loose_version_cmp a.1 b.1 = Lt
            ∨ Examples.loose_version_cmp a.1 b.1 = Eq ∧ String.compare a.2 b.2 ≠ Gt)
            (version_rows entries)) as Hsorted.
  { eapply StronglySorted_weaken; [|apply (version_rows_sorted entries Hantisym Htrans)].
    intros a b Hab. cbn beta in *. by rewrite <-!Hcmp. }
  split; [apply version_rows_NoDup|]. split; [apply elem_of_version_rows|].
  split; [exact Hsorted|]. split; [|exact (Hrows key entries e Hin He)].
  intros i j vs vs' Hi Hj.
  destruct (decide (i < j)) as [|Hge]; [done|]. exfalso.
  destruct (decide (i = j)) as [->|Hne]; [congruence|].
  assert (j < i) as Hlt by lia.
  pose proof (StronglySorted_lookup _ _ _ _ _ _ Hsorted Hlt Hj Hi) as Hord.
  cbn [fst snd] in Hord.
  assert (Examples.loose_version_cmp "10.0" "2.0" = Gt) as Hgt by (vm_compute; reflexivity).
  rewrite Hgt in Hord. by destruct Hord as [?|[? _]].
Qed.

(** C4.  For a catalog none of whose names is empty or has no entry, the
    three detailed catalogs are made, and each has for every software name
    its heading followed by its versions, one row per distinct pair of
    version and versionsuffix of its entries.  The toolchain cell of a row
    (in the last column handed to the table printers), and the end of its
    line in the plain-text list, is the join of the labels of the row: the
    toolchains of the entries of the name with exactly the version and the
    versionsuffix of the row, each once, in ascending order, however often
    an entry with that label occurs. *)
Theorem list_software_toolchain_cells software :
  (∀ key entries, (key, entries) ∈ software → key ≠ "" ∧ entries ≠ []) →
  ∃ md rst txt : list string,
    list_software_md software true = Return (PyStr.join nl md)
    ∧ list_software_rst software true = Return (PyStr.join nl rst)
    ∧ list_software_txt software true = Return (PyStr.join nl txt)
    ∧ ∀ key entries e, (key, entries) ∈ software → last entries = Some e →
        ∃ (rows : list (string * string)) (labels : string → string → list string),
          NoDup rows
          ∧ (∀ p, p ∈ rows ↔ ∃ x, x ∈ entries ∧ p = (sw_version x, sw_versionsuffix x))
          ∧ (∀ ver vsuff,
               NoDup (labels ver vsuff)
               ∧ StronglySorted String.le (labels ver vsuff)
               ∧ ∀ tc, tc ∈ labels ver vsuff ↔
                       ∃ x, x ∈ entries ∧ sw_version x = ver ∧ sw_versionsuffix x = vsuff
                            ∧ sw_toolchain x = tc)
          ∧ let versions := (λ p : string * string, "``" +:+ p.1 +:+ "``") <$> rows in
            let suffixes :=
              (λ p : string * string, if PyStr.truthy p.2 then "``" +:+ p.2 +:+ "``" else "")
                <$> rows in
            let toolchains :=
              (λ p : string * string,
                 PyStr.join ", " ((λ tc, "``" +:+ tc +:+ "``") <$> labels p.1 p.2))
                <$> rows in
            let description := PyStr.join " " (PyStr.split_nl (sw_description e)) in
            let md_head := [""; "### " +:+ key; ""; PyStr.lstrip_space description; "";
                            "*homepage*: <" +:+ sw_homepage e +:+ ">"; ""] in
            let rst_head := ["*" +:+ key +:+ "*"; PyStr.repeat "+" (String.length key + 2); "";
                             PyStr.lstrip_space description; "";
                             "*homepage*: " +:+ sw_homepage e; ""] in
            let txt_head :=
              ["* " +:+ key; ""; description; ""; "homepage: " +:+ sw_homepage e; ""] in
            has_lines txt
              (txt_head
               ++ ((λ p : string * string,
                      (if PyStr.truthy p.2
                       then ("  * " +:+ key +:+ " v" +:+ p.1)
                            +:+ " (versionsuffix: '" +:+ p.2 +:+ "')"
                       else "  * " +:+ key +:+ " v" +:+ p.1)
                      +:+ ": " +:+ PyStr.join ", " (labels p.1 p.2))
                   <$> rows)
               ++ [""])
            ∧ ((∃ x, x ∈ entries ∧ sw_versionsuffix x ≠ "") →
               has_lines md (md_head ++ mk_md_table ["version"; "versionsuffix"; "toolchain"]
                                          [versions; suffixes; toolchains])
               ∧ has_lines rst (rst_head
                                ++ mk_rst_table ["version"; "versionsuffix"; "toolchain"]
                                     [versions; suffixes; toolchains]))
            ∧ ((∀ x, x ∈ entries → sw_versionsuffix x = "") →
               has_lines md (md_head ++ mk_md_table ["version"; "toolchain"]
                                          [versions; toolchains])
               ∧ has_lines rst (rst_head ++ mk_rst_table ["version"; "toolchain"]
                                              [versions; toolchains])).
Proof.
  intros Hok.
  destruct (detailed_catalog_rows software Hok)
    as (md & rst & txt & Hmd & Hrst & Htxt & Hrows).
  exists md, rst, txt. split; [done|]. split; [done|]. split; [done|].
  intros key entries e Hin He.
  exists (version_rows entries), (sorted_toolchains entries).
  split; [apply version_rows_NoDup|]. split; [apply elem_of_version_rows|].
  split; [|exact (Hrows key entries e Hin He)].
  intros ver vsuff. split; [apply NoDup_py_sorted, NoDup_nub|].
  split; [apply sorted_strings_sorted|apply elem_of_sorted_toolchains].
Qed.

End SoftwareClaims.

(** Two recipes of Foo, versions 2.0 and 10.0, no versionsuffix: the row
    of 2.0 comes first in all three catalogs, although ["10.0" < "2.0"] as
    strings, and the tables have no versionsuffix column. *)
Lemma list_software_versions_ascending_witness :
  (∀ a b, version_cmp (Externals:=Examples.example_env) a b = Examples.loose_version_cmp a b)
  ∧ (∀ key entries, (key, entries) ∈ [("Foo", Examples.foo_versions)] →
       key ≠ "" ∧ entries ≠ [])
  ∧ String.ltb "10.0" "2.0" = true
  ∧ ∃ md rst txt : list string,
      list_software_md (H:=Examples.example_env) [("Foo", Examples.foo_versions)] true
      = Return (PyStr.join nl md)
      ∧ list_software_rst (H:=Examples.example_env) [("Foo", Examples.foo_versions)] true
        = Return (PyStr.join nl rst)
      ∧ list_software_txt (H:=Examples.example_env) [("Foo", Examples.foo_versions)] true
        = Return (PyStr.join nl txt)
      ∧ has_lines md
          [""; "### Foo"; ""; "Foo"; ""; "*homepage*: <https://foo.example>"; "";
           "version | toolchain"; "``2.0`` | ``GCC/12.3.0``"; "``10.0`` | ``GCC/12.3.0``"]
      ∧ has_lines rst
          ["*Foo*"; "+++++"; ""; "Foo"; ""; "*homepage*: https://foo.example"; "";
           "version | toolchain"; "``2.0`` | ``GCC/12.3.0``"; "``10.0`` | ``GCC/12.3.0``"]
      ∧ has_lines txt
          ["* Foo"; ""; "Foo"; ""; "homepage: https://foo.example"; "";
           "  * Foo v2.0: GCC/12.3.0"; "  * Foo v10.0: GCC/12.3.0"; ""].
Proof.
  assert (∀ a b, version_cmp (Externals:=Examples.example_env) a b
                 = Examples.loose_version_cmp a b) as Hcmp by done.
  assert (∀ key entries, (key, entries) ∈ [("Foo", Examples.foo_versions)] →
            key ≠ "" ∧ entries ≠ []) as Hok.
  { intros key entries [= -> ->]%list_elem_of_singleton. done. }
  split; [exact Hcmp|]. split; [exact Hok|]. split; [reflexivity|].
  destruct (list_software_versions_ascending (H:=Examples.example_env) _ Hcmp Hok)
    as (md & rst & txt & Hmd & Hrst & Htxt & Hgroups).
  exists md, rst, txt. split; [exact Hmd|]. split; [exact Hrst|]. split; [exact Htxt|].
  destruct (Hgroups "Foo" Examples.foo_versions
              (SwEntry "GCC/12.3.0" "Foo" "https://foo.example" "2.0" ""))
    as (rows & Hnd & Hmem & _ & Hbefore & Hlines);
    [by apply list_elem_of_singleton|reflexivity|].
  assert (rows = [("2.0", ""); ("10.0", "")]) as ->.
  { assert ([("10.0", ""); ("2.0", "")] ≡ₚ rows) as Hperm.
    { apply NoDup_Permutation; [|done|].
      - refine (bool_decide_unpack _ _). vm_compute. exact I.
      - intros p. rewrite Hmem. unfold Examples.foo_versions. split.
        + rewrite !elem_of_cons, elem_of_nil. intros [->|[->|[]]].
          * exists (SwEntry "GCC/12.3.0" "Foo" "https://foo.example" "10.0" "").
            split; [set_solver|done].
          * exists (SwEntry "GCC/12.3.0" "Foo" "https://foo.example" "2.0" "").
            split; [set_solver|done].
        + intros (x & Hx & ->). revert Hx. rewrite !elem_of_cons, elem_of_nil.
          intros [->|[->|[]]]; set_solver. }
    apply Permutation_length_2_inv in Hperm as [->| ->]; [|done].
    pose proof (Hbefore 1 0 "" "" eq_refl eq_refl). lia. }
  cbn zeta in Hlines. destruct Hlines as (Ltxt & _ & Hplain).
  destruct Hplain as [Lmd Lrst].
  { unfold Examples.foo_versions.
    intros x. rewrite !elem_of_cons, elem_of_nil. by intros [->|[->|[]]]. }
  split; [exact Lmd|]. split; [exact Lrst|exact Ltxt].
Defined.

(** Foo 1.0 under gompat/2023a (two recipe files) and foss/2023a: one row,
    whose cell and whose line list both labels once, in ascending order. *)
Lemma list_software_toolchain_cells_witness :
  (∀ key entries, (key, entries) ∈ [("Foo", Examples.foo_toolchains)] →
     key ≠ "" ∧ entries ≠ [])
  ∧ ∃ md rst txt : list string,
      list_software_md (H:=Examples.example_env) [("Foo", Examples.foo_toolchains)] true
      = Return (PyStr.join nl md)
      ∧ list_software_rst (H:=Examples.example_env) [("Foo", Examples.foo_toolchains)] true
        = Return (PyStr.join nl rst)
      ∧ list_software_txt (H:=Examples.example_env) [("Foo", Examples.foo_toolchains)] true
        = Return (PyStr.join nl txt)
      ∧ has_lines md
          [""; "### Foo"; ""; "Foo"; ""; "*homepage*: <https://foo.example>"; "";
           "version | toolchain"; "``1.0`` | ``foss/2023a``, ``gompat/2023a``"]
      ∧ has_lines rst
          ["*Foo*"; "+++++"; ""; "Foo"; ""; "*homepage*: https://foo.example"; "";
           "version | toolchain"; "``1.0`` | ``foss/2023a``, ``gompat/2023a``"]
      ∧ has_lines txt
          ["* Foo"; ""; "Foo"; ""; "homepage: https://foo.example"; "";
           "  * Foo v1.0: foss/2023a, gompat/2023a"; ""].
Proof.
  assert (∀ key entries, (key, entries) ∈ [("Foo", Examples.foo_toolchains)] →
            key ≠ "" ∧ entries ≠ []) as Hok.
  { intros key entries [= -> ->]%list_elem_of_singleton. done. }
  split; [exact Hok|].
  destruct (list_software_toolchain_cells (H:=Examples.example_env) _ Hok)
    as (md & rst & txt & Hmd & Hrst & Htxt & Hgroups).
  exists md, rst, txt. split; [exact Hmd|]. split; [exact Hrst|]. split; [exact Htxt|].
  destruct (Hgroups "Foo" Examples.foo_toolchains
              (SwEntry "gompat/2023a" "Foo" "https://foo.example" "1.0" ""))
    as (rows & labels & Hnd & Hmem & Hlabels & Hlines);
    [by apply list_elem_of_singleton|reflexivity|].
  assert (rows = [("1.0", "")]) as ->.
  { assert ([("1.0", "")] ≡ₚ rows) as Hperm.
    { apply NoDup_Permutation; [apply NoDup_singleton|done|].
      intros p. rewrite Hmem. unfold Examples.foo_toolchains. split.
      - intros ->%list_elem_of_singleton.
        exists (SwEntry "foss/2023a" "Foo" "https://foo.example" "1.0" "").
        split; [set_solver|done].
      - intros (x & Hx & ->). apply list_elem_of_singleton.
        revert Hx. rewrite !elem_of_cons, elem_of_nil. by intros [->|[->|[->|[]]]]. }
    by apply Permutation_length_1_inv in Hperm. }
  destruct (Hlabels "1.0" "") as (Hlnd & Hlsorted & Hlmem).
  assert (labels "1.0" "" = ["foss/2023a"; "gompat/2023a"]) as Hl.
  { assert (["foss/2023a"; "gompat/2023a"] ≡ₚ labels "1.0" "") as Hperm.
    { apply NoDup_Permutation; [|done|].
      - refine (bool_decide_unpack _ _). vm_compute. exact I.
      - intros tc. rewrite Hlmem. unfold Examples.foo_toolchains. split.
        + rewrite !elem_of_cons, elem_of_nil. intros [->|[->|[]]].
          * exists (SwEntry "foss/2023a" "Foo" "https://foo.example" "1.0" "").
            split; [set_solver|done].
          * exists (SwEntry "gompat/2023a" "Foo" "https://foo.example" "1.0" "").
            split; [set_solver|done].
        + intros (x & Hx & _ & _ & <-). revert Hx. rewrite !elem_of_cons, elem_of_nil.
          intros [->|[->|[->|[]]]]; set_solver. }
    apply Permutation_length_2_inv in Hperm as [Heq|Heq]; [done|].
    rewrite Heq in Hlsorted. apply StronglySorted_inv in Hlsorted as [_ Hle].
    apply Forall_cons in Hle as [Hle _]. vm_compute in Hle. destruct Hle. }
  cbn zeta in Hlines. cbn [fmap list_fmap fst snd] in Hlines. rewrite Hl in Hlines.
  destruct Hlines as (Ltxt & _ & Hplain).
  destruct Hplain as [Lmd Lrst].
  { unfold Examples.foo_toolchains. intros x. rewrite !elem_of_cons, elem_of_nil.
    by intros [->|[->|[->|[]]]]. }
  split; [exact Lmd|]. split; [exact Lrst|exact Ltxt].
Defined.

(** ** More on the renderers of the parameter catalog *)

Section SortedItems.
Context {A B : Type} (f : A → B) (lt : B → B → bool).

Lemma sorted_insert_fmap x l :
  f <$> sorted_insert (λ a b, lt (f a) (f b)) x l = sorted_insert lt (f x) (f <$> l).
Proof.
  induction l as [|y l IH]; [done|].
  rewrite fmap_cons. cbn [sorted_insert].
  destruct (lt (f x) (f y)); rewrite !fmap_cons; [done|]. by rewrite IH.
Qed.

Lemma py_sorted_acc_fmap acc l :
  f <$> foldl (λ acc x, sorted_insert (λ a b, lt (f a) (f b)) x acc) acc l
  = foldl (λ acc x, sorted_insert lt x acc) (f <$> acc) (f <$> l).
Proof.
  revert acc. induction l as [|x l IH]; intros acc; [done|].
  rewrite fmap_cons. cbn [foldl]. by rewrite IH, sorted_insert_fmap.
Qed.

(** Sorting by a key and then taking the keys is sorting the keys. *)
Lemma py_sorted_fmap l :
  f <$> py_sorted (λ a b, lt (f a) (f b)) l = py_sorted lt (f <$> l).
Proof. apply py_sorted_acc_fmap. Qed.

End SortedItems.

Section ParamsExtras.
Context `{!Externals}.
Implicit Types (g : gmap string (string * pyval)) (grouped : grouped_dict).
Implicit Types (alt : gmap string string).

Lemma sorted_keys_items {V} (d : gmap string V) : sorted_keys d = (sorted_items d).*1.
Proof.
  unfold sorted_keys, sorted_items.
  by rewrite (py_sorted_fmap (fst : string * V → string) String.ltb).
Qed.

Lemma sorted_items_values {V} (d : gmap string V) :
  omap (λ k, d !! k) (sorted_keys d) = (sorted_items d).*2.
Proof.
  rewrite sorted_keys_items.
  assert (∀ kv, kv ∈ sorted_items d → d !! kv.1 = Some kv.2) as Hall.
  { intros kv. apply elem_of_sorted_items. }
  induction (sorted_items d) as [|kv items IH]; simpl; [done|].
  rewrite (Hall kv) by by left. simpl. f_equal. apply IH. intros ??. apply Hall. by right.
Qed.

Lemma sorted_items_keys_NoDup {V} (d : gmap string V) : NoDup (sorted_items d).*1.
Proof.
  rewrite <-sorted_keys_items. unfold sorted_keys.
  apply NoDup_py_sorted, NoDup_fst_map_to_list.
Qed.

Lemma sorted_items_keys_sorted {V} (d : gmap string V) :
  StronglySorted String.le (sorted_items d).*1.
Proof. rewrite <-sorted_keys_items. apply sorted_strings_sorted. Qed.

Lemma sorted_items_length {V} (d : gmap string V) : length (sorted_items d) = size d.
Proof. unfold sorted_items. by rewrite py_sorted_perm, length_map_to_list. Qed.

(** X10.  The tables of the Markdown and reStructuredText catalogs are
    made row by row: each of the four columns handed to the table printer
    has one cell per parameter of the group, the cells of one row belong to
    the same parameter, and the rows come in ascending order of the
    parameter names, every parameter of the group once. *)
Theorem params_tables_by_parameter alt (grp : string * gmap string (string * pyval)) :
  let items := sorted_items grp.2 in
  avail_easyconfig_params_rst_group alt grp
  = rst_title_and_table (Some (grp.1 +:+ " parameters")) params_table_titles
      [ (λ item : string * (string * pyval), "``" +:+ item.1 +:+ "``") <$> items;
        (λ item : string * (string * pyval), item.2.1) <$> items;
        (λ item : string * (string * pyval), str_quote_str item.2.2) <$> items;
        (λ item : string * (string * pyval),
           match alt !! item.1 with
           | Some a => "``" +:+ a +:+ "``"
           | None => ""
           end) <$> items ] ++ [""]
  ∧ (∀ c, PyStr.first_char grp.1 = Return c →
       avail_easyconfig_params_md_group alt grp
       = Return (md_title_and_table
                   (Some (PyStr.upper c +:+ PyStr.tail grp.1 +:+ " parameters"))
                   params_table_titles
           [ (λ item : string * (string * pyval), "`" +:+ item.1 +:+ "`") <$> items;
             (λ item : string * (string * pyval),
                PyStr.replace_char ">" "&gt;" (PyStr.replace_char "<" "&lt;" item.2.1))
             <$> items;
             (λ item : string * (string * pyval), "`" +:+ str_quote_str item.2.2 +:+ "`")
             <$> items;
             (λ item : string * (string * pyval),
                match alt !! item.1 with
                | Some a => "`" +:+ a +:+ "`"
                | None => ""
                end) <$> items ] 2 ++ [""]))
  ∧ length items = size grp.2
  ∧ (∀ item, item ∈ items ↔ grp.2 !! item.1 = Some item.2)
  ∧ NoDup items.*1
  ∧ StronglySorted String.le items.*1.
Proof.
  intros items. subst items. split; [|split; [|split; [|split; [|split]]]].
  - unfold avail_easyconfig_params_rst_group.
    rewrite sorted_items_values, sorted_keys_items.
    by rewrite <-!list_fmap_compose.
  - intros c Hc. unfold avail_easyconfig_params_md_group. rewrite Hc. simpl.
    rewrite sorted_items_values, sorted_keys_items.
    by rewrite <-!list_fmap_compose.
  - apply sorted_items_length.
  - intros item. apply elem_of_sorted_items.
  - apply sorted_items_keys_NoDup.
  - apply sorted_items_keys_sorted.
Qed.

Lemma txt_group_spec alt (grp : string * gmap string (string * pyval)) :
  (grp.2 = ∅ ∧ avail_easyconfig_params_txt_group alt grp
               = Raise (ValueError "max() arg is an empty sequence"))
  ∨ (grp.2 ≠ ∅ ∧ ∃ ls, avail_easyconfig_params_txt_group alt grp = Return ls).
Proof.
  unfold avail_easyconfig_params_txt_group.
  destruct (decide (grp.2 = ∅)); [by left|]. right. split; [done|]. by eexists.
Qed.

Lemma md_group_spec alt (grp : string * gmap string (string * pyval)) :
  (grp.1 = "" ∧ avail_easyconfig_params_md_group alt grp
                = Raise (IndexError "string index out of range"))
  ∨ (grp.1 ≠ "" ∧ ∃ ls, avail_easyconfig_params_md_group alt grp = Return ls).
Proof.
  unfold avail_easyconfig_params_md_group.
  destruct grp.1 as [|a s]; [by left|]. right. split; [done|]. simpl. by eexists.
Qed.

(** X11.  The plain-text renderer takes the width of the name column
    from the longest name of a group, so a group without parameters makes
    it raise [ValueError]; it returns where no group is empty. *)
Theorem params_txt_empty_group (title : string) grouped alt :
  ((∃ grpname, (grpname, ∅) ∈ grouped) →
   avail_easyconfig_params_txt title grouped alt
   = Raise (ValueError "max() arg is an empty sequence"))
  ∧ ((∀ grpname g, (grpname, g) ∈ grouped → g ≠ ∅) →
     ∃ text, avail_easyconfig_params_txt title grouped alt = Return text).
Proof.
  split; [|apply avail_easyconfig_params_txt_returns].
  intros [grpname Hin]. unfold avail_easyconfig_params_txt.
  rewrite (rfold_raises_exactly _ [title +:+ ":"; ""] grouped (grpname, ∅)
             (ValueError "max() arg is an empty sequence")); [done|done| |].
  - intros doc. by destruct (txt_group_spec alt (grpname, ∅)) as [[_ ->]|[? _]].
  - intros doc grp e' _.
    destruct (txt_group_spec alt grp) as [[_ ->]|[_ [ls ->]]]; simpl;
      [by intros [= <-]|discriminate].
Qed.

(** X12.  The Markdown renderer capitalises the first character of a
    group name, so a group whose name is the empty string makes it raise
    [IndexError]; it returns where no group name is empty, and the
    reStructuredText renderer returns for any groups. *)
Theorem params_md_empty_group_name (title : string) grouped alt :
  ((∃ g, ("", g) ∈ grouped) →
   avail_easyconfig_params_md title grouped alt
   = Raise (IndexError "string index out of range"))
  ∧ ((∀ grpname g, (grpname, g) ∈ grouped → grpname ≠ "") →
     ∃ text, avail_easyconfig_params_md title grouped alt = Return text)
  ∧ ∃ text, avail_easyconfig_params_rst title grouped alt = Return text.
Proof.
  split; [|split; [apply avail_easyconfig_params_md_returns|by eexists]].
  intros [g Hin]. unfold avail_easyconfig_params_md.
  rewrite (rfold_raises_exactly _ ["# " +:+ title; ""] grouped ("", g)
             (IndexError "string index out of range")); [done|done| |].
  - intros doc. by destruct (md_group_spec alt ("", g)) as [[_ ->]|[? _]].
  - intros doc grp e' _.
    destruct (md_group_spec alt grp) as [[_ ->]|[_ [ls ->]]]; simpl;
      [by intros [= <-]|discriminate].
Qed.

Lemma ljust_length (s : string) nw :
  String.length s ≤ nw → String.length (PyStr.ljust s nw) = nw.
Proof.
  intros Hle. unfold PyStr.ljust. rewrite string_length_app, repeat_char_length. simpl. lia.
Qed.

Lemma ljust_long (s : string) nw : nw ≤ String.length s → PyStr.ljust s nw = s.
Proof.
  intros Hle. unfold PyStr.ljust. replace (nw - String.length s) with 0 by lia. simpl.
  induction s as [|a s IH]; [done|].
  change (String a (s +:+ "") = String a s). f_equal.
  clear IH Hle. induction s as [|b s IH]; [done|].
  change (String b (s +:+ "") = String b s). by f_equal.
Qed.

(** X13.  The lines of a group of the plain-text catalog are aligned:
    the heading is underlined by as many dashes as it has characters, the
    parameters come in ascending order of their names, and every name is
    padded with spaces to the length of the longest name of the group,
    which is left as it is; description, default value and alternative
    name follow. *)
Theorem params_txt_group_aligned alt (grp : string * gmap string (string * pyval)) :
  grp.2 ≠ ∅ →
  let nw := max_len (String.length <$> (sorted_items grp.2).*1) in
  let head := PyStr.upper grp.1 in
  let line := λ item : string * (string * pyval),
    PyStr.ljust item.1 nw +:+ "   " +:+ item.2.1
      +:+ " [default: " +:+ str_quote_str item.2.2 +:+ "]"
      +:+ match alt !! item.1 with
          | Some a => if PyStr.truthy a then " {alternative: " +:+ a +:+ "}" else ""
          | None => ""
          end in
  avail_easyconfig_params_txt_group alt grp
  = Return ([head; PyStr.repeat "-" (String.length head)]
            ++ (line <$> sorted_items grp.2) ++ [""])
  ∧ String.length (PyStr.repeat "-" (String.length head)) = String.length head
  ∧ (∀ item, item ∈ sorted_items grp.2 → String.length (PyStr.ljust item.1 nw) = nw)
  ∧ (∃ item, item ∈ sorted_items grp.2 ∧ PyStr.ljust item.1 nw = item.1)
  ∧ StronglySorted String.le (sorted_items grp.2).*1.
Proof.
  intros Hne nw head line.
  assert (max_len (String.length <$> (map_to_list grp.2).*1) = nw) as Hnw.
  { subst nw. unfold sorted_items.
    assert (∀ l1 l2 : list nat, l1 ≡ₚ l2 → max_len l1 = max_len l2) as Hperm.
    { intros l1 l2 Hp. induction Hp as [|x l1 l2 _ IH|x y l|l1 l2 l3 _ IH1 _ IH2];
        unfold max_len in *; cbn [foldr]; [done|by rewrite IH|lia|congruence]. }
    apply Hperm. by rewrite py_sorted_perm. }
  split; [|split; [|split; [|split]]].
  - unfold avail_easyconfig_params_txt_group. rewrite decide_False by done.
    rewrite Hnw. fold head. do 3 f_equal. apply list_fmap_ext. intros i item _.
    unfold avail_easyconfig_params_txt_line, line. cbn [PyStr.join].
    rewrite !string_app_assoc.
    destruct (alt !! item.1) as [a|]; [destruct (PyStr.truthy a)|];
      rewrite ?string_app_assoc; done.
  - rewrite repeat_char_length. simpl. lia.
  - intros item Hin. apply ljust_length. subst nw. apply max_len_ge.
    apply list_elem_of_fmap. exists item.1. split; [done|].
    apply list_elem_of_fmap. by exists item.
  - assert (String.length <$> (sorted_items grp.2).*1 ≠ []) as Hlen.
    { intros Hnil. apply fmap_nil_inv, fmap_nil_inv in Hnil.
      apply Hne, map_size_empty_iff. by rewrite <-sorted_items_length, Hnil. }
    apply max_len_elem in Hlen. fold nw in Hlen.
    apply list_elem_of_fmap in Hlen as (name & Hname & Hin).
    apply list_elem_of_fmap in Hin as (item & -> & Hin).
    exists item. split; [done|]. apply ljust_long. lia.
  - apply sorted_items_keys_sorted.
Qed.

Lemma reverse_mapping_acc (items : list (string * string)) (m : gmap string string) v k :
  foldl (λ m kv, <[kv.2 := kv.1]> m) m items !! v = Some k →
  (k, v) ∈ items ∨ m !! v = Some k.
Proof.
  revert m. induction items as [|[k' v'] items IH]; intros m; simpl; [by right|].
  intros [Hin|Hm]%IH; [left; by right|].
  destruct (decide (v' = v)) as [->|Hne].
  - rewrite lookup_insert_eq in Hm. injection Hm as ->. left. by left.
  - rewrite lookup_insert_ne in Hm by done. by right.
Qed.

Lemma reverse_mapping_acc_Some (items : list (string * string)) (m : gmap string string) v :
  v ∈ items.*2 ∨ is_Some (m !! v) →
  is_Some (foldl (λ m kv, <[kv.2 := kv.1]> m) m items !! v).
Proof.
  revert m. induction items as [|[k' v'] items IH]; intros m; simpl.
  - intros [?%elem_of_nil|?]; done.
  - intros [[->|Hin]%elem_of_cons|Hm]; apply IH.
    + right. rewrite lookup_insert_eq. by eexists.
    + by left.
    + right. destruct (decide (v' = v)) as [->|Hne];
        [rewrite lookup_insert_eq; by eexists|by rewrite lookup_insert_ne].
Qed.

(** X14.  The mapping from a parameter to its alternative name is the
    reverse of the mapping from alternative names to parameters: every
    alternative name it gives a parameter is one that stands for this
    parameter, every parameter that has an alternative name gets one, and
    where no parameter has two alternative names a parameter gets exactly
    the name that stands for it. *)
Theorem reverse_mapping_spec (items : list (string * string)) :
  (∀ k v, reverse_mapping items !! v = Some k → (k, v) ∈ items)
  ∧ (∀ v, is_Some (reverse_mapping items !! v) ↔ v ∈ items.*2)
  ∧ (NoDup items.*2 → ∀ k v, (k, v) ∈ items → reverse_mapping items !! v = Some k).
Proof.
  assert (∀ k v, reverse_mapping items !! v = Some k → (k, v) ∈ items) as Hsound.
  { intros k v [?|Hm]%reverse_mapping_acc; [done|]. by rewrite lookup_empty in Hm. }
  assert (∀ v, v ∈ items.*2 → is_Some (reverse_mapping items !! v)) as Hsome.
  { intros v Hv. apply reverse_mapping_acc_Some. by left. }
  split; [exact Hsound|]. split.
  - intros v. split; [|apply Hsome]. intros [k Hk%Hsound].
    apply list_elem_of_fmap. by exists (k, v).
  - intros Hnd k v Hin.
    destruct (Hsome v) as [k' Hk']; [apply list_elem_of_fmap; by exists (k, v)|].
    rewrite Hk'. f_equal. apply Hsound in Hk'.
    apply list_elem_of_lookup in Hin as [i Hi], Hk' as [j Hj].
    assert (i = j) as ->.
    { eapply NoDup_lookup; [exact Hnd| |]; rewrite list_lookup_fmap.
      - by rewrite Hi.
      - by rewrite Hj. }
    congruence.
Qed.

(** X15.  The table of the extra parameters of an easyblock is made row
    by row as well: one row per extra parameter, in ascending order of the
    names, with name, description and default value of the same
    parameter. *)
Theorem extra_options_values_by_parameter (ex_opt : gmap string param_entry) :
  let items := sorted_items ex_opt in
  extra_options_values ex_opt
  = [ (λ item : string * param_entry, "``" +:+ item.1 +:+ "``") <$> items;
      (λ item : string * param_entry, item.2.1.2) <$> items;
      (λ item : string * param_entry, "``" +:+ str_quote_str item.2.1.1 +:+ "``") <$> items ]
  ∧ length items = size ex_opt
  ∧ (∀ item, item ∈ items ↔ ex_opt !! item.1 = Some item.2)
  ∧ StronglySorted String.le items.*1.
Proof.
  intros items. subst items. split; [|split; [|split]].
  - unfold extra_options_values. rewrite sorted_items_values, sorted_keys_items.
    by rewrite <-!list_fmap_compose.
  - apply sorted_items_length.
  - intros item. apply elem_of_sorted_items.
  - apply sorted_items_keys_sorted.
Qed.

(** X16.  A call of [avail_easyconfig_params] for the plain-text or the
    reStructuredText format returns a text, whatever the easyblock and the
    schemas: the groups it hands over are never empty. *)
Theorem avail_easyconfig_params_txt_rst_return (easyblock : option string) (h : heap) :
  (∃ text, (avail_easyconfig_params easyblock FORMAT_TXT h).1 = Return text)
  ∧ (∃ text, (avail_easyconfig_params easyblock FORMAT_RST h).1 = Return text).
Proof.
  split; [apply avail_easyconfig_params_txt_call|].
  rewrite avail_easyconfig_params_eq, avail_easyconfig_params_args_eq.
  cbn [fst snd]. by eexists.
Qed.

End ParamsExtras.

Lemma mandatory_group_not_empty : MoreExamples.mandatory_group.2 ≠ ∅.
Proof. apply insert_non_empty. Qed.

Lemma params_txt_empty_group_witness :
  (∀ grpname g, (grpname, g) ∈ [MoreExamples.mandatory_group] → g ≠ ∅)
  ∧ ∃ text, avail_easyconfig_params_txt (H:=Examples.example_env) "Available easyconfig parameters"
              [MoreExamples.mandatory_group] ∅ = Return text.
Proof.
  assert (∀ grpname g, (grpname, g) ∈ [MoreExamples.mandatory_group] → g ≠ ∅) as Hne.
  { intros grpname g Hin. apply list_elem_of_singleton in Hin.
    injection Hin as -> ->. apply insert_non_empty. }
  split; [exact Hne|].
  exact (proj2 (params_txt_empty_group (H:=Examples.example_env)
                  "Available easyconfig parameters" [MoreExamples.mandatory_group] ∅) Hne).
Defined.

Lemma params_md_empty_group_name_witness :
  (∃ g, ("", g) ∈ [("", MoreExamples.mandatory_group.2)])
  ∧ avail_easyconfig_params_md (H:=Examples.example_env) "Available easyconfig parameters"
      [("", MoreExamples.mandatory_group.2)] ∅
    = Raise (IndexError "string index out of range").
Proof.
  assert (∃ g, ("", g) ∈ [("", MoreExamples.mandatory_group.2)]) as Hin.
  { exists MoreExamples.mandatory_group.2. by left. }
  split; [exact Hin|].
  exact (proj1 (params_md_empty_group_name (H:=Examples.example_env)
                  "Available easyconfig parameters"
                  [("", MoreExamples.mandatory_group.2)] ∅) Hin).
Defined.

Lemma params_txt_group_aligned_witness :
  let grp := MoreExamples.mandatory_group in
  let alt : gmap string string := ∅ in
  let nw := max_len (String.length <$> (sorted_items grp.2).*1) in
  let head := PyStr.upper grp.1 in
  let line := λ item : string * (string * pyval),
    PyStr.ljust item.1 nw +:+ "   " +:+ item.2.1
      +:+ " [default: " +:+ str_quote_str (Externals:=Examples.example_env) item.2.2 +:+ "]"
      +:+ match alt !! item.1 with
          | Some a => if PyStr.truthy a then " {alternative: " +:+ a +:+ "}" else ""
          | None => ""
          end in
  grp.2 ≠ ∅
  ∧ avail_easyconfig_params_txt_group (H:=Examples.example_env) alt grp
    = Return ([head; PyStr.repeat "-" (String.length head)]
              ++ (line <$> sorted_items grp.2) ++ [""])
  ∧ String.length (PyStr.repeat "-" (String.length head)) = String.length head
  ∧ (∀ item, item ∈ sorted_items grp.2 → String.length (PyStr.ljust item.1 nw) = nw)
  ∧ (∃ item, item ∈ sorted_items grp.2 ∧ PyStr.ljust item.1 nw = item.1)
  ∧ StronglySorted String.le (sorted_items grp.2).*1.
Proof.
  split; [exact mandatory_group_not_empty|].
  exact (params_txt_group_aligned (H:=Examples.example_env) ∅ MoreExamples.mandatory_group
           mandatory_group_not_empty).
Defined.

Lemma reverse_mapping_spec_witness :
  NoDup MoreExamples.alternative_names.*2
  ∧ ∀ k v, (k, v) ∈ MoreExamples.alternative_names →
           reverse_mapping MoreExamples.alternative_names !! v = Some k.
Proof.
  assert (NoDup MoreExamples.alternative_names.*2) as Hnd.
  { refine (bool_decide_unpack _ _). vm_compute. exact I. }
  split; [exact Hnd|].
  exact (proj2 (proj2 (reverse_mapping_spec MoreExamples.alternative_names)) Hnd).
Defined.

(** ** The overviews of all easyblocks *)

Section OverviewExtras.
Context `{!Externals}.

Lemma common_descriptions_returns h opts :
  (∀ opt, opt ∈ opts → is_Some (heap_dict h DEFAULT_CONFIG !! opt)) →
  ∃ descrs, common_descriptions h opts = Return descrs ∧ length descrs = length opts.
Proof.
  intros Hall. unfold common_descriptions.
  exists ((λ opt, from_option (λ e : param_entry, e.1.2) "" (heap_dict h DEFAULT_CONFIG !! opt))
          <$> opts).
  split; [|by rewrite length_fmap].
  apply rmap_returns. intros opt Hopt. cbn beta.
  destruct (Hall opt Hopt) as [e He].
  match goal with
  | |- context [match ?x with _ => _ end] => assert (x = Some e) as -> by exact He
  end.
  match goal with
  | |- context [from_option _ _ ?x] => assert (x = Some e) as -> by exact He
  end.
  done.
Qed.

(** A section is made once the commonly used parameters of its class are
    parameters of the base schema. *)
Lemma gen_easyblock_doc_sections_return h eb_class path_to_examples
    (common_params : gmap string (list string)) doc_functions all_eb_classes :
  (∀ opts opt, common_params !! cls_name eb_class = Some opts → opt ∈ opts →
     is_Some (heap_dict h DEFAULT_CONFIG !! opt)) →
  (∃ doc, gen_easyblock_doc_section_md h eb_class path_to_examples common_params
            doc_functions all_eb_classes = Return doc)
  ∧ (∃ doc, gen_easyblock_doc_section_rst h eb_class path_to_examples common_params
              doc_functions all_eb_classes = Return doc).
Proof.
  intros Hcommon. unfold gen_easyblock_doc_section_md, gen_easyblock_doc_section_rst.
  destruct (common_params !! cls_name eb_class) as [opts|] eqn:Hopts.
  - destruct (common_descriptions_returns h opts) as (descrs & -> & _).
    { intros opt Hopt. by apply (Hcommon opts). }
    simpl. split; by eexists.
  - simpl. split; by eexists.
Qed.

(** X17.  Where every module of the package has an easyblock and the
    commonly used parameters named for the easyblocks are parameters of the
    base schema, both overviews are made; their tables of contents link to
    the easyblocks that [get_easyblock_classes] found, each once, in
    ascending order of the class names. *)
Theorem gen_easyblocks_overviews_return (h : heap) (package_name path_to_examples : string)
    (common_params : option (gmap string (list string)))
    (doc_functions : option (list string)) :
  (∀ pymod, pymod ∈ import_available_modules package_name →
     ∃ member, member ∈ mod_classes pymod ∧ is_easyblock_of package_name member.2 = true) →
  (∀ classname opts opt, default ∅ common_params !! classname = Some opts → opt ∈ opts →
     is_Some (heap_dict h DEFAULT_CONFIG !! opt)) →
  ∃ easyblocks md rst,
    get_easyblock_classes package_name = Return easyblocks
    ∧ gen_easyblocks_overview_md h package_name path_to_examples common_params doc_functions
      = Return md
    ∧ gen_easyblocks_overview_rst h package_name path_to_examples common_params
        doc_functions = Return rst
    ∧ md !! 2 = Some (PyStr.join " - "
                        ((λ c, "[" +:+ cls_name c +:+ "](#" +:+ PyStr.lower (cls_name c) +:+ ")")
                         <$> sorted_classes easyblocks))
    ∧ rst !! 6 = Some (PyStr.join " - "
                         ((λ c, ":ref:`" +:+ cls_name c +:+ "`") <$> sorted_classes easyblocks))
    ∧ sorted_classes easyblocks ≡ₚ easyblocks
    ∧ StronglySorted String.le (cls_name <$> sorted_classes easyblocks).
Proof.
  intros Hall Hcommon.
  destruct (get_easyblock_classes_loop_returns package_name
              (import_available_modules package_name) [] (NoDup_nil_2) Hall)
    as (easyblocks & Hr & _).
  assert (get_easyblock_classes package_name = Return easyblocks) as Hget by exact Hr.
  unfold gen_easyblocks_overview_md, gen_easyblocks_overview_rst. rewrite Hget. simpl.
  destruct (rfold_returns (λ _, True)
              (λ doc eb_class,
                 rbind (gen_easyblock_doc_section_md h eb_class path_to_examples
                          (default ∅ common_params) (default [] doc_functions) easyblocks)
                       (λ sec, Return (doc ++ sec)))
              [] (sorted_classes easyblocks) I) as (doc_md & Hmd & _).
  { intros doc eb_class _ _.
    destruct (gen_easyblock_doc_sections_return h eb_class path_to_examples
                (default ∅ common_params) (default [] doc_functions) easyblocks)
      as [[sec ->] _]; [|by eexists].
    intros opts opt. apply Hcommon. }
  destruct (rfold_returns (λ _, True)
              (λ doc eb_class,
                 rbind (gen_easyblock_doc_section_rst h eb_class path_to_examples
                          (default ∅ common_params) (default [] doc_functions) easyblocks)
                       (λ sec, Return (doc ++ sec)))
              [] (sorted_classes easyblocks) I) as (doc_rst & Hrst & _).
  { intros doc eb_class _ _.
    destruct (gen_easyblock_doc_sections_return h eb_class path_to_examples
                (default ∅ common_params) (default [] doc_functions) easyblocks)
      as [_ [sec ->]]; [|by eexists].
    intros opts opt. apply Hcommon. }
  rewrite Hmd, Hrst. simpl.
  eexists easyblocks, _, _. split; [done|]. split; [done|]. split; [done|].
  split; [done|]. split; [done|]. split; [apply py_sorted_perm|].
  unfold sorted_classes.
  rewrite (py_sorted_fmap cls_name String.ltb). apply sorted_strings_sorted.
Qed.

End OverviewExtras.

Lemma gen_easyblocks_overviews_return_witness :
  let common_params : option (gmap string (list string)) :=
    Some {[ "ConfigureMake" := ["configopts"] ]} in
  (∀ pymod, pymod ∈ import_available_modules (Externals:=MoreExamples.easyblocks_env)
                      "easybuild.easyblocks" →
     ∃ member, member ∈ mod_classes pymod
               ∧ is_easyblock_of "easybuild.easyblocks" member.2 = true)
  ∧ (∀ classname opts opt, default ∅ common_params !! classname = Some opts → opt ∈ opts →
       is_Some (heap_dict Examples.example_heap
                  (DEFAULT_CONFIG (Externals:=MoreExamples.easyblocks_env)) !! opt))
  ∧ ∃ easyblocks md rst,
      get_easyblock_classes (H:=MoreExamples.easyblocks_env) "easybuild.easyblocks"
      = Return easyblocks
      ∧ gen_easyblocks_overview_md (H:=MoreExamples.easyblocks_env) Examples.example_heap
          "easybuild.easyblocks" "examples" common_params (Some ["configure_step"])
        = Return md
      ∧ gen_easyblocks_overview_rst (H:=MoreExamples.easyblocks_env) Examples.example_heap
          "easybuild.easyblocks" "examples" common_params (Some ["configure_step"])
        = Return rst
      ∧ md !! 2 = Some (PyStr.join " - "
                          ((λ c, "[" +:+ cls_name c +:+ "](#" +:+ PyStr.lower (cls_name c) +:+ ")")
                           <$> sorted_classes easyblocks))
      ∧ rst !! 6 = Some (PyStr.join " - "
                           ((λ c, ":ref:`" +:+ cls_name c +:+ "`")
                            <$> sorted_classes easyblocks))
      ∧ sorted_classes easyblocks ≡ₚ easyblocks
      ∧ StronglySorted String.le (cls_name <$> sorted_classes easyblocks).
Proof.
  intros common_params.
  assert (∀ pymod, pymod ∈ import_available_modules (Externals:=MoreExamples.easyblocks_env)
                             "easybuild.easyblocks" →
            ∃ member, member ∈ mod_classes pymod
                      ∧ is_easyblock_of "easybuild.easyblocks" member.2 = true) as Hall.
  { intros pymod Hin. simpl in Hin. unfold MoreExamples.easyblock_modules in Hin.
    apply elem_of_cons in Hin as [->|Hin]; [|apply elem_of_cons in Hin as [->|Hin]].
    - exists ("ConfigureMake", Examples.ConfigureMake). split; [by left|].
      vm_compute; reflexivity.
    - exists ("CMakeMake", MoreExamples.CMakeMake). split; [by left|].
      vm_compute; reflexivity.
    - by apply elem_of_nil in Hin. }
  assert (∀ classname opts opt, default ∅ common_params !! classname = Some opts →
            opt ∈ opts →
            is_Some (heap_dict Examples.example_heap
                       (DEFAULT_CONFIG (Externals:=MoreExamples.easyblocks_env)) !! opt))
    as Hcommon.
  { intros classname opts opt Hlook Hopt. subst common_params. simpl in Hlook.
    apply lookup_singleton_Some in Hlook as [_ <-].
    apply list_elem_of_singleton in Hopt as ->. vm_compute. by eexists. }
  split; [exact Hall|]. split; [exact Hcommon|].
  exact (gen_easyblocks_overviews_return (H:=MoreExamples.easyblocks_env)
           Examples.example_heap "easybuild.easyblocks" "examples" common_params
           (Some ["configure_step"]) Hall Hcommon).
Defined.

(** ** The constants of configuration files *)

Lemma rfold_first_raises {A B} (f : B → A → result B) acc l e :
  l ≠ [] → (∀ acc' x, f acc' x = inl e) → rfold f acc l = inl e.
Proof. intros Hne Hf. destruct l as [|x l]; [done|]. simpl. by rewrite Hf. Qed.


Section CfgfileExtras.
Context `{!Externals}.
Implicit Types (go : cfg_constants).

(** X18.  Without a section named [DEFAULT] the three overviews of the
    constants of configuration files raise [KeyError] as soon as there is
    any section at all, since every section is compared with the
    [DEFAULT] one; without sections they are their headers. *)
Theorem avail_cfgfile_constants_no_default go :
  od_lookup "DEFAULT" go = None →
  (go ≠ [] →
   avail_cfgfile_constants_txt go = Raise (KeyError "DEFAULT")
   ∧ avail_cfgfile_constants_rst go = Raise (KeyError "DEFAULT")
   ∧ avail_cfgfile_constants_md go = Raise (KeyError "DEFAULT"))
  ∧ (go = [] →
     avail_cfgfile_constants_txt go
     = Return (PyStr.join nl ["Constants available (only) in configuration files:";
                              "syntax: %(CONSTANT_NAME)s"])
     ∧ avail_cfgfile_constants_rst go
       = Return (PyStr.join nl ["Constants available (only) in configuration files";
                                PyStr.repeat "-" 49])
     ∧ avail_cfgfile_constants_md go
       = Return (PyStr.join nl ["# Constants available (only) in configuration files"; ""])).
Proof.
  intros Hnone. split.
  - intros Hne.
    unfold avail_cfgfile_constants_txt, avail_cfgfile_constants_rst,
      avail_cfgfile_constants_md.
    rewrite !(rfold_first_raises _ _ go (KeyError "DEFAULT")); try done.
    + intros doc item. unfold avail_cfgfile_constants_md_section, not_default_section.
      by rewrite Hnone.
    + intros doc item. unfold avail_cfgfile_constants_rst_section, not_default_section.
      by rewrite Hnone.
    + intros doc item. unfold avail_cfgfile_constants_txt_section, not_default_section.
      by rewrite Hnone.
  - intros ->. repeat split; vm_compute; reflexivity.
Qed.

Lemma rfold_sections {A} (f : list string → A → result (list string))
    (g : A → list string) doc l :
  (∀ doc' x, x ∈ l → f doc' x = Return (doc' ++ g x)) →
  rfold f doc l = Return (doc ++ (l ≫= g)).
Proof.
  revert doc. induction l as [|x l IH]; intros doc Hf; simpl.
  - by rewrite app_nil_r.
  - rewrite Hf by by left. simpl. rewrite IH by (intros ???; apply Hf; by right).
    by rewrite <-app_assoc.
Qed.

(** X19.  With a section named [DEFAULT] the three overviews are made,
    and every section, the [DEFAULT] one as well, comes under the heading
    that names it as the only section its constants are available in; the
    constants of a section are listed in ascending order of their names. *)
Theorem avail_cfgfile_constants_sections go (constants : gmap string (string * string)) :
  od_lookup "DEFAULT" go = Some constants →
  avail_cfgfile_constants_txt go
  = Return (PyStr.join nl
      (["Constants available (only) in configuration files:"; "syntax: %(CONSTANT_NAME)s"]
       ++ (go ≫= λ item, [""; "only in '" +:+ item.1 +:+ "' section:"]
                          ++ (avail_cfgfile_constants_txt_line <$> sorted_items item.2))))
  ∧ avail_cfgfile_constants_rst go
    = Return (PyStr.join nl
        (["Constants available (only) in configuration files"; PyStr.repeat "-" 49]
         ++ (go ≫= λ item,
               let section_title := "Only in '" +:+ item.1 +:+ "' section:" in
               [""; section_title; PyStr.repeat "-" (String.length section_title); ""]
               ++ mk_rst_table cfgfile_table_titles (cfgfile_table_values item.2))))
  ∧ avail_cfgfile_constants_md go
    = Return (PyStr.join nl
        (["# Constants available (only) in configuration files"; ""]
         ++ (go ≫= λ item, ["## Only in '" +:+ item.1 +:+ "' section:"; ""]
                            ++ mk_md_table cfgfile_table_titles (cfgfile_table_values item.2))))
  ∧ ∀ item, item ∈ go →
      StronglySorted String.le (sorted_items item.2).*1
      ∧ (∀ cst, cst ∈ sorted_items item.2 ↔ item.2 !! cst.1 = Some cst.2)
      ∧ cfgfile_table_values item.2
        = [ (λ cst : string * (string * string), "``" +:+ cst.1 +:+ "``") <$> sorted_items item.2;
            (λ cst : string * (string * string), cst.2.2) <$> sorted_items item.2;
            (λ cst : string * (string * string), "``" +:+ cst.2.1 +:+ "``")
            <$> sorted_items item.2 ].
Proof.
  intros Hdefault. split; [|split; [|split]].
  - unfold avail_cfgfile_constants_txt.
    rewrite (rfold_sections _ (λ item : string * gmap string (string * string),
               [""; "only in '" +:+ item.1 +:+ "' section:"]
               ++ (avail_cfgfile_constants_txt_line <$> sorted_items item.2))); [done|].
    intros doc item _. unfold avail_cfgfile_constants_txt_section, not_default_section.
    rewrite Hdefault. simpl. by rewrite <-!app_assoc.
  - unfold avail_cfgfile_constants_rst.
    rewrite (rfold_sections _ (λ item : string * gmap string (string * string),
               let section_title := "Only in '" +:+ item.1 +:+ "' section:" in
               [""; section_title; PyStr.repeat "-" (String.length section_title); ""]
               ++ mk_rst_table cfgfile_table_titles (cfgfile_table_values item.2))); [done|].
    intros doc item _. unfold avail_cfgfile_constants_rst_section, not_default_section.
    rewrite Hdefault. simpl. by rewrite <-!app_assoc.
  - unfold avail_cfgfile_constants_md.
    rewrite (rfold_sections _ (λ item : string * gmap string (string * string),
               ["## Only in '" +:+ item.1 +:+ "' section:"; ""]
               ++ mk_md_table cfgfile_table_titles (cfgfile_table_values item.2))); [done|].
    intros doc item _. unfold avail_cfgfile_constants_md_section, not_default_section.
    rewrite Hdefault. simpl. by rewrite <-!app_assoc.
  - intros item _. split; [apply sorted_items_keys_sorted|].
    split; [intros cst; apply elem_of_sorted_items|].
    unfold cfgfile_table_values. rewrite sorted_items_values, sorted_keys_items.
    by rewrite <-!list_fmap_compose.
Qed.

End CfgfileExtras.

Lemma avail_cfgfile_constants_no_default_witness :
  let go : cfg_constants :=
    [("MAIN", {[ "HOME" := ("/home/example", "Home directory of the current user") ]})] in
  od_lookup "DEFAULT" go = None
  ∧ go ≠ []
  ∧ avail_cfgfile_constants_txt go = Raise (KeyError "DEFAULT")
  ∧ avail_cfgfile_constants_rst (H:=Examples.example_env) go = Raise (KeyError "DEFAULT")
  ∧ avail_cfgfile_constants_md (H:=Examples.example_env) go = Raise (KeyError "DEFAULT").
Proof.
  intros go.
  assert (od_lookup "DEFAULT" go = None) as Hnone by reflexivity.
  assert (go ≠ []) as Hne by discriminate.
  split; [exact Hnone|]. split; [exact Hne|].
  exact (proj1 (avail_cfgfile_constants_no_default (H:=Examples.example_env) go Hnone) Hne).
Defined.

Lemma avail_cfgfile_constants_sections_witness :
  let constants : gmap string (string * string) :=
    {[ "USER" := ("example", "Name of the current user");
       "HOME" := ("/home/example", "Home directory of the current user") ]} in
  let go : cfg_constants := [("DEFAULT", constants)] in
  od_lookup "DEFAULT" go = Some constants
  ∧ avail_cfgfile_constants_txt go
    = Return (PyStr.join nl
        ["Constants available (only) in configuration files:"; "syntax: %(CONSTANT_NAME)s";
         ""; "only in 'DEFAULT' section:";
         "* HOME: Home directory of the current user [value: /home/example]";
         "* USER: Name of the current user [value: example]"]).
Proof.
  intros constants go.
  assert (od_lookup "DEFAULT" go = Some constants) as Hdefault by reflexivity.
  split; [exact Hdefault|].
  rewrite (proj1 (avail_cfgfile_constants_sections (H:=Examples.example_env) go constants
                    Hdefault)).
  vm_compute. reflexivity.
Defined.

(** ** The catalog that [list_software] builds *)

Section Grouping.
Context {A V : Type} (key : A → string) (val : A → V).
Implicit Types (od : list (string * list V)) (l : list A).

Lemma od_lookup_alter {W} (f : W → W) k k' (od : list (string * W)) :
  od_lookup k (od_alter f k' od)
  = if decide (k' = k) then f <$> od_lookup k od else od_lookup k od.
Proof.
  unfold od_alter. induction od as [|[k0 v0] od IH].
  - by destruct (decide (k' = k)).
  - rewrite fmap_cons. cbn beta. cbn [fst snd].
    destruct (decide (k0 = k')) as [->|Hne]; cbn [od_lookup fst snd].
    + destruct (decide (k' = k)) as [->|Hne']; [done|]. by rewrite IH.
    + destruct (decide (k0 = k)) as [->|Hne']; [|apply IH].
      by rewrite decide_False.
Qed.

Lemma od_lookup_snoc {W} k k' (w : W) (od : list (string * W)) :
  od_lookup k (od ++ [(k', w)])
  = match od_lookup k od with
    | Some x => Some x
    | None => if decide (k' = k) then Some w else None
    end.
Proof.
  induction od as [|[k0 v0] od IH]; simpl; [done|].
  by destruct (decide (k0 = k)).
Qed.

Lemma group_add_lookup od x k :
  od_lookup k (group_add key val od x)
  = if decide (key x = k) then Some (default [] (od_lookup k od) ++ [val x])
    else od_lookup k od.
Proof.
  unfold group_add. rewrite od_lookup_alter. unfold od_setdefault.
  destruct (decide (key x = k)) as [<-|Hne].
  - destruct (od_lookup (key x) od) as [vs|] eqn:Hl; [by rewrite Hl|].
    rewrite od_lookup_snoc, Hl. by rewrite decide_True.
  - destruct (od_lookup (key x) od) as [vs|] eqn:Hl; [done|].
    rewrite od_lookup_snoc. destruct (od_lookup k od); [done|]. by rewrite decide_False.
Qed.

Lemma group_add_keys od x :
  (group_add key val od x).*1 = od.*1 ++ (if decide (key x ∈ od.*1) then [] else [key x]).
Proof.
  unfold group_add.
  assert (∀ (f : list V → list V) k od, (od_alter f k od).*1 = od.*1) as Hkeys.
  { intros f k od'. unfold od_alter. rewrite <-list_fmap_compose. apply list_fmap_ext.
    intros i [k0 v0] _. simpl. by destruct (decide (k0 = k)). }
  rewrite Hkeys. unfold od_setdefault.
  destruct (od_lookup (key x) od) as [vs|] eqn:Hl.
  - rewrite decide_True; [by rewrite app_nil_r|].
    apply dec_stable. intros Hnot%od_lookup_None. congruence.
  - apply od_lookup_None in Hl. rewrite decide_False by done. by rewrite fmap_app.
Qed.

Lemma group_add_NoDup od x : NoDup od.*1 → NoDup (group_add key val od x).*1.
Proof.
  intros Hnd. rewrite group_add_keys. destruct (decide (key x ∈ od.*1)).
  - by rewrite app_nil_r.
  - apply NoDup_app. split; [done|]. split; [|apply NoDup_singleton].
    intros k Hk ->%list_elem_of_singleton. done.
Qed.

Lemma group_fold_NoDup od l : NoDup od.*1 → NoDup (foldl (group_add key val) od l).*1.
Proof.
  revert od. induction l as [|x l IH]; intros od Hnd; simpl; [done|].
  by apply IH, group_add_NoDup.
Qed.

(** The group of a key after a run of [setdefault] and [append] steps: what
    it held before, followed by the values that came under this key, in the
    order they came in. *)
Lemma group_fold_lookup od l k :
  od_lookup k (foldl (group_add key val) od l)
  = match od_lookup k od, filter (λ x, key x = k) l with
    | None, [] => None
    | vs, xs => Some (default [] vs ++ (val <$> xs))
    end.
Proof.
  revert od. induction l as [|x l IH]; intros od; simpl.
  - destruct (od_lookup k od); simpl; [by rewrite app_nil_r|done].
  - rewrite IH, group_add_lookup, filter_cons.
    destruct (decide (key x = k)) as [Hk|Hk]; [|done].
    destruct (od_lookup k od) as [vs|]; simpl.
    + rewrite <-app_assoc. by destruct (filter _ l).
    + by destruct (filter _ l).
Qed.

Lemma group_fold_spec l k vs :
  (k, vs) ∈ foldl (group_add key val) [] l
  ↔ vs ≠ [] ∧ vs = val <$> filter (λ x, key x = k) l.
Proof.
  rewrite <-od_lookup_Some by (apply group_fold_NoDup; constructor).
  rewrite group_fold_lookup. simpl.
  destruct (filter (λ x, key x = k) l) as [|x xs]; simpl.
  - split; [done|]. intros [? ->]. done.
  - split; [intros [= <-]; done|]. by intros [_ ->].
Qed.

End Grouping.

Section ListSoftwareExtras.
Context `{!Externals, !Easyconfigs}.
Implicit Types (ecs : list easyconfig) (software : list (string * list software_entry)).

Lemma add_easyconfig_group only_installed software ec :
  add_easyconfig only_installed software ec
  = group_add ec_name (software_info only_installed) software ec.
Proof. done. Qed.

Lemma collect_all_eq only_installed ecs :
  foldl (add_easyconfig only_installed) [] ecs
  = foldl (group_add ec_name (software_info only_installed)) [] ecs.
Proof. done. Qed.

Lemma retain_entries key software (entries : list software_entry) :
  (∀ entry, entry ∈ entries → is_Some entry.2) →
  rfold (retain_entry key) software entries
  = Return (foldl (group_add fst snd) software
              ((λ entry, (key, entry)) <$> filter (λ e, entry_installed e = true) entries)).
Proof.
  revert software. induction entries as [|entry entries IH]; intros software Hall; [done|].
  destruct (Hall entry) as [mod_name Hmod]; [by left|].
  destruct entry as [info o]. simpl in Hmod. subst o.
  cbn [rfold]. rewrite filter_cons. unfold retain_entry at 1, entry_installed at 1.
  cbn [fst snd].
  destruct (decide (mod_name ∈ avail_mod_names)) as [Hin|Hin]; cbn [rbind].
  - rewrite decide_True by by apply bool_decide_eq_true_2. rewrite fmap_cons.
    simpl. apply IH. intros ??. apply Hall. by right.
  - rewrite decide_False by (by intros ?%bool_decide_eq_true_1).
    simpl. apply IH. intros ??. apply Hall. by right.
Qed.

Lemma catalog_pairs_cons key (entries : list software_entry) software :
  catalog_pairs ((key, entries) :: software)
  = ((λ entry, (key, entry)) <$> entries) ++ catalog_pairs software.
Proof. done. Qed.

Lemma retain_installed_acc acc software :
  (∀ key entries entry, (key, entries) ∈ software → entry ∈ entries → is_Some entry.2) →
  rfold (λ software item, rfold (retain_entry item.1) software item.2) acc software
  = Return (foldl (group_add fst snd) acc
              (filter (λ p, entry_installed p.2 = true) (catalog_pairs software))).
Proof.
  revert acc. induction software as [|[key entries] software IH]; intros acc Hall; [done|].
  cbn [rfold fst snd].
  rewrite retain_entries by (intros ??; eapply Hall; [by left|done]).
  rewrite rbind_Return.
  rewrite IH by (intros ?????; eapply Hall; [by right|done]).
  rewrite catalog_pairs_cons, filter_app, foldl_app. do 3 f_equal.
  clear. induction entries as [|e entries IH]; [done|].
  rewrite fmap_cons, !filter_cons. simpl.
  destruct (decide (entry_installed e = true)); [rewrite fmap_cons|]; by rewrite IH.
Qed.

Lemma catalog_pairs_filter software k :
  NoDup software.*1 →
  snd <$> filter (λ p, p.1 = k) (catalog_pairs software)
  = default [] (od_lookup k software).
Proof.
  induction software as [|[key entries] software IH]; [done|].
  intros [Hkey Hnd]%NoDup_cons. rewrite catalog_pairs_cons.
  rewrite filter_app, fmap_app. rewrite (IH Hnd). cbn [od_lookup fst snd].
  destruct (decide (key = k)) as [->|Hne].
  - assert (od_lookup k software = None) as -> by by apply od_lookup_None.
    simpl. rewrite app_nil_r.
    clear. induction entries as [|e entries IH]; [done|].
    rewrite fmap_cons, filter_cons. simpl. rewrite decide_True by done.
    rewrite fmap_cons. simpl. by rewrite IH.
  - replace (filter (λ p : string * software_entry, p.1 = k)
               ((λ entry, (key, entry)) <$> entries)) with (@nil (string * software_entry));
      [done|].
    clear -Hne. induction entries as [|e entries IH]; [done|].
    rewrite fmap_cons, filter_cons. simpl. by rewrite decide_False.
Qed.

Lemma software_info_installed only_installed ec :
  entry_installed (software_info only_installed ec)
  = only_installed && bool_decide (ec_full_mod_name ec ∈ avail_mod_names).
Proof. unfold entry_installed, software_info. by destruct only_installed. Qed.

(** X20.  The catalog that [list_software] collects: it is made for any
    easyconfigs, no software name has two groups, no group is empty, and
    the group of a name holds the entries of the easyconfigs of that name
    that are retained, in the order of the easyconfigs: all of them, or,
    where only installed software is asked for, those whose module is
    available. *)
Theorem collect_software_groups ecs (only_installed : bool) :
  ∃ software,
    collect_software ecs only_installed = Return software
    ∧ NoDup software.*1
    ∧ ∀ name entries,
        (name, entries) ∈ software
        ↔ entries ≠ []
          ∧ entries = software_info only_installed
                      <$> filter (λ ec, ec_name ec = name
                                        ∧ retained only_installed ec = true) ecs.
Proof.
  unfold collect_software. rewrite collect_all_eq. destruct only_installed.
  - set (all := foldl (group_add ec_name (software_info true)) [] ecs).
    assert (NoDup all.*1) as Hnd by (apply group_fold_NoDup; constructor).
    assert (∀ name entries, (name, entries) ∈ all ↔
              entries ≠ [] ∧ entries = software_info true
                                       <$> filter (λ ec, ec_name ec = name) ecs) as Hall.
    { intros name entries. apply group_fold_spec. }
    unfold retain_installed. rewrite retain_installed_acc.
    2:{ intros key entries entry [_ ->]%Hall (ec & -> & _)%list_elem_of_fmap. by eexists. }
    eexists. split; [done|]. split; [apply group_fold_NoDup; constructor|].
    intros name entries. rewrite group_fold_spec.
    assert (snd <$> filter (λ x : string * software_entry, x.1 = name)
                      (filter (λ p, entry_installed p.2 = true) (catalog_pairs all))
            = software_info true
              <$> filter (λ ec, ec_name ec = name ∧ retained true ec = true) ecs) as ->; [|done].
    assert (∀ (l : list (string * software_entry)),
              filter (λ p, p.1 = name) (filter (λ p, entry_installed p.2 = true) l)
              = filter (λ p, entry_installed p.2 = true) (filter (λ p, p.1 = name) l))
      as Hswap.
    { intros l. induction l as [|p l IH]; [done|].
      rewrite !filter_cons.
      destruct (decide (entry_installed p.2 = true)), (decide (p.1 = name));
        rewrite ?filter_cons, ?decide_True, ?decide_False by done; by rewrite IH. }
    rewrite Hswap.
    assert (∀ (l : list (string * software_entry)),
              snd <$> filter (λ p, entry_installed p.2 = true) l
              = filter (λ e, entry_installed e = true) (snd <$> l)) as Hcomm.
    { intros l. induction l as [|p l IH]; [done|].
      rewrite fmap_cons, !filter_cons.
      destruct (decide (entry_installed p.2 = true)); [rewrite fmap_cons|]; by rewrite IH. }
    rewrite Hcomm, (catalog_pairs_filter all name Hnd).
    unfold all.
    rewrite (group_fold_lookup ec_name (software_info true) [] ecs name).
    cbn [od_lookup].
    match goal with
    | |- filter _ (default [] ?m) = _ =>
        assert (default [] m
                = software_info true <$> filter (λ x, ec_name x = name) ecs) as ->
          by (by destruct (filter (λ x, ec_name x = name) ecs))
    end.
    clear. induction ecs as [|ec ecs IH]; [done|].
    rewrite !filter_cons.
    destruct (decide (ec_name ec = name)) as [Hname|Hname].
    + rewrite fmap_cons, filter_cons, software_info_installed. unfold retained. simpl.
      destruct (bool_decide (ec_full_mod_name ec ∈ avail_mod_names)) eqn:Hinst.
      * rewrite decide_True by done. rewrite decide_True by done.
        rewrite fmap_cons. by rewrite IH.
      * rewrite decide_False by done. rewrite decide_False by (intros [_ ?]; done).
        apply IH.
    + rewrite decide_False by (intros [? _]; done). apply IH.
  - eexists. split; [done|]. split; [apply group_fold_NoDup; constructor|].
    intros name entries. rewrite group_fold_spec.
    assert (filter (λ ec, ec_name ec = name ∧ retained false ec = true) ecs
            = filter (λ ec, ec_name ec = name) ecs) as ->; [|done].
    apply list_filter_iff. intros ec. unfold retained. simpl. tauto.
Qed.

Lemma generate_doc_list_software (catalog : list (string * list sw_entry))
    (detailed : bool) :
  generate_doc "list_software_txt" [ASoftware catalog; ABool detailed]
  = list_software_txt catalog detailed
  ∧ generate_doc "list_software_md" [ASoftware catalog; ABool detailed]
    = list_software_md catalog detailed
  ∧ generate_doc "list_software_rst" [ASoftware catalog; ABool detailed]
    = list_software_rst catalog detailed.
Proof. done. Qed.

(** X21.  [list_software] never fails on an empty group: for the
    plain-text format it returns a text for any easyconfigs, with or
    without details and whether or not only installed software is asked
    for; for the Markdown and reStructuredText formats it returns where no
    retained easyconfig has the empty string as name, and raises
    [IndexError] where one has. *)
Theorem list_software_returns ecs (detailed only_installed : bool) :
  (∃ text, list_software ecs FORMAT_TXT detailed only_installed = Return text)
  ∧ ((∀ ec, ec ∈ ecs → retained only_installed ec = true → ec_name ec ≠ "") →
     (∃ text, list_software ecs FORMAT_MD detailed only_installed = Return text)
     ∧ (∃ text, list_software ecs FORMAT_RST detailed only_installed = Return text))
  ∧ ((∃ ec, ec ∈ ecs ∧ retained only_installed ec = true ∧ ec_name ec = "") →
     list_software ecs FORMAT_MD detailed only_installed
     = Raise (IndexError "string index out of range")
     ∧ list_software ecs FORMAT_RST detailed only_installed
       = Raise (IndexError "string index out of range")).
Proof.
  destruct (collect_software_groups ecs only_installed) as (software & Hsw & Hnd & Hgroups).
  unfold list_software. rewrite Hsw, !rbind_Return.
  set (catalog := (λ item : string * list software_entry, (item.1, item.2.*1)) <$> software).
  assert (∀ key entries, (key, entries) ∈ catalog →
            entries ≠ [] ∧ ∃ ec, ec ∈ ecs ∧ retained only_installed ec = true
                                 ∧ ec_name ec = key) as Hcat.
  { intros key entries ([key' entries'] & [= -> ->] & Hin)%list_elem_of_fmap.
    apply Hgroups in Hin as [Hne ->]. split.
    - intros Hnil%fmap_nil_inv. done.
    - destruct (filter _ ecs) as [|ec l] eqn:Hf; [done|].
      assert (ec ∈ filter (λ ec, ec_name ec = key' ∧ retained only_installed ec = true) ecs)
        as [[? ?] ?]%list_elem_of_filter by (rewrite Hf; by left).
      by exists ec. }
  destruct (generate_doc_list_software catalog detailed) as (Htxt & Hmd & Hrst).
  change ("list_software_" +:+ FORMAT_TXT) with "list_software_txt".
  change ("list_software_" +:+ FORMAT_MD) with "list_software_md".
  change ("list_software_" +:+ FORMAT_RST) with "list_software_rst".
  rewrite Htxt, Hmd, Hrst. split; [|split].
  - apply list_software_txt_returns. intros _ key entries Hin. by destruct (Hcat _ _ Hin).
  - intros Hnames. apply list_software_md_rst_return. intros key entries Hin.
    destruct (Hcat _ _ Hin) as [Hne (ec & Hec & Hret & <-)]. split; [by apply Hnames|done].
  - intros (ec & Hec & Hret & Hname).
    assert (∃ entries, ("", entries) ∈ software) as [entries Hin].
    { eexists. apply Hgroups. split; [|done].
      intros Hnil%fmap_nil_inv.
      assert (ec ∈ filter (λ ec, ec_name ec = "" ∧ retained only_installed ec = true) ecs)
        as Hin by (apply list_elem_of_filter; done).
      rewrite Hnil in Hin. by apply elem_of_nil in Hin. }
    assert (("", entries.*1) ∈ catalog) as Hcatin.
    { apply list_elem_of_fmap. by exists ("", entries). }
    unfold list_software_md, list_software_rst.
    by rewrite (key_letters_empty_name catalog _ Hcatin).
Qed.

End ListSoftwareExtras.

(** ** The list of toolchains *)

Lemma rmap_raises_exactly {A B} (f : A → result B) l x e :
  x ∈ l → f x = inl e → (∀ y e', y ∈ l → f y = inl e' → e' = e) → rmap f l = inl e.
Proof.
  intros Hx Hfx Hsame. unfold rmap. apply (rfold_raises_exactly _ [] l x e Hx).
  - intros acc. by rewrite Hfx.
  - intros acc y e' Hy Hf. destruct (f y) as [e''|r] eqn:Hfy; [|discriminate].
    injection Hf as <-. by apply (Hsame y).
Qed.

Lemma rmap_length {A B} (f : A → result B) l ys : rmap f l = inr ys → length ys = length l.
Proof. intros Hall%rmap_inv. symmetry. by eapply Forall2_length. Qed.

Lemma rmap_total {A B} (f : A → result B) l :
  (∀ x, x ∈ l → ∃ y, f x = inr y) → ∃ ys, rmap f l = inr ys.
Proof.
  intros Hf. unfold rmap.
  destruct (rfold_returns (λ _, True)
              (λ acc x, rbind (f x) (λ y, Return (acc ++ [y]))) [] l I) as (ys & -> & _);
    [|by eexists].
  intros acc x _ Hx. destruct (Hf x Hx) as [y ->]. by eexists.
Qed.

Section ToolchainExtras.
Context `{!Externals}.
Implicit Types (tcs : toolchains) (tc : toolchain_def) (item : string * toolchain_def).

Lemma toolchain_entry_error col_name item e :
  toolchain_entry col_name item = inl e →
  is_cray item.1 = true ∧ col_name = "COMPILER" ∧ item.2 !! "COMPILER" = None
  ∧ e = KeyError "COMPILER".
Proof.
  unfold toolchain_entry, is_cray. destruct (str_contains "cray" (PyStr.lower item.1)).
  - destruct (decide (col_name = "COMPILER")) as [->|?].
    + change (PyStr.upper "COMPILER") with "COMPILER".
      destruct (item.2 !! "COMPILER"); [discriminate|]. by intros [= <-].
    + by repeat case_decide.
  - by case_decide.
Qed.

Lemma toolchain_column_error sorted col_name e :
  toolchain_column sorted col_name = inl e →
  e = KeyError "COMPILER" ∧ col_name = "COMPILER"
  ∧ ∃ item, item ∈ sorted ∧ is_cray item.1 = true ∧ item.2 !! "COMPILER" = None.
Proof.
  unfold toolchain_column. destruct (decide (col_name = "NAME")); [discriminate|].
  intros (item & Hin & (? & ? & ? & ?)%toolchain_entry_error)%rmap_error_origin.
  split; [done|]. split; [done|]. by exists item.
Qed.

(** X22.  Where every toolchain with [cray] in its name defines its
    compilers, the Markdown and reStructuredText lists of toolchains are
    made from one and the same table: five columns under five titles, each
    column with one cell per toolchain, the first one the names in
    ascending order of their lower-case forms. *)
Theorem list_toolchains_table tcs :
  (∀ name tc, (name, tc) ∈ tcs → is_cray name = true → is_Some (tc !! "COMPILER")) →
  ∃ table,
    toolchain_table tcs = Return table
    ∧ list_toolchains_md tcs
      = Return (PyStr.join nl (md_title_and_table (Some "List of known toolchains")
                                 ["Name"; "Compiler(s)"; "MPI"; "Linear algebra"; "FFT"]
                                 table 1))
    ∧ list_toolchains_rst tcs
      = Return (PyStr.join nl (rst_title_and_table (Some "List of known toolchains")
                                 ["Name"; "Compiler(s)"; "MPI"; "Linear algebra"; "FFT"]
                                 table))
    ∧ length table = 5
    ∧ Forall (λ column, length column = length tcs) table
    ∧ table !! 0 = Some ((λ item, "**" +:+ item.1 +:+ "**") <$> sorted_tcs tcs)
    ∧ sorted_tcs tcs ≡ₚ tcs
    ∧ StronglySorted String.le ((λ item, PyStr.lower item.1) <$> sorted_tcs tcs).
Proof.
  intros Hcray.
  destruct (rmap_total (toolchain_column (sorted_tcs tcs)) toolchain_columns) as [table Ht].
  { intros col_name _.
    destruct (toolchain_column (sorted_tcs tcs) col_name) as [e|column] eqn:Hcol;
      [|by eexists].
    apply toolchain_column_error in Hcol as (_ & _ & [name tc] & Hin & Hc & Hnone).
    apply elem_of_py_sorted in Hin. destruct (Hcray name tc Hin Hc) as [? ?].
    simpl in *. congruence. }
  exists table. split; [exact Ht|].
  unfold list_toolchains_md, list_toolchains_rst. unfold toolchain_table in Ht |- *.
  rewrite Ht. split; [done|]. split; [done|].
  pose proof (rmap_inv _ _ _ Ht) as Hcols. split; [by apply rmap_length in Ht|].
  split; [|split; [|split]].
  - apply Forall_forall. intros column Hin.
    apply list_elem_of_lookup in Hin as [i Hi].
    destruct (Forall2_lookup_r _ _ _ _ _ Hcols Hi) as (col_name & _ & Hcol).
    unfold toolchain_column in Hcol. destruct (decide (col_name = "NAME")).
    + injection Hcol as <-. rewrite length_fmap. unfold sorted_tcs. by rewrite py_sorted_perm.
    + apply rmap_length in Hcol. rewrite Hcol. unfold sorted_tcs. by rewrite py_sorted_perm.
  - destruct (Forall2_lookup_l _ _ _ 0 "NAME" Hcols eq_refl) as (column & -> & Hcol).
    unfold toolchain_column in Hcol. rewrite decide_True in Hcol by done. by injection Hcol as <-.
  - apply py_sorted_perm.
  - unfold sorted_tcs.
    rewrite (py_sorted_fmap (λ item, PyStr.lower item.1) String.ltb).
    apply sorted_strings_sorted.
Qed.

(** X23.  A toolchain with [cray] in its name that does not define its
    compilers makes both lists raise [KeyError]: its compilers are read
    with a subscript, while every other kind of module, and every kind of
    a toolchain of another name, is read with a default. *)
Theorem list_toolchains_cray_without_compiler tcs (name : string) tc :
  (name, tc) ∈ tcs → is_cray name = true → tc !! "COMPILER" = None →
  list_toolchains_md tcs = Raise (KeyError "COMPILER")
  ∧ list_toolchains_rst tcs = Raise (KeyError "COMPILER").
Proof.
  intros Hin Hcray Hnone.
  assert (toolchain_table tcs = Raise (KeyError "COMPILER")) as Ht.
  { unfold toolchain_table.
    apply (rmap_raises_exactly _ _ "COMPILER"); [right; left| |].
    - unfold toolchain_column. rewrite decide_False by done.
      apply (rmap_raises_exactly _ _ (name, tc)).
      + by apply elem_of_py_sorted.
      + unfold toolchain_entry. fold (is_cray name). cbn [fst snd]. rewrite Hcray.
        rewrite decide_True by done. change (PyStr.upper "COMPILER") with "COMPILER".
        by rewrite Hnone.
      + intros item e' _ Hitem. by apply toolchain_entry_error in Hitem as (_ & _ & _ & ->).
    - intros col_name e' _ Hcol. by apply toolchain_column_error in Hcol as [-> _]. }
  unfold list_toolchains_md, list_toolchains_rst. by rewrite Ht.
Qed.

Lemma join_or_none_not_empty (l : list string) : join_or_none l ≠ "".
Proof.
  unfold join_or_none. destruct (PyStr.truthy (PyStr.join ", " l)) eqn:Ht; [|done].
  by apply truthy_true.
Qed.

(** X24.  The entry of a toolchain without [cray] in its name is made for
    every column and is never empty: where the toolchain has no module of
    the kind of the column, the entry is [none_txt]; the linear algebra
    column starts with the BLAS modules. *)
Theorem toolchain_entry_not_cray (col_name : string) item :
  is_cray item.1 = false →
  ∃ entry, toolchain_entry col_name item = Return entry
    ∧ entry ≠ ""
    ∧ (col_name ≠ "LINALG" → default [] (item.2 !! col_name) = [] → entry = none_txt)
    ∧ (col_name ≠ "LINALG" →
       entry = join_or_none (default [] (item.2 !! col_name)))
    ∧ (col_name = "LINALG" →
       entry = join_or_none (nub (default [] (item.2 !! "BLAS")
                                  ++ default [] (item.2 !! "LAPACK")
                                  ++ default [] (item.2 !! "SCALAPACK")))).
Proof.
  intros Hcray. unfold toolchain_entry. fold (is_cray item.1). rewrite Hcray.
  destruct (decide (col_name = "LINALG")) as [->|Hne].
  - eexists. split; [done|]. split; [apply join_or_none_not_empty|].
    split; [done|]. split; [done|]. intros _. simpl. by rewrite <-app_assoc.
  - eexists. split; [done|]. split; [apply join_or_none_not_empty|].
    split; [|done]. intros _ ->. done.
Qed.

(** X25.  The plain-text list of toolchains has one line per toolchain,
    in ascending order of the names; the line of a toolchain lists the
    modules of its definition, of whatever kind, each once and in
    ascending order. *)
Theorem list_toolchains_txt_lines tcs :
  let sorted := py_sorted (λ a b : string * toolchain_def, String.ltb a.1 b.1) tcs in
  list_toolchains_txt tcs
  = PyStr.join nl
      ("List of known toolchains (toolchain name: module[, module, ...]):"
       :: ((λ item : string * toolchain_def,
              String "009" "" +:+ item.1 +:+ ": " +:+ PyStr.join ", " (tc_elems item.2))
           <$> sorted))
  ∧ sorted ≡ₚ tcs
  ∧ StronglySorted String.le sorted.*1
  ∧ ∀ tc, NoDup (tc_elems tc)
      ∧ StronglySorted String.le (tc_elems tc)
      ∧ ∀ module, module ∈ tc_elems tc
          ↔ ∃ kind modules, tc !! kind = Some modules ∧ module ∈ modules.
Proof.
  intros sorted. split; [|split; [|split]].
  - unfold list_toolchains_txt. fold sorted.
    by rewrite (foldl_snoc_map (λ item : string * toolchain_def,
                  String "009" "" +:+ item.1 +:+ ": " +:+ PyStr.join ", " (tc_elems item.2))).
  - apply py_sorted_perm.
  - subst sorted. rewrite (py_sorted_fmap fst String.ltb). apply sorted_strings_sorted.
  - intros tc. unfold tc_elems. split; [apply NoDup_nub|]. split.
    + assert (∀ (seen l : list string), StronglySorted String.le l →
                StronglySorted String.le (nub_go seen l)) as Hgo.
      { intros seen l Hl. revert seen. induction Hl as [|x l Hl IH Hx]; intros seen; simpl;
          [constructor|].
        destruct (decide (x ∈ seen)); [apply IH|]. constructor; [apply IH|].
        apply Forall_forall. intros y [Hy _]%elem_of_nub_go.
        rewrite Forall_forall in Hx. by apply Hx. }
      apply Hgo, sorted_strings_sorted.
    + intros module. rewrite elem_of_nub, elem_of_py_sorted, list_elem_of_bind. split.
      * intros (modules & Hin & ([kind modules'] & -> & Hkv)%list_elem_of_fmap).
        apply elem_of_map_to_list in Hkv. by exists kind, modules'.
      * intros (kind & modules & Hkv & Hin). exists modules. split; [done|].
        apply list_elem_of_fmap. exists (kind, modules). split; [done|].
        by apply elem_of_map_to_list.
Qed.

End ToolchainExtras.

Lemma list_toolchains_table_witness :
  let tcs : toolchains :=
    [("foss", MoreExamples.foss_definition); ("CrayGNU", MoreExamples.cray_definition)] in
  (∀ name tc, (name, tc) ∈ tcs → is_cray name = true → is_Some (tc !! "COMPILER"))
  ∧ ∃ table,
      toolchain_table tcs = Return table
      ∧ list_toolchains_md (H:=Examples.example_env) tcs
        = Return (PyStr.join nl (md_title_and_table (H:=Examples.example_env)
                                   (Some "List of known toolchains")
                                   ["Name"; "Compiler(s)"; "MPI"; "Linear algebra"; "FFT"]
                                   table 1))
      ∧ list_toolchains_rst (H:=Examples.example_env) tcs
        = Return (PyStr.join nl (rst_title_and_table (H:=Examples.example_env)
                                   (Some "List of known toolchains")
                                   ["Name"; "Compiler(s)"; "MPI"; "Linear algebra"; "FFT"]
                                   table))
      ∧ length table = 5
      ∧ Forall (λ column, length column = length tcs) table
      ∧ table !! 0 = Some ((λ item, "**" +:+ item.1 +:+ "**") <$> sorted_tcs tcs)
      ∧ sorted_tcs tcs ≡ₚ tcs
      ∧ StronglySorted String.le ((λ item, PyStr.lower item.1) <$> sorted_tcs tcs).
Proof.
  intros tcs.
  assert (∀ name tc, (name, tc) ∈ tcs → is_cray name = true → is_Some (tc !! "COMPILER"))
    as Hcray.
  { intros name tc Hin _. subst tcs.
    repeat (apply elem_of_cons in Hin as [[= -> ->]|Hin]);
      [vm_compute; by eexists..|by apply elem_of_nil in Hin]. }
  split; [exact Hcray|].
  exact (list_toolchains_table (H:=Examples.example_env) tcs Hcray).
Defined.

Lemma list_toolchains_cray_without_compiler_witness :
  let tc : toolchain_def := {[ "MPI" := ["cray-mpich"] ]} in
  let tcs : toolchains := [("foss", MoreExamples.foss_definition); ("CrayIntel", tc)] in
  ("CrayIntel", tc) ∈ tcs
  ∧ is_cray "CrayIntel" = true
  ∧ tc !! "COMPILER" = None
  ∧ list_toolchains_md (H:=Examples.example_env) tcs = Raise (KeyError "COMPILER")
  ∧ list_toolchains_rst (H:=Examples.example_env) tcs = Raise (KeyError "COMPILER").
Proof.
  intros tc tcs.
  assert (("CrayIntel", tc) ∈ tcs) as Hin by (right; left).
  assert (is_cray "CrayIntel" = true) as Hcray by reflexivity.
  assert (tc !! "COMPILER" = None) as Hnone by reflexivity.
  split; [exact Hin|]. split; [exact Hcray|]. split; [exact Hnone|].
  exact (list_toolchains_cray_without_compiler (H:=Examples.example_env) tcs "CrayIntel" tc
           Hin Hcray Hnone).
Defined.

Lemma toolchain_entry_not_cray_witness :
  let item := ("foss", MoreExamples.foss_definition) in
  is_cray item.1 = false
  ∧ ∃ entry, toolchain_entry "LINALG" item = Return entry
      ∧ entry ≠ ""
      ∧ ("LINALG" ≠ "LINALG" → default [] (item.2 !! "LINALG") = [] → entry = none_txt)
      ∧ ("LINALG" ≠ "LINALG" → entry = join_or_none (default [] (item.2 !! "LINALG")))
      ∧ ("LINALG" = "LINALG" →
         entry = join_or_none (nub (default [] (item.2 !! "BLAS")
                                    ++ default [] (item.2 !! "LAPACK")
                                    ++ default [] (item.2 !! "SCALAPACK")))).
Proof.
  intros item.
  assert (is_cray item.1 = false) as Hcray by reflexivity.
  split; [exact Hcray|].
  exact (toolchain_entry_not_cray "LINALG" item Hcray).
Defined.

(** ** The tree of easyblock classes *)

Lemma class_tree_forall_ind (P : class_tree → Prop) :
  (∀ name module children, Forall P children → P (ClassNode name module children)) →
  ∀ cls, P cls.
Proof.
  intros HP. fix IH 1. intros [name module children]. apply HP.
  induction children as [|c cs IHcs]; constructor; [apply IH|apply IHcs].
Qed.

Section ClassTreeExtras.
Implicit Types (classes : gmap string class_info) (cls : class_tree).
Implicit Types (roots children : list class_tree).

Lemma tree_nodes_self cls : cls ∈ tree_nodes cls.
Proof. destruct cls. by left. Qed.

Lemma tree_nodes_subclass cls c n :
  c ∈ tree_subclasses cls → n ∈ tree_nodes c → n ∈ tree_nodes cls.
Proof.
  destruct cls as [name module children]. simpl. intros Hc Hn. right.
  apply list_elem_of_bind. by exists c.
Qed.

Lemma tree_height_subclass cls c : c ∈ tree_subclasses cls → S (tree_height c) ≤ tree_height cls.
Proof.
  destruct cls as [name module children]. simpl. intros Hc.
  apply le_n_S, max_len_ge, list_elem_of_fmap. by exists c.
Qed.

Lemma class_entry_eq name module children :
  class_entry (ClassNode name module children)
  = (module, sorted_lower (tree_name <$> children)).
Proof. done. Qed.

(** What [add_class] leaves in the dictionary. *)
Lemma add_class_spec cls :
  ∀ classes,
    (∀ k v, add_class classes cls !! k = Some v →
       classes !! k = Some v
       ∨ ∃ n, n ∈ tree_nodes cls ∧ tree_name n = k ∧ v = class_entry n)
    ∧ (∀ k, is_Some (classes !! k) → is_Some (add_class classes cls !! k))
    ∧ (∀ n, n ∈ tree_nodes cls → is_Some (add_class classes cls !! tree_name n)).
Proof.
  induction cls as [name module children IH] using class_tree_forall_ind.
  intros classes. cbn [add_class].
  set (classes0 := <[name := (module, sorted_lower (tree_name <$> children))]> classes).
  assert (∀ cs classes1,
            Forall (λ cls, ∀ classes,
              (∀ k v, add_class classes cls !! k = Some v →
                 classes !! k = Some v
                 ∨ ∃ n, n ∈ tree_nodes cls ∧ tree_name n = k ∧ v = class_entry n)
              ∧ (∀ k, is_Some (classes !! k) → is_Some (add_class classes cls !! k))
              ∧ (∀ n, n ∈ tree_nodes cls → is_Some (add_class classes cls !! tree_name n)))
              cs →
            (∀ k v, foldl add_class classes1 cs !! k = Some v →
               classes1 !! k = Some v
               ∨ ∃ n, n ∈ cs ≫= tree_nodes ∧ tree_name n = k ∧ v = class_entry n)
            ∧ (∀ k, is_Some (classes1 !! k) → is_Some (foldl add_class classes1 cs !! k))
            ∧ (∀ n, n ∈ cs ≫= tree_nodes → is_Some (foldl add_class classes1 cs !! tree_name n)))
    as Hfold.
  { clear. intros cs. induction cs as [|c cs IHcs]; intros classes1 Hall.
    - split; [by left|]. split; [done|]. intros n Hn. by apply elem_of_nil in Hn.
    - apply Forall_cons in Hall as [Hc Hcs].
      destruct (Hc classes1) as (H1 & H2 & H3).
      destruct (IHcs (add_class classes1 c) Hcs) as (G1 & G2 & G3).
      cbn [foldl]. split; [|split].
      + intros k v [Hk|(n & Hn & ? & ?)]%G1.
        * apply H1 in Hk as [?|(n & Hn & ? & ?)]; [by left|right].
          exists n. split; [|done]. apply list_elem_of_bind. exists c. split; [done|by left].
        * right. exists n. split; [|done].
          apply list_elem_of_bind in Hn as (c' & ? & ?).
          apply list_elem_of_bind. exists c'. split; [done|by right].
      + intros k Hk. by apply G2, H2.
      + intros n (c' & Hn & [->|Hc']%elem_of_cons)%list_elem_of_bind.
        * by apply G2, H3.
        * apply G3. apply list_elem_of_bind. by exists c'. }
  destruct (Hfold children classes0 IH) as (G1 & G2 & G3). split; [|split].
  - intros k v [Hk|(n & Hn & ? & ?)]%G1.
    + unfold classes0 in Hk. destruct (decide (name = k)) as [->|Hne].
      * rewrite lookup_insert_eq in Hk. injection Hk as <-. right.
        exists (ClassNode k module children). split; [by left|done].
      * rewrite lookup_insert_ne in Hk by done. by left.
    + right. exists n. split; [by right|done].
  - intros k Hk. apply G2. unfold classes0. destruct (decide (name = k)) as [->|Hne].
    + rewrite lookup_insert_eq. by eexists.
    + by rewrite lookup_insert_ne.
  - intros n [->|Hn]%elem_of_cons.
    + apply G2. unfold classes0. simpl. rewrite lookup_insert_eq. by eexists.
    + by apply G3.
Qed.

Lemma add_classes_spec roots :
  (∀ k v, foldl add_class ∅ roots !! k = Some v →
     ∃ n, n ∈ roots ≫= tree_nodes ∧ tree_name n = k ∧ v = class_entry n)
  ∧ (∀ n, n ∈ roots ≫= tree_nodes → is_Some (foldl add_class ∅ roots !! tree_name n)).
Proof.
  assert (∀ cs classes1,
            (∀ k v, foldl add_class classes1 cs !! k = Some v →
               classes1 !! k = Some v
               ∨ ∃ n, n ∈ cs ≫= tree_nodes ∧ tree_name n = k ∧ v = class_entry n)
            ∧ (∀ k, is_Some (classes1 !! k) → is_Some (foldl add_class classes1 cs !! k))
            ∧ (∀ n, n ∈ cs ≫= tree_nodes → is_Some (foldl add_class classes1 cs !! tree_name n)))
    as Hfold.
  { intros cs. induction cs as [|c cs IHcs]; intros classes1.
    - split; [by left|]. split; [done|]. intros n Hn. by apply elem_of_nil in Hn.
    - destruct (add_class_spec c classes1) as (H1 & H2 & H3).
      destruct (IHcs (add_class classes1 c)) as (G1 & G2 & G3).
      cbn [foldl]. split; [|split].
      + intros k v [Hk|(n & Hn & ? & ?)]%G1.
        * apply H1 in Hk as [?|(n & Hn & ? & ?)]; [by left|right].
          exists n. split; [|done]. apply list_elem_of_bind. exists c. split; [done|by left].
        * right. exists n. split; [|done].
          apply list_elem_of_bind in Hn as (c' & ? & ?).
          apply list_elem_of_bind. exists c'. split; [done|by right].
      + intros k Hk. by apply G2, H2.
      + intros n (c' & Hn & [->|Hc']%elem_of_cons)%list_elem_of_bind.
        * by apply G2, H3.
        * apply G3. apply list_elem_of_bind. by exists c'. }
  destruct (Hfold roots ∅) as (G1 & _ & G3). split; [|done].
  intros k v [Hk|?]%G1; [|done]. by rewrite lookup_empty in Hk.
Qed.

Lemma names_consistent_spec roots n1 n2 :
  names_consistent roots = true →
  n1 ∈ roots ≫= tree_nodes → n2 ∈ roots ≫= tree_nodes →
  tree_name n1 = tree_name n2 → class_entry n1 = class_entry n2.
Proof.
  unfold names_consistent. intros Hc H1 H2 Hname.
  rewrite forallb_forall in Hc. apply list_elem_of_In, Hc in H1.
  rewrite forallb_forall in H1. apply list_elem_of_In, H1 in H2.
  rewrite decide_True in H2 by done. by apply bool_decide_eq_true in H2.
Qed.

(** The entry of a class of a consistent hierarchy is the one made of
    it. *)
Lemma add_classes_lookup roots n :
  names_consistent roots = true → n ∈ roots ≫= tree_nodes →
  foldl add_class ∅ roots !! tree_name n = Some (class_entry n).
Proof.
  intros Hc Hn. destruct (add_classes_spec roots) as [G1 G3].
  destruct (G3 n Hn) as [v Hv]. rewrite Hv. f_equal.
  destruct (G1 _ _ Hv) as (n' & Hn' & Hname & ->).
  by apply (names_consistent_spec roots).
Qed.

Lemma sorted_lower_names children :
  sorted_lower (tree_name <$> children) = tree_name <$> sorted_subclasses children.
Proof.
  unfold sorted_lower, sorted_subclasses.
  by rewrite <-(py_sorted_fmap tree_name (λ a b, String.ltb (PyStr.lower a) (PyStr.lower b))).
Qed.

Lemma tree_lines_eq locations detailed fs depth name module children :
  tree_lines locations detailed fs depth (ClassNode name module children)
  = class_line locations detailed fs depth name module
    :: match children with
       | [] => []
       | _ => newline_lines fs
              ++ (sorted_subclasses children ≫= tree_lines locations detailed fs (depth + 1))
              ++ newline_lines fs
       end.
Proof.
  cbn [tree_lines]. f_equal. destruct children as [|c cs]; [done|].
  do 2 f_equal. unfold sorted_subclasses.
  rewrite <-(py_sorted_fmap
               (λ c, (tree_name c, tree_lines locations detailed fs (depth + 1) c))
               (λ a b : string * list string, String.ltb (PyStr.lower a.1) (PyStr.lower b.1))).
  rewrite <-list_fmap_compose. cbn [fst].
  generalize (py_sorted
                (λ a b, String.ltb (PyStr.lower (tree_name a)) (PyStr.lower (tree_name b)))
                (c :: cs)).
  intros l. induction l as [|x l IH]; [done|]. csimpl. by rewrite IH.
Qed.

Lemma classes_tree_step_class tree classes locations detailed fs depth txt n :
  classes !! tree_name n = Some (class_entry n) →
  classes_tree_step tree classes locations detailed fs depth (Some (Return txt)) (tree_name n)
  = match tree_subclasses n with
    | [] => Some (Return (txt ++ [class_line locations detailed fs depth (tree_name n)
                                    (tree_module n)]))
    | _ =>
        match tree (tree_name <$> sorted_subclasses (tree_subclasses n)) with
        | Some (inr lines) =>
            Some (Return ((txt ++ [class_line locations detailed fs depth (tree_name n)
                                     (tree_module n)])
                          ++ newline_lines fs ++ lines ++ newline_lines fs))
        | other => other
        end
    end.
Proof.
  intros Hlook. unfold classes_tree_step, Return. rewrite Hlook.
  destruct n as [name module children]. rewrite class_entry_eq. cbn [fst snd tree_subclasses].
  rewrite sorted_lower_names.
  assert (sorted_subclasses children ≡ₚ children) as Hperm by apply py_sorted_perm.
  destruct children as [|c cs]; [done|].
  destruct (sorted_subclasses (c :: cs)) as [|c' cs'] eqn:Hsorted.
  { apply Permutation_length in Hperm. done. }
  rewrite fmap_cons. cbn [tree_name tree_module].
  destruct (tree _) as [[e|lines]|]; [done| |done].
  by rewrite <-!app_assoc.
Qed.

Lemma classes_tree_loop tree classes locations detailed fs depth (ns : list class_tree) :
  ∀ acc,
    (∀ n, n ∈ ns → classes !! tree_name n = Some (class_entry n)) →
    (∀ n, n ∈ ns → tree_subclasses n ≠ [] →
       tree (tree_name <$> sorted_subclasses (tree_subclasses n))
       = Some (Return (sorted_subclasses (tree_subclasses n)
                       ≫= tree_lines locations detailed fs (depth + 1)))) →
    foldl (classes_tree_step tree classes locations detailed fs depth) (Some (Return acc))
      (tree_name <$> ns)
    = Some (Return (acc ++ (ns ≫= tree_lines locations detailed fs depth))).
Proof.
  induction ns as [|n ns IH]; intros acc Hlook Htree.
  - simpl. by rewrite app_nil_r.
  - rewrite fmap_cons. cbn [foldl].
    rewrite classes_tree_step_class by (apply Hlook; by left).
    rewrite bind_cons. destruct n as [name module children]. rewrite tree_lines_eq.
    cbn [tree_subclasses tree_name tree_module].
    destruct children as [|c cs].
    + rewrite IH by (intros ??; first [apply Hlook|apply Htree]; by right).
      by rewrite <-app_assoc.
    + pose proof (Htree (ClassNode name module (c :: cs))) as Hcall.
      cbn [tree_subclasses] in Hcall. rewrite Hcall by (by left || done).
      unfold Return at 1.
      rewrite IH by (intros ??; first [apply Hlook|apply Htree]; by right).
      cbn [tree_subclasses]. f_equal. f_equal. rewrite <-!app_assoc. f_equal.
      simpl. f_equal. by rewrite <-!app_assoc.
Qed.

(** The lines that [avail_classes_tree] makes of the names of classes of
    a consistent hierarchy, given fuel for the levels under them. *)
Lemma avail_classes_tree_lines roots locations detailed fs fuel :
  names_consistent roots = true →
  ∀ (ns : list class_tree) depth,
    (∀ n, n ∈ ns → tree_nodes n ⊆ roots ≫= tree_nodes) →
    (∀ n, n ∈ ns → tree_height n ≤ S fuel) →
    avail_classes_tree (S fuel) (foldl add_class ∅ roots) (tree_name <$> ns) locations
      detailed fs depth
    = Some (Return (ns ≫= tree_lines locations detailed fs depth)).
Proof.
  intros Hc. induction fuel as [|fuel IHfuel]; intros ns depth Hsub Hheight.
  - cbn [avail_classes_tree]. rewrite classes_tree_loop; [done| |].
    + intros n Hn. apply add_classes_lookup; [done|]. apply (Hsub n Hn), tree_nodes_self.
    + intros n Hn Hne. exfalso. destruct (tree_subclasses n) as [|c cs] eqn:Hch; [done|].
      assert (S (tree_height c) ≤ tree_height n) as Hh
        by (apply tree_height_subclass; rewrite Hch; by left).
      assert (1 ≤ tree_height c) by (destruct c; simpl; lia).
      specialize (Hheight n Hn). lia.
  - change (avail_classes_tree (S (S fuel)) (foldl add_class ∅ roots) (tree_name <$> ns)
              locations detailed fs depth)
      with (foldl (classes_tree_step
                     (λ names, avail_classes_tree (S fuel) (foldl add_class ∅ roots)
                                 names locations detailed fs (depth + 1))
                     (foldl add_class ∅ roots) locations detailed fs depth)
              (Some (Return [])) (tree_name <$> ns)).
    rewrite classes_tree_loop; [done| |].
    + intros n Hn. apply add_classes_lookup; [done|]. apply (Hsub n Hn), tree_nodes_self.
    + intros n Hn Hne. apply IHfuel.
      * intros m Hm%elem_of_py_sorted k Hk. apply (Hsub n Hn).
        by apply (tree_nodes_subclass _ m).
      * intros m Hm%elem_of_py_sorted.
        assert (S (tree_height m) ≤ tree_height n) as Hh by (by apply tree_height_subclass).
        specialize (Hheight n Hn). lia.
Qed.

(** X26.  The tree of classes that [gen_list_easyblocks] prints is the
    hierarchy itself: where classes of the same name have the same module
    and subclasses of the same names, no lookup in the dictionary of
    classes fails and, given fuel for the levels of the hierarchy, the text
    has for every root its line and under it, level by level, the lines of
    the classes that derive from it, the subclasses of a class in the order
    of their names in lower case. *)
Theorem gen_list_easyblocks_tree (fuel : nat) roots (locations : gmap string string)
    (detailed : bool) (fs : format_strings) :
  names_consistent roots = true →
  (∀ root, root ∈ roots → tree_height root ≤ fuel) →
  gen_list_easyblocks fuel roots locations detailed fs
  = Some (Return (PyStr.join nl (roots ≫= root_lines locations detailed fs))).
Proof.
  intros Hc Hheight. unfold gen_list_easyblocks.
  assert (∀ (rs : list class_tree) acc,
            (∀ root, root ∈ rs → root ∈ roots) →
            foldl (root_step fuel (foldl add_class ∅ roots) locations detailed fs)
              (Some (Return acc)) rs
            = Some (Return (acc ++ (rs ≫= root_lines locations detailed fs)))) as Hloop.
  { intros rs. induction rs as [|root rs IH]; intros acc Hsub.
    - simpl. by rewrite app_nil_r.
    - cbn [foldl]. unfold root_step at 2. unfold Return in *.
      assert (root ∈ roots) as Hroot by (apply Hsub; by left).
      assert (tree_nodes root ⊆ roots ≫= tree_nodes) as Hnodes.
      { intros n Hn. apply list_elem_of_bind. by exists root. }
      rewrite (add_classes_lookup roots root Hc) by (apply Hnodes, tree_nodes_self).
      destruct root as [name module children]. rewrite class_entry_eq. cbn [fst snd tree_name].
      rewrite sorted_lower_names.
      destruct fuel as [|fuel'].
      { specialize (Hheight _ Hroot). simpl in Hheight. lia. }
      rewrite (avail_classes_tree_lines roots locations detailed fs fuel' Hc).
      + unfold Return. rewrite IH by (intros ??; apply Hsub; by right).
        rewrite bind_cons. unfold root_lines at 2. cbn [tree_name tree_module tree_subclasses].
        f_equal. f_equal. rewrite <-!app_assoc. done.
      + intros m Hm%elem_of_py_sorted k Hk. apply Hnodes.
        by apply (tree_nodes_subclass _ m).
      + intros m Hm%elem_of_py_sorted.
        assert (S (tree_height m) ≤ tree_height (ClassNode name module children)) as Hh
          by (by apply tree_height_subclass).
        specialize (Hheight _ Hroot). lia. }
  rewrite (Hloop roots []) by done. done.
Qed.

Lemma tree_nodes_trans root n m :
  n ∈ tree_nodes root → m ∈ tree_nodes n → m ∈ tree_nodes root.
Proof.
  revert n. induction root as [rname rmodule rchildren IH] using class_tree_forall_ind.
  intros n [->|Hn]%elem_of_cons Hm; [done|].
  right. apply list_elem_of_bind in Hn as (r & Hn & Hr).
  apply list_elem_of_bind. exists r. split; [|done].
  rewrite Forall_forall in IH. by apply (IH r Hr n).
Qed.

Lemma add_classes_closed roots k (info : class_info) name :
  foldl add_class ∅ roots !! k = Some info → name ∈ info.2 →
  is_Some (foldl add_class ∅ roots !! name).
Proof.
  destruct (add_classes_spec roots) as [G1 G3].
  intros (n & Hn & _ & ->)%G1 Hname.
  unfold class_entry in Hname. cbn [snd] in Hname.
  apply elem_of_py_sorted, list_elem_of_fmap in Hname as (c & -> & Hc).
  apply G3. apply list_elem_of_bind in Hn as (root & Hn & Hroot).
  apply list_elem_of_bind. exists root. split; [|done].
  apply (tree_nodes_trans root n c Hn).
  apply (tree_nodes_subclass n c c Hc), tree_nodes_self.
Qed.

Lemma classes_tree_step_no_error tree classes locations detailed fs depth acc name e :
  (∀ e', acc ≠ Some (inl e')) → is_Some (classes !! name) →
  (∀ info e', classes !! name = Some info → tree info.2 ≠ Some (inl e')) →
  classes_tree_step tree classes locations detailed fs depth acc name ≠ Some (inl e).
Proof.
  intros Hacc [info Hinfo] Htree. unfold classes_tree_step.
  destruct acc as [[e0|txt]|]; [by destruct (Hacc e0)| |done].
  rewrite Hinfo. destruct info.2 as [|c cs] eqn:Hchildren; [done|].
  specialize (Htree info). rewrite Hchildren in Htree.
  destruct (tree (c :: cs)) as [[e0|lines]|]; [|done..].
  by destruct (Htree e0).
Qed.

Lemma avail_classes_tree_no_error roots locations detailed fs fuel :
  ∀ (names : list string) depth e,
    (∀ name, name ∈ names → is_Some (foldl add_class ∅ roots !! name)) →
    avail_classes_tree fuel (foldl add_class ∅ roots) names locations detailed fs depth
    ≠ Some (inl e).
Proof.
  induction fuel as [|fuel IH]; intros names depth e Hkeys; [done|].
  cbn [avail_classes_tree].
  assert (∀ acc, (∀ e', acc ≠ Some (inl e')) →
            foldl (classes_tree_step
                     (λ names', avail_classes_tree fuel (foldl add_class ∅ roots) names'
                                  locations detailed fs (depth + 1))
                     (foldl add_class ∅ roots) locations detailed fs depth) acc names
            ≠ Some (inl e)) as Hloop; [|by apply Hloop].
  induction names as [|name names IHnames]; intros acc Hacc; [apply Hacc|].
  cbn [foldl]. apply IHnames; [intros ??; apply Hkeys; by right|].
  intros e'. apply classes_tree_step_no_error; [done|apply Hkeys; by left|].
  intros info e'' Hinfo. apply IH. intros c Hc. by apply (add_classes_closed roots name info).
Qed.

(** X27.  [gen_list_easyblocks] never raises: whatever the hierarchy,
    also where classes share a name, every name it looks up in the
    dictionary of classes, a root or a child of a class, is a key of it. *)
Theorem gen_list_easyblocks_no_error (fuel : nat) roots (locations : gmap string string)
    (detailed : bool) (fs : format_strings) (e : exn) :
  gen_list_easyblocks fuel roots locations detailed fs ≠ Some (Raise e)
  ∧ (∀ root, root ∈ roots → is_Some (foldl add_class ∅ roots !! tree_name root))
  ∧ (∀ k info name, foldl add_class ∅ roots !! k = Some info → name ∈ info.2 →
       is_Some (foldl add_class ∅ roots !! name)).
Proof.
  assert (∀ root, root ∈ roots → is_Some (foldl add_class ∅ roots !! tree_name root))
    as Hroots.
  { intros root Hroot. apply add_classes_spec, list_elem_of_bind.
    exists root. split; [apply tree_nodes_self|done]. }
  split; [|split; [done|apply add_classes_closed]].
  unfold gen_list_easyblocks.
  assert (∀ (rs : list class_tree) acc,
            (∀ root, root ∈ rs → root ∈ roots) → (∀ e', acc ≠ Some (inl e')) →
            ∀ e', foldl (root_step fuel (foldl add_class ∅ roots) locations detailed fs) acc rs
                  ≠ Some (inl e')) as Hloop.
  { intros rs. induction rs as [|root rs IH]; intros acc Hsub Hacc; [done|].
    cbn [foldl]. apply IH; [intros ??; apply Hsub; by right|].
    intros e'. unfold root_step. destruct acc as [[e0|txt]|]; [by destruct (Hacc e0)| |done].
    destruct (Hroots root) as [info Hinfo]; [apply Hsub; by left|]. rewrite Hinfo.
    destruct (avail_classes_tree fuel (foldl add_class ∅ roots) info.2 locations detailed fs 0)
      as [[e0|lines]|] eqn:Htree; [|done..].
    exfalso. revert Htree. apply avail_classes_tree_no_error.
    intros c Hc. by apply (add_classes_closed roots (tree_name root) info). }
  specialize (Hloop roots (Some (Return [])) (λ _ H, H)).
  destruct (foldl (root_step fuel (foldl add_class ∅ roots) locations detailed fs)
              (Some (Return [])) roots) as [[e0|txt]|] eqn:Hres; [|done..].
  exfalso. by apply (Hloop ltac:(done) e0).
Qed.

(** X28.  [list_easyblocks] raises [NotImplementedError] for the json
    format and [KeyError] for a format that is none of md, rst, txt and
    json, before it looks at any class and whatever the fuel; for the three
    formats it prints the tree with their format strings, and only the
    reStructuredText tree has empty lines around the levels. *)
Theorem list_easyblocks_formats (fuel : nat) roots (locations : gmap string string)
    (list_easyblocks_arg output_format : string) :
  (output_format = FORMAT_JSON →
   list_easyblocks fuel roots locations list_easyblocks_arg output_format
   = Some (Raise (NotImplementedError "JSON output format not supported for list_easyblocks")))
  ∧ (output_format ∉ [FORMAT_JSON; FORMAT_MD; FORMAT_RST; FORMAT_TXT] →
     list_easyblocks fuel roots locations list_easyblocks_arg output_format
     = Some (Raise (KeyError output_format)))
  ∧ (output_format ∈ [FORMAT_MD; FORMAT_RST; FORMAT_TXT] →
     ∃ fs, od_lookup output_format easyblocks_format_strings = Some fs
       ∧ list_easyblocks fuel roots locations list_easyblocks_arg output_format
         = gen_list_easyblocks fuel roots locations
             (bool_decide (list_easyblocks_arg = DETAILED)) fs
       ∧ (newline_lines fs = if decide (output_format = FORMAT_RST) then [""] else [])).
Proof.
  unfold list_easyblocks. split; [|split].
  - intros ->. done.
  - intros Hnot. rewrite !not_elem_of_cons in Hnot. destruct Hnot as (? & ? & ? & ? & _).
    rewrite decide_False by done. simpl.
    by rewrite !decide_False by done.
  - intros Hin. repeat (apply elem_of_cons in Hin as [->|Hin]);
      [eexists; split; [reflexivity|split; reflexivity]..|by apply elem_of_nil in Hin].
Qed.

End ClassTreeExtras.

Lemma gen_list_easyblocks_tree_witness :
  names_consistent TreeExamples.roots = true
  ∧ (∀ root, root ∈ TreeExamples.roots → tree_height root ≤ 3)
  ∧ gen_list_easyblocks 3 TreeExamples.roots TreeExamples.locations false
      TreeExamples.txt_format
    = Some (Return (PyStr.join nl
        ["EasyBlock"; "|-- Binary"; "|-- ConfigureMake"; "|   |-- CMakeMake";
         "|-- ExtensionEasyBlock"; "|   |-- PythonPackage";
         "Extension"; "|-- ExtensionEasyBlock"; "|   |-- PythonPackage"])).
Proof.
  assert (names_consistent TreeExamples.roots = true) as Hc by (vm_compute; reflexivity).
  assert (∀ root, root ∈ TreeExamples.roots → tree_height root ≤ 3) as Hheight.
  { intros root Hin. unfold TreeExamples.roots in Hin.
    repeat (apply elem_of_cons in Hin as [->|Hin]); [simpl; lia..|by apply elem_of_nil in Hin]. }
  split; [exact Hc|]. split; [exact Hheight|].
  rewrite (gen_list_easyblocks_tree 3 TreeExamples.roots TreeExamples.locations false
             TreeExamples.txt_format Hc Hheight).
  vm_compute. reflexivity.
Defined.

(** ** More on the catalog a call builds *)

Lemma string_app_inj_r (s1 s2 t : string) : s1 +:+ t = s2 +:+ t → s1 = s2.
Proof.
  intros Heq.
  assert (String.length s1 = String.length s2) as Hlen.
  { apply (f_equal String.length) in Heq. rewrite !string_length_app in Heq. lia. }
  revert s2 Heq Hlen. induction s1 as [|a s1 IH]; intros [|b s2] Heq Hlen; try done.
  injection Heq as -> Heq. f_equal. apply IH; [done|]. simpl in Hlen. lia.
Qed.

Section CatalogExtras.
Context `{!Externals}.
Implicit Types (h : heap) (easyblock : option string).

(** The entry of a parameter in the group of its category, where no other
    parameter of the category is listed under the same name. *)
Lemma category_group_exact (params : gmap string param_entry)
    (extra : gmap string param_entry) (name : string) (e : param_entry) :
  params !! name = Some e →
  (∀ name', is_Some (params !! name') →
     rendered_name extra name' = rendered_name extra name → name' = name) →
  category_group (sorted_items params) extra e.2 !! rendered_name extra name
  = Some (e.1.2, e.1.1).
Proof.
  intros Hname Huniq.
  destruct (category_group_is_Some (sorted_items params) extra e.2 (name, e)) as [v Hv];
    [by apply elem_of_sorted_items|done|]. cbn [fst] in Hv. rewrite Hv. f_equal.
  apply category_group_lookup in Hv as ([name' e'] & Hitem & _ & Hr & ->).
  apply elem_of_sorted_items in Hitem. cbn [fst snd] in *.
  assert (name' = name) as -> by (apply Huniq; [by eexists|done]).
  assert (Some e' = Some e) as [= ->] by (rewrite <-Hitem; exact Hname). done.
Qed.

(** Where the categories have distinct names, a parameter of a listed
    category that is not hidden is in the group of its category. *)
Lemma catalog_entry_listed easyblock h (name : string) (e : param_entry) :
  merged_params easyblock h !! name = Some e →
  (∀ name', is_Some (merged_params easyblock h !! name') →
     rendered_name (extra_params_of (get_easyblock_class easyblock)) name'
     = rendered_name (extra_params_of (get_easyblock_class easyblock)) name → name' = name) →
  NoDup sorted_categories.*2 → e.2 ∈ sorted_categories → PyStr.upper e.2.2 ≠ HIDDEN →
  ∃ g, od_lookup e.2.2 (groups_of_args (avail_easyconfig_params_args easyblock h).1) = Some g
       ∧ g !! rendered_name (extra_params_of (get_easyblock_class easyblock)) name
         = Some (e.1.2, e.1.1).
Proof.
  intros Hname Huniq Hnd Hcat Hh. rewrite catalog_groups.
  pose proof (category_group_exact _ _ _ _ Hname Huniq) as Hentry.
  eexists. split; [|exact Hentry].
  apply grouped_params_lookup; try done.
  intros Hempty. by rewrite Hempty, lookup_empty in Hentry.
Qed.

(** X29.  For the Markdown format a call of [avail_easyconfig_params]
    returns a text where no category has the empty string as name: a group
    is named after its category, and the renderer takes the first character
    of the name of every group. *)
Theorem avail_easyconfig_params_md_return easyblock h :
  (∀ c, c ∈ sorted_categories → c.2 ≠ "") →
  ∃ text, (avail_easyconfig_params easyblock FORMAT_MD h).1 = Return text.
Proof.
  intros Hnames. rewrite avail_easyconfig_params_eq.
  assert (∀ k g, (k, g) ∈ groups_of_args (avail_easyconfig_params_args easyblock h).1 →
                 k ≠ "") as Hk.
  { intros k g Hin. rewrite catalog_groups in Hin.
    destruct (grouped_params_inv (sorted_items (merged_params easyblock h))
                (extra_params_of (get_easyblock_class easyblock)) sorted_categories)
      as [_ Hinv].
    destruct (Hinv _ _ Hin) as (_ & c & Hc & _ & <- & _). by apply Hnames. }
  rewrite avail_easyconfig_params_args_eq in *. cbn [fst snd groups_of_args] in *.
  by apply (avail_easyconfig_params_md_returns _ _ _).
Qed.

(** X30.  A parameter that the easyblock defines is listed as the
    easyblock defines it, also where the base schema has a parameter of
    that name: where no parameter name contains ['*'], no group has an entry
    under the plain name, an entry under the name with ['*'] appended is in
    the group of the category the easyblock gives, with the description and
    the default value the easyblock gives, and there is such an entry where
    the categories have distinct names and that category is listed and not
    hidden. *)
Theorem extra_parameter_overrides easyblock h (name : string) (e : param_entry) :
  extra_params_of (get_easyblock_class easyblock) !! name = Some e →
  (∀ n, is_Some (merged_params easyblock h !! n) → PyStr.count_char "*" n = 0) →
  let grouped := groups_of_args (avail_easyconfig_params_args easyblock h).1 in
  merged_params easyblock h !! name = Some e
  ∧ (∀ grpname g, (grpname, g) ∈ grouped →
       g !! name = None
       ∧ ∀ v, g !! (name +:+ "*") = Some v → v = (e.1.2, e.1.1) ∧ grpname = e.2.2)
  ∧ (NoDup sorted_categories.*2 → e.2 ∈ sorted_categories → PyStr.upper e.2.2 ≠ HIDDEN →
     ∃ g, od_lookup e.2.2 grouped = Some g ∧ (e.2.2, g) ∈ grouped
          ∧ g !! (name +:+ "*") = Some (e.1.2, e.1.1)).
Proof.
  intros Hextra Hstar grouped.
  assert (merged_params easyblock h !! name = Some e) as Hmerged.
  { unfold merged_params. by apply lookup_union_Some_l. }
  split; [done|]. split.
  - intros grpname g Hin. split.
    + destruct (g !! name) as [v|] eqn:Hv; [|done]. exfalso.
      destruct (catalog_entry_origin _ _ _ _ _ _ Hin Hv)
        as (name' & e' & He' & _ & _ & _ & _ & Hr).
      destruct (rendered_name_spec (extra_params_of (get_easyblock_class easyblock)) name')
        as [[_ Hr']|[Hnone Hr']]; rewrite Hr' in Hr.
      * assert (PyStr.count_char "*" name = 0) as Hc by (apply Hstar; by eexists).
        rewrite Hr, count_char_app in Hc. simpl in Hc. lia.
      * subst name'. rewrite Hextra in Hnone. discriminate.
    + intros v Hv.
      destruct (catalog_entry_origin _ _ _ _ _ _ Hin Hv)
        as (name' & e' & He' & _ & _ & Hgrp & -> & Hr).
      destruct (rendered_name_spec (extra_params_of (get_easyblock_class easyblock)) name')
        as [[_ Hr']|[Hnone Hr']]; rewrite Hr' in Hr.
      * apply string_app_inj_r in Hr as <-.
        assert (Some e' = Some e) as [= ->] by (rewrite <-He'; exact Hmerged). done.
      * exfalso. assert (PyStr.count_char "*" name' = 0) as Hc by (apply Hstar; by eexists).
        rewrite <-Hr, count_char_app in Hc. simpl in Hc. lia.
  - intros Hnd Hcat Hh.
    destruct (catalog_entry_listed easyblock h name e Hmerged) as (g & Hg & Hentry);
      [|done..|].
    { intros name' Hname' Hr. apply (rendered_name_inj _ _ _ (Hstar _ Hname')) in Hr; [done|].
      apply Hstar. by eexists. }
    exists g. split; [done|]. split.
    + apply od_lookup_Some; [apply catalog_groups_NoDup|done].
    + destruct (rendered_name_spec (extra_params_of (get_easyblock_class easyblock)) name)
        as [[_ Hr]|[Hnone _]]; [by rewrite <-Hr|].
      rewrite Hextra in Hnone. discriminate.
Qed.

End CatalogExtras.

Lemma avail_easyconfig_params_md_return_witness :
  (∀ c, c ∈ sorted_categories (Externals:=Examples.example_env) → c.2 ≠ "")
  ∧ ∃ text, (avail_easyconfig_params (H:=Examples.example_env) (Some "ConfigureMake")
               FORMAT_MD Examples.example_heap).1 = Return text.
Proof.
  assert (∀ c, c ∈ sorted_categories (Externals:=Examples.example_env) → c.2 ≠ "") as Hnames.
  { intros c Hin. simpl in Hin.
    repeat (apply elem_of_cons in Hin as [->|Hin]); [done..|by apply elem_of_nil in Hin]. }
  split; [exact Hnames|].
  exact (avail_easyconfig_params_md_return (H:=Examples.example_env) (Some "ConfigureMake")
           Examples.example_heap Hnames).
Defined.

Lemma override_names_star_free n :
  is_Some (merged_params (H:=MoreExamples.override_env) (Some "Overrider")
             Examples.example_heap !! n) →
  PyStr.count_char "*" n = 0.
Proof.
  assert (map_Forall (λ k (_ : param_entry), PyStr.count_char "*" k = 0)
            (merged_params (H:=MoreExamples.override_env) (Some "Overrider")
               Examples.example_heap)) as Hall.
  { refine (bool_decide_unpack _ _). vm_compute. exact I. }
  intros [e He]. by eapply Hall.
Qed.

Lemma override_categories_NoDup :
  NoDup (sorted_categories (Externals:=MoreExamples.override_env)).*2.
Proof. refine (bool_decide_unpack _ _). vm_compute. exact I. Qed.

(** [Overrider] defines [configopts], a parameter of the base schema, anew:
    the catalog lists [configopts*] in the group of the easyblock's
    category, with the easyblock's description and default value, and no
    [configopts]. *)
Lemma extra_parameter_overrides_witness :
  let e : param_entry :=
    (PyStr "--enable-shared", "Options for the configure script of this easyblock",
     Examples.CUSTOM) in
  let grouped :=
    groups_of_args (avail_easyconfig_params_args (H:=MoreExamples.override_env)
                      (Some "Overrider") Examples.example_heap).1 in
  extra_params_of (get_easyblock_class (Externals:=MoreExamples.override_env)
                     (Some "Overrider")) !! "configopts" = Some e
  ∧ (∀ n, is_Some (merged_params (H:=MoreExamples.override_env) (Some "Overrider")
                     Examples.example_heap !! n) → PyStr.count_char "*" n = 0)
  ∧ Examples.example_config !! "configopts"
    = Some (PyStr "", "Extra options passed to configure", Examples.BUILD)
  ∧ merged_params (H:=MoreExamples.override_env) (Some "Overrider") Examples.example_heap
      !! "configopts" = Some e
  ∧ (∀ grpname g, (grpname, g) ∈ grouped → g !! "configopts" = None)
  ∧ ∃ g, od_lookup "easyblock-specific" grouped = Some g
         ∧ ("easyblock-specific", g) ∈ grouped
         ∧ g !! "configopts*"
           = Some ("Options for the configure script of this easyblock",
                   PyStr "--enable-shared").
Proof.
  intros e grouped.
  assert (extra_params_of (get_easyblock_class (Externals:=MoreExamples.override_env)
                             (Some "Overrider")) !! "configopts" = Some e) as Hextra
    by (vm_compute; reflexivity).
  split; [exact Hextra|]. split; [exact override_names_star_free|].
  split; [vm_compute; reflexivity|].
  destruct (extra_parameter_overrides (H:=MoreExamples.override_env) (Some "Overrider")
              Examples.example_heap "configopts" e Hextra override_names_star_free)
    as (Hmerged & Hgroups & Hlisted).
  split; [exact Hmerged|]. split.
  - intros grpname g Hin. exact (proj1 (Hgroups grpname g Hin)).
  - apply (Hlisted override_categories_NoDup).
    + vm_compute. do 2 right. left.
    + vm_compute. discriminate.
Defined.

(** ** The catalog for an easyblock that is not known *)

Section UnknownEasyblock.
Context `{!Externals}.
Implicit Types (h : heap) (easyblock : option string).

(** C7.  For an easyblock name that resolves to no class the call does not
    fail on that account: every format's renderer is handed the title
    without the qualifier, and groups that are the catalog of the base
    schema.  The groups have distinct names, each is the non-empty group of
    a listed category that is not hidden; every entry of a group is a
    parameter of the base schema of that category, under its own name,
    with its description and default value; and, where the categories have
    distinct names, every parameter of the base schema whose category is
    listed and not hidden is an entry of the group of its category.  The
    plain-text and reStructuredText renderers return their text, the
    Markdown renderer too where no category has an empty name. *)
Theorem unknown_easyblock_base_catalog easyblock h :
  get_easyblock_class easyblock = None →
  let base := heap_dict h DEFAULT_CONFIG in
  ∃ grouped : grouped_dict,
    (∀ output_format,
       (avail_easyconfig_params easyblock output_format h).1
       = generate_doc ("avail_easyconfig_params_" +:+ output_format)
           [AStr "Available easyconfig parameters"; AGrouped grouped;
            AAlt (reverse_mapping ALTERNATIVE_EASYCONFIG_PARAMETERS)])
    ∧ NoDup grouped.*1
    ∧ (∀ grpname g, (grpname, g) ∈ grouped →
         g ≠ ∅ ∧ ∃ c, c ∈ sorted_categories ∧ c.2 = grpname ∧ PyStr.upper c.2 ≠ HIDDEN)
    ∧ (∀ grpname g name v, (grpname, g) ∈ grouped → g !! name = Some v →
         ∃ e, base !! name = Some e ∧ e.2 ∈ sorted_categories ∧ e.2.2 = grpname
              ∧ v = (e.1.2, e.1.1))
    ∧ (NoDup sorted_categories.*2 →
       ∀ name e, base !! name = Some e → e.2 ∈ sorted_categories →
         PyStr.upper e.2.2 ≠ HIDDEN →
         ∃ g, (e.2.2, g) ∈ grouped ∧ g !! name = Some (e.1.2, e.1.1))
    ∧ (∃ text, (avail_easyconfig_params easyblock FORMAT_TXT h).1 = Return text)
    ∧ (∃ text, (avail_easyconfig_params easyblock FORMAT_RST h).1 = Return text)
    ∧ (Forall (λ c : category, c.2 ≠ "") sorted_categories →
       ∃ text, (avail_easyconfig_params easyblock FORMAT_MD h).1 = Return text).
Proof.
  intros Hnone base.
  assert (merged_params easyblock h = base) as Hmerged.
  { unfold merged_params. rewrite Hnone. simpl. apply (left_id_L ∅ (∪)). }
  assert (∀ name, rendered_name (extra_params_of (get_easyblock_class easyblock)) name = name)
    as Hplain.
  { intros name. rewrite Hnone. unfold rendered_name. simpl.
    rewrite decide_False; [done|]. rewrite lookup_empty. by intros [? ?]. }
  set (grouped := groups_of_args (avail_easyconfig_params_args easyblock h).1).
  assert ((avail_easyconfig_params_args easyblock h).1
          = [AStr "Available easyconfig parameters"; AGrouped grouped;
             AAlt (reverse_mapping ALTERNATIVE_EASYCONFIG_PARAMETERS)]) as Hargs.
  { subst grouped. rewrite avail_easyconfig_params_args_eq. cbn [fst snd groups_of_args].
    by rewrite Hnone. }
  assert (∀ grpname g, (grpname, g) ∈ grouped →
            g ≠ ∅ ∧ ∃ c, c ∈ sorted_categories ∧ c.2 = grpname ∧ PyStr.upper c.2 ≠ HIDDEN)
    as Hgroups.
  { intros grpname g Hin. subst grouped. rewrite catalog_groups in Hin.
    destruct (grouped_params_inv (sorted_items (merged_params easyblock h))
                (extra_params_of (get_easyblock_class easyblock)) sorted_categories)
      as [_ Hinv].
    destruct (Hinv _ _ Hin) as (Hne & c & Hc & Hh & Hk & _). split; [done|]. by exists c. }
  exists grouped. split; [|split; [|split; [|split; [|split; [|split; [|split]]]]]].
  - intros output_format. rewrite avail_easyconfig_params_eq. cbn [fst snd]. by rewrite Hargs.
  - apply catalog_groups_NoDup.
  - exact Hgroups.
  - intros grpname g name v Hin Hv.
    destruct (catalog_entry_origin _ _ _ _ _ _ Hin Hv)
      as (name' & e & Hname & Hcat & _ & Hgrp & Hval & Hr).
    rewrite Hplain in Hr. subst name'. rewrite Hmerged in Hname. by exists e.
  - intros Hnd name e Hname Hcat Hh. rewrite <-Hmerged in Hname.
    destruct (catalog_entry_listed easyblock h name e Hname) as (g & Hg & Hentry);
      [|done..|].
    { intros name' _. by rewrite !Hplain. }
    rewrite Hplain in Hentry. exists g. split; [|done].
    apply od_lookup_Some; [apply catalog_groups_NoDup|done].
  - apply avail_easyconfig_params_txt_call.
  - rewrite avail_easyconfig_params_eq. cbn [fst snd]. rewrite Hargs. by eexists.
  - intros Hnames. rewrite avail_easyconfig_params_eq. cbn [fst snd]. rewrite Hargs.
    apply (avail_easyconfig_params_md_returns _ _ _).
    intros k g Hin. destruct (Hgroups k g Hin) as (_ & c & Hc & <- & _).
    rewrite Forall_forall in Hnames. by apply Hnames.
Qed.

End UnknownEasyblock.

(** No easyblock is called [NoSuchBlock]: the catalog is that of the base
    schema, with the parameter [name] in the group [mandatory] and no
    parameter of [ConfigureMake]. *)
Lemma unknown_easyblock_base_catalog_witness :
  get_easyblock_class (Externals:=Examples.example_env) (Some "NoSuchBlock") = None
  ∧ ∃ grouped : grouped_dict,
      (avail_easyconfig_params (H:=Examples.example_env) (Some "NoSuchBlock") FORMAT_TXT
         Examples.example_heap).1
      = avail_easyconfig_params_txt (H:=Examples.example_env)
          "Available easyconfig parameters" grouped
          (reverse_mapping [("configure_opts", "configopts")])
      ∧ (∃ g, ("mandatory", g) ∈ grouped ∧ g !! "name" = Some ("Name of software", PyNone))
      ∧ (∀ grpname g, (grpname, g) ∈ grouped →
           g !! "tar_config_opts" = None ∧ g !! "tar_config_opts*" = None)
      ∧ ∃ text, (avail_easyconfig_params (H:=Examples.example_env) (Some "NoSuchBlock")
                   FORMAT_TXT Examples.example_heap).1 = Return text.
Proof.
  assert (get_easyblock_class (Externals:=Examples.example_env) (Some "NoSuchBlock") = None)
    as Hnone by reflexivity.
  split; [exact Hnone|].
  destruct (unknown_easyblock_base_catalog (H:=Examples.example_env)
              (Some "NoSuchBlock") Examples.example_heap Hnone)
    as (grouped & Hdoc & _ & _ & Hsound & Hcomplete & Htxt & _).
  exists grouped. split; [exact (Hdoc FORMAT_TXT)|]. split; [|split; [|exact Htxt]].
  - apply (Hcomplete example_categories_NoDup "name"
             (PyNone, "Name of software", Examples.MANDATORY)).
    + vm_compute. reflexivity.
    + vm_compute. right. left.
    + vm_compute. discriminate.
  - intros grpname g Hin. split.
    + destruct (g !! "tar_config_opts") as [v|] eqn:Hv; [|reflexivity].
      destruct (Hsound _ _ _ _ Hin Hv) as (e & He & _). vm_compute in He. discriminate.
    + destruct (g !! "tar_config_opts*") as [v|] eqn:Hv; [|reflexivity].
      destruct (Hsound _ _ _ _ Hin Hv) as (e & He & _). vm_compute in He. discriminate.
Defined.
